(** * 成績分析プログラム (student score analysis): a shallow embedding

    The program reads a CSV file of (名前, 日付, 科目, スコア) rows, prints an
    overview, computes per-student statistics, prints them with a class
    summary and a ranking, and repeats the analysis per subject.

    The embedding follows the Python source function by function.  Python
    values are modelled as the source uses them:
    - [str] is a [string] holding the UTF-8 bytes of the text (the file is
      opened with encoding='utf-8'; bytewise lexicographic order of UTF-8
      is the code point order Python compares by);
    - a CSV cell read through [csv.DictReader] is a [str] or [None]: [cell];
    - [int] is [Z] (unbounded);
    - [float] is a finite binary64 value, mantissa times a power of two,
      produced only by correctly rounded conversions;
    - a [dict] keeps insertion order: an association list;
    - [print] appends a line to the output; an exception aborts the
      enclosing computation until a handler catches it. *)

From Stdlib Require Import ZArith QArith Lia Lra String Ascii.
From Stdlib Require Import Floats.SpecFloat.
From Stdlib Require Import Sorting.Sorted Sorting.Permutation.
From Stdlib Require OrderedTypeEx.
From stdpp Require Import base option list strings gmap.

Local Open Scope Z_scope.

(** ** Python numbers *)

Module PyNum.

(** A finite binary64 value [fmant * 2 ^ fexp].  The sign of zero is not
    tracked. *)
Record float := Float { fmant : Z; fexp : Z }.

(** The value of a Python number is an [int] or a [float]. *)
Inductive num :=
| PyInt (z : Z)
| PyFloat (x : float).

Definition is_int (x : num) : bool :=
  match x with PyInt _ => true | PyFloat _ => false end.

(** The exact rational a float stands for ([float.as_integer_ratio]). *)
Definition F2Q (x : float) : Q :=
  if 0 <=? fexp x then inject_Z (fmant x * 2 ^ fexp x)
  else Qmake (fmant x) (Z.to_pos (2 ^ (- fexp x))).

Definition num_Q (x : num) : Q :=
  match x with PyInt z => inject_Z z | PyFloat f => F2Q f end.

(** Python compares ints and floats by their exact values. *)
Definition num_le (x y : num) : Prop := (num_Q x <= num_Q y)%Q.
Definition num_leb (x y : num) : bool := Qle_bool (num_Q x) (num_Q y).

(** [rne p q] is the integer nearest to [p / q] ([0 < q]), ties going to
    the even neighbour: the IEEE 754 default rounding that CPython
    applies in int true division, in [round] and in [strtod]. *)
Definition rne (p q : Z) : Z :=
  let k := p / q in
  match 2 * (p mod q) ?= q with
  | Lt => k
  | Gt => k + 1
  | Eq => if Z.even k then k else k + 1
  end.

(** [ilog2_ratio a d] is the floor of the binary logarithm of [a / d]
    ([0 < a], [0 < d]). *)
Definition ilog2_ratio (a d : Z) : Z :=
  let l := Z.log2 a - Z.log2 d in
  if (if 0 <=? l then d * 2 ^ l <=? a else d <=? a * 2 ^ (- l))
  then l else l - 1.

(** The exponent of the binary64 unit in the last place at [n / d]:
    53 significant bits, never below the subnormal exponent -1074. *)
Definition ulp_exp (n d : Z) : Z :=
  Z.max (ilog2_ratio (Z.abs n) d - 52) (-1074).

(** [float_of_ratio n d] is [n / d] ([0 < d]) rounded to the nearest
    binary64 value, ties to even: Python's [n / d] on ints and
    [float(Fraction(n, d))].  [None] stands for the [OverflowError] CPython
    raises when the rounded magnitude reaches [2 ^ 1024]. *)
Definition float_of_ratio (n d : Z) : option float :=
  if n =? 0 then Some (Float 0 0) else
  let e := ulp_exp n d in
  let m := if 0 <=? e then rne n (d * 2 ^ e) else rne (n * 2 ^ (- e)) d in
  if (0 <=? e) && (2 ^ 1024 <=? Z.abs m * 2 ^ e) then None
  else Some (Float m e).

Definition float_of_Q (q : Q) : option float :=
  float_of_ratio (Qnum q) (Zpos (Qden q)).

(** [round_float2 x] is [round(x, 2)] on a float: the exact binary value is
    rounded to two decimals (ties to even, on the exact value), and the
    decimal so obtained is converted back to the nearest float. *)
Definition cents (x : float) : Z :=
  if 0 <=? fexp x then 100 * fmant x * 2 ^ fexp x
  else rne (100 * fmant x) (2 ^ (- fexp x)).

Definition round_float2 (x : float) : option float :=
  float_of_ratio (cents x) 100.

End PyNum.
Export PyNum.

(** ** Text, output and exceptions *)

(** A value read from a [csv.DictReader] row: a [str], or [None] where the
    row is shorter than the header (the reader's [restval]). *)
Definition cell : Type := option string.

(** The pieces of an f-string, kept with their format specifications. *)
Inductive frag :=
| Lit (s : string)              (* literal text *)
| FStr (v : cell)               (* {v}: str(v), the text None for None *)
| FRepr (v : cell)              (* repr(v), as exception messages quote it *)
| FInt (z : Z)                  (* {z} *)
| FIntW (w : nat) (z : Z)       (* {z:wd} *)
| FFix2 (w : nat) (x : float)   (* {x:w.2f} *)
| FPadL (w : nat) (s : string)  (* {s:<w} *)
| FList (l : list Z).           (* {l}: a list of ints *)

(** A line is what one [print] call writes. *)
Definition line : Type := list frag.

Definition nl : string := String (ascii_of_nat 10) EmptyString.

(** [s * n] on strings. *)
Fixpoint str_mul (s : string) (n : nat) : string :=
  match n with O => EmptyString | S n' => (s ++ str_mul s n')%string end.

(** The exception classes the program can meet, with Python's hierarchy. *)
Inductive exn_class :=
| BaseException | SystemExit | KeyboardInterrupt | Exception
| OSError | FileNotFoundError | PermissionError | IsADirectoryError
| LookupError | KeyError
| ValueError | UnicodeDecodeError | StatisticsError
| TypeError | ArithmeticError | OverflowError | csv_Error.

#[global] Instance exn_class_eq_dec : EqDecision exn_class.
Proof. solve_decision. Defined.

Definition base_class (c : exn_class) : option exn_class :=
  match c with
  | BaseException => None
  | SystemExit | KeyboardInterrupt | Exception => Some BaseException
  | OSError | LookupError | ValueError | TypeError | ArithmeticError
  | csv_Error => Some Exception
  | FileNotFoundError | PermissionError | IsADirectoryError => Some OSError
  | KeyError => Some LookupError
  | UnicodeDecodeError | StatisticsError => Some ValueError
  | OverflowError => Some ArithmeticError
  end.

Fixpoint issubclass_fuel (n : nat) (c d : exn_class) : bool :=
  bool_decide (c = d) ||
  match n, base_class c with
  | S n', Some b => issubclass_fuel n' b d
  | _, _ => false
  end.

(** The hierarchy above is three levels deep. *)
Definition issubclass (c d : exn_class) : bool := issubclass_fuel 3 c d.

(** An exception: its class and the text [str(e)] gives.  The texts
    below are those of CPython 3.11; the properties quote them only where
    a line of output shows them. *)
Record exn := Exn { exn_type : exn_class; exn_str : line }.

Definition isinstance (e : exn) (c : exn_class) : bool :=
  issubclass (exn_type e) c.

(** ** Computations that print and may raise *)

Module Run.

(** The printed lines so far, and an exception or a value.  Writing to
    the console is taken to succeed; interrupts from outside the program
    are not part of the model. *)
Definition M (A : Type) : Type := (list line * (exn + A))%type.

Definition ret {A} (a : A) : M A := ([], inr a).
Definition raise {A} (e : exn) : M A := ([], inl e).
Definition print (l : line) : M unit := ([l], inr tt).

Definition bind {A B} (m : M A) (f : A → M B) : M B :=
  match m with
  | (out, inl e) => (out, inl e)
  | (out, inr a) => let '(out', r) := f a in (out ++ out', r)
  end.

(** A pure step that may raise. *)
Definition lift {A} (r : exn + A) : M A := ([], r).

(** [try: m  except c1: h1 ... ]: the first clause whose class the
    exception is an instance of handles it; otherwise it propagates. *)
Fixpoint handle {A} (e : exn) (hs : list (exn_class * (exn → M A))) : M A :=
  match hs with
  | [] => raise e
  | (c, h) :: hs' => if isinstance e c then h e else handle e hs'
  end.

Definition try_except {A} (m : M A) (hs : list (exn_class * (exn → M A))) : M A :=
  match m with
  | (out, inl e) => let '(out', r) := handle e hs in (out ++ out', r)
  | (out, inr a) => (out, inr a)
  end.

Definition output {A} (m : M A) : list line := fst m.
Definition outcome {A} (m : M A) : exn + A := snd m.

End Run.
Import Run.

#[global] Instance M_ret : MRet M := @ret.
#[global] Instance M_bind : MBind M := λ A B f m, bind m f.
#[global] Instance M_fmap : FMap M := λ A B f m, bind m (λ a, ret (f a)).

(** Steps without output: the error monad on [exn + A]. *)
Definition ebind {A B} (r : exn + A) (f : A → exn + B) : exn + B :=
  match r with inl e => inl e | inr a => f a end.

#[global] Instance exn_ret : MRet (sum exn) := λ A, inr.
#[global] Instance exn_bind : MBind (sum exn) := λ A B f r, ebind r f.

(** ** Built-in functions the program calls *)

Module Builtins.

Definition len {A} (l : list A) : Z := Z.of_nat (length l).

(** [str < str] compares code points lexicographically; with the UTF-8
    bytes of valid text that is the bytewise order. *)
Definition str_ltb (s t : string) : bool :=
  match String.compare s t with Lt => true | _ => false end.

Definition type_name (v : cell) : string :=
  match v with Some _ => "str" | None => "NoneType" end.

Definition unorderable (op : string) (a b : cell) : exn :=
  Exn TypeError
    [Lit "'"; Lit op; Lit "' not supported between instances of '";
     Lit (type_name a); Lit "' and '"; Lit (type_name b); Lit "'"].

(** [a < b] and [a > b] on cells: defined on two strs only. *)
Definition cell_lt (a b : cell) : exn + bool :=
  match a, b with
  | Some s, Some t => inr (str_ltb s t)
  | _, _ => inl (unorderable "<" a b)
  end.

Definition cell_gt (a b : cell) : exn + bool :=
  match a, b with
  | Some s, Some t => inr (str_ltb t s)
  | _, _ => inl (unorderable ">" a b)
  end.

Definition int_lt (a b : Z) : exn + bool := inr (a <? b).
Definition int_gt (a b : Z) : exn + bool := inr (b <? a).

(** The loop of CPython's [min] and [max]: the first item is the
    candidate; each later [item] replaces it when [item op candidate]. *)
Fixpoint min_max_loop {A} (op : A → A → exn + bool) (best : A) (l : list A)
  : exn + A :=
  match l with
  | [] => inr best
  | item :: l' =>
      ebind (op item best) (λ c : bool,
        min_max_loop op (if c then item else best) l')
  end.

Definition min_max {A} (name : string) (op : A → A → exn + bool) (l : list A)
  : exn + A :=
  match l with
  | [] => inl (Exn ValueError [Lit name; Lit "() arg is an empty sequence"])
  | x :: l' => min_max_loop op x l'
  end.

Definition min_str : list cell → exn + cell := min_max "min" cell_lt.
Definition max_str : list cell → exn + cell := min_max "max" cell_gt.
Definition min_int : list Z → exn + Z := min_max "min" int_lt.
Definition max_int : list Z → exn + Z := min_max "max" int_gt.

(** [int(v)] on a cell: [TypeError] on [None]; on a str the literal is
    parsed by [int_of_string] (Python's grammar of integer literals, left
    abstract), [None] there being the [ValueError]. *)
Definition py_int (int_of_string : string → option Z) (v : cell) : exn + Z :=
  match v with
  | None =>
      inl (Exn TypeError
        [Lit "int() argument must be a string, a bytes-like object or a real number, not 'NoneType'"])
  | Some s =>
      match int_of_string s with
      | Some z => inr z
      | None => inl (Exn ValueError
          [Lit "invalid literal for int() with base 10: "; FRepr (Some s)])
      end
  end.

Definition sum_Q (data : list num) : Q :=
  foldr (λ x acc, (num_Q x + acc)%Q) 0%Q data.

(** [total / n] in [statistics.mean]: the exact sum divided by the
    count, a [Fraction] (in lowest terms). *)
Definition exact_mean (data : list num) : Q :=
  Qred (sum_Q data / inject_Z (len data)).

(** [statistics.mean]: an int when every datum is an int and the exact
    mean is whole, else the float nearest to the exact mean. *)
Definition statistics_mean (data : list num) : exn + num :=
  match data with
  | [] => inl (Exn StatisticsError [Lit "mean requires at least one data point"])
  | _ =>
      let value := exact_mean data in
      if forallb is_int data && (Qden value =? 1)%positive
      then inr (PyInt (Qnum value))
      else match float_of_Q value with
           | Some x => inr (PyFloat x)
           | None => inl (Exn OverflowError
               [Lit "integer division result too large for a float"])
           end
  end.

(** [round(x, 2)]: an int is returned as it is. *)
Definition round2 (x : num) : exn + num :=
  match x with
  | PyInt z => inr (PyInt z)
  | PyFloat f =>
      match round_float2 f with
      | Some r => inr (PyFloat r)
      | None => inl (Exn OverflowError [Lit "rounded value too large to represent"])
      end
  end.

(** [{x:w.2f}]: an int is converted to float first. *)
Definition format_f2 (w : nat) (x : num) : exn + frag :=
  match x with
  | PyFloat f => inr (FFix2 w f)
  | PyInt z =>
      match float_of_ratio z 1 with
      | Some f => inr (FFix2 w f)
      | None => inl (Exn OverflowError [Lit "int too large to convert to float"])
      end
  end.

(** [{v:<w}]: [None] accepts no format specification. *)
Definition format_padl (w : nat) (v : cell) : exn + frag :=
  match v with
  | Some s => inr (FPadL w s)
  | None => inl (Exn TypeError
      [Lit "unsupported format string passed to NoneType.__format__"])
  end.

(** [list(set(xs))]: the distinct items of [xs] in an order the runtime
    chooses (it depends on the hash seed of the process). *)
Class SetOrder := {
  set_list : list cell → list cell;
  set_list_NoDup : ∀ xs, NoDup (set_list xs);
  set_list_elem : ∀ xs x, x ∈ set_list xs ↔ x ∈ xs;
}.

(** First-seen order is one such order. *)
#[export] Instance first_seen_order : SetOrder := {|
  set_list := remove_dups;
  set_list_NoDup := NoDup_remove_dups;
  set_list_elem := λ xs x, elem_of_remove_dups xs x;
|}.

(** A dict with insertion order: [d[k] = v] replaces in place or appends. *)
Definition dict (K V : Type) : Type := list (K * V).

Fixpoint dict_set {K V} `{EqDecision K} (d : dict K V) (k : K) (v : V) : dict K V :=
  match d with
  | [] => [(k, v)]
  | (k', v') :: d' =>
      if decide (k' = k) then (k, v) :: d' else (k', v') :: dict_set d' k v
  end.

Fixpoint dict_get {K V} `{EqDecision K} (d : dict K V) (k : K) : option V :=
  match d with
  | [] => None
  | (k', v') :: d' => if decide (k' = k) then Some v' else dict_get d' k
  end.

(** [d.keys()] and [d.values()]. *)
Definition keys {K V} (d : dict K V) : list K := fst <$> d.
Definition values {K V} (d : dict K V) : list V := snd <$> d.

(** [sorted(items, key=key, reverse=True)]: the stable descending sort.
    An item goes in front of the first one whose key is not larger. *)
Fixpoint insert_desc {A} (key : A → num) (x : A) (l : list A) : list A :=
  match l with
  | [] => [x]
  | y :: l' =>
      if num_leb (key y) (key x) then x :: l else y :: insert_desc key x l'
  end.

Definition sorted_desc {A} (key : A → num) (l : list A) : list A :=
  foldr (insert_desc key) [] l.

(** [enumerate(l, 1)]. *)
Definition enumerate1 {A} (l : list A) : list (Z * A) :=
  zip (Z.of_nat <$> seq 1 (length l)) l.

End Builtins.
Import Builtins.

(** ** Files and [csv.DictReader] *)

Inductive open_refusal := NoPermission | IsADirectory.

Inductive read_fault := NotUtf8 | BadCsv.

(** What [open(csv_file, 'r', encoding='utf-8')] and reading through
    [csv.reader] give: the rows the reader delivers, as lists of fields,
    and the fault that stops it, if any.  Messages of operating-system and
    codec errors come with the file state. *)
Inductive file :=
| Absent                                                   (* FileNotFoundError *)
| Refused (why : open_refusal) (msg : string)              (* another OSError *)
| Opened (rows : list (list string)) (fault : option (read_fault * string)).

Definition refusal_exn (why : open_refusal) (msg : string) : exn :=
  Exn (match why with NoPermission => PermissionError | IsADirectory => IsADirectoryError end)
      [Lit msg].

Definition fault_exn (f : read_fault * string) : exn :=
  Exn (match f.1 with NotUtf8 => UnicodeDecodeError | BadCsv => csv_Error end)
      [Lit f.2].

(** The dict [csv.DictReader] builds for a row: [dict(zip(fieldnames, row))],
    then [restval] (None) for the field names a short row leaves out.  The
    surplus fields of a long row go under the key [None], which no lookup
    of the program reads; they are left out. *)
Definition row_dict (fieldnames row : list string) : gmap string cell :=
  let d := foldl (λ d kv, <[kv.1 := Some kv.2]> d) ∅ (zip fieldnames row) in
  foldl (λ d key, <[key := None]> d) d (drop (length row) fieldnames).

(** The first row is the header; blank rows are skipped. *)
Definition DictReader (rows : list (list string)) : list (gmap string cell) :=
  match rows with
  | [] => []
  | fieldnames :: rest => row_dict fieldnames <$> filter (λ row, row ≠ []) rest
  end.

(** [row[key]]. *)
Definition getitem (row : gmap string cell) (key : string) : exn + cell :=
  match row !! key with
  | Some v => inr v
  | None => inl (Exn KeyError [FRepr (Some key)])
  end.

(** ** The program *)

(** One element of [data]. *)
Record Record_ := {
  名前 : cell;
  日付 : cell;
  科目 : cell;
  スコア : Z;
}.

(** One value of [results]. *)
Record Stats := {
  平均点 : num;
  最高点 : Z;
  最低点 : Z;
  テスト回数 : Z;
  スコア詳細 : list Z;
}.

#[global] Instance cell_eq_dec : EqDecision cell := _.

Section Program.

Context {set_order : SetOrder}.
Variable int_of_string : string → option Z.
Variable fs : string → file.

(** The row conversion of lines 20-25. *)
Definition to_record (row : gmap string cell) : exn + Record_ :=
  name ← getitem row "名前";
  date ← getitem row "日付";
  subject ← getitem row "科目";
  score ← getitem row "スコア" ≫= py_int int_of_string;
  mret {| 名前 := name; 日付 := date; 科目 := subject; スコア := score |}.

(** Lines 16-25 (and 150-159): open, read, convert. *)
Definition read_records (csv_file : string) : M (list Record_) :=
  match fs csv_file with
  | Absent =>
      raise (Exn FileNotFoundError
        [Lit "[Errno 2] No such file or directory: "; FRepr (Some csv_file)])
  | Refused why msg => raise (refusal_exn why msg)
  | Opened rows fault =>
      data ← lift (mapM to_record (DictReader rows));
      match fault with
      | Some f => raise (fault_exn f)
      | None => mret data
      end
  end.

(** Line 43: [[row['スコア'] for row in data if row['名前'] == student]]. *)
Definition scores_of_student (data : list Record_) (student : cell) : list Z :=
  スコア <$> filter (λ row, 名前 row = student) data.

(** Line 167: [[row['スコア'] for row in data if row['科目'] == subject]]. *)
Definition scores_of_subject (data : list Record_) (subject : cell) : list Z :=
  スコア <$> filter (λ row, 科目 row = subject) data.

(** Lines 43-51: the statistics of one student. *)
Definition student_stats (data : list Record_) (student : cell) : exn + Stats :=
  let student_scores := scores_of_student data student in
  mean ← statistics_mean (PyInt <$> student_scores) ≫= round2;
  hi ← max_int student_scores;
  lo ← min_int student_scores;
  mret {| 平均点 := mean; 最高点 := hi; 最低点 := lo;
          テスト回数 := len student_scores;
          スコア詳細 := student_scores |}.

(** Lines 42-51: one round of the loop, [results[student] = {...}]. *)
Definition collect_step (data : list Record_) (acc : exn + dict cell Stats)
  (student : cell) : exn + dict cell Stats :=
  results ← acc;
  stats ← student_stats data student;
  mret (dict_set results student stats).

(** Lines 40-51: [results = {}] and the loop over the students. *)
Definition collect_results (data : list Record_) (students : list cell)
  : exn + dict cell Stats :=
  foldl (collect_step data) (mret []) students.

(** Lines 27-53: the overview and the loop over the students. *)
Definition analyze_records (data : list Record_)
  : M (dict cell Stats) :=
  let students := set_list (名前 <$> data) in
  let subjects := set_list (科目 <$> data) in
  let dates := 日付 <$> data in
  print [Lit "=== データの概要 ==="];;
  print [Lit "総データ数: "; FInt (len data); Lit "件"];;
  print [Lit "参加者数: "; FInt (len students); Lit "人"];;
  print [Lit "科目数: "; FInt (len subjects); Lit "科目"];;
  lo ← lift (min_str dates);
  hi ← lift (max_str dates);
  print [Lit "対象期間: "; FStr lo; Lit " ～ "; FStr hi];;
  print [];;
  lift (collect_results data students).

(** The body of the [try] statement, lines 15-53. *)
Definition analyze_body (csv_file : string) : M (option (dict cell Stats)) :=
  data ← read_records csv_file;
  results ← analyze_records data;
  mret (Some results).

Definition analyze_student_scores (csv_file : string)
  : M (option (dict cell Stats)) :=
  try_except (analyze_body csv_file)
    [ (FileNotFoundError, λ _,
        print [Lit "エラー: ファイル '"; FStr (Some csv_file);
               Lit "' が見つかりません。"];;
        mret None);
      (Exception, λ e,
        print (Lit "エラーが発生しました: " :: exn_str e);;
        mret None) ].

(** Lines 77-84: the block of one student. *)
Definition display_student (i : Z) (student : cell) (stats : Stats) : M unit :=
  print [Lit nl; Lit "【"; FInt i; Lit ". "; FStr student; Lit "】"];;
  mean ← lift (format_f2 6 (平均点 stats));
  print [Lit "   📈 平均点:     "; mean; Lit "点"];;
  print [Lit "   🏆 最高点:     "; FIntW 6 (最高点 stats); Lit "点"];;
  print [Lit "   📉 最低点:     "; FIntW 6 (最低点 stats); Lit "点"];;
  print [Lit "   📝 テスト回数: "; FIntW 6 (テスト回数 stats); Lit "回"];;
  print [Lit "   📋 スコア詳細: "; FList (スコア詳細 stats)];;
  print [Lit (str_mul "-" 50)].

(** [for x in l: body x]. *)
Fixpoint for_each {A} (l : list A) (body : A → M unit) : M unit :=
  match l with
  | [] => mret tt
  | x :: l' => body x;; for_each l' body
  end.

(** Lines 86-95: the class summary (全体統計). *)
Definition display_class (results : dict cell Stats) : M unit :=
  let all_averages := 平均点 <$> values results in
  let all_max_scores := 最高点 <$> values results in
  let all_min_scores := 最低点 <$> values results in
  print [Lit nl; Lit "🌟 全体統計"];;
  class_mean ← lift (statistics_mean all_averages ≫= format_f2 6);
  print [Lit "   クラス平均:     "; class_mean; Lit "点"];;
  class_max ← lift (max_int all_max_scores);
  print [Lit "   クラス最高点:   "; FIntW 6 class_max; Lit "点"];;
  class_min ← lift (min_int all_min_scores);
  print [Lit "   クラス最低点:   "; FIntW 6 class_min; Lit "点"];;
  print [Lit (str_mul "=" 60)].

Definition display_results (results : dict cell Stats) : M unit :=
  match results with
  | [] => mret tt
  | _ =>
    print [Lit (str_mul "=" 60)];;
    print [Lit "           📊 学生成績分析結果 📊"];;
    print [Lit (str_mul "=" 60)];;
    for_each (enumerate1 results)
      (λ '(i, (student, stats)), display_student i student stats);;
    display_class results
  end.

(** Line 108. *)
Definition sorted_students (results : dict cell Stats) : list (cell * Stats) :=
  sorted_desc (λ x, 平均点 x.2) results.

Definition medal (rank : Z) : frag :=
  if rank =? 1 then Lit "🥇" else if rank =? 2 then Lit "🥈"
  else if rank =? 3 then Lit "🥉" else FIntW 2 rank.

(** Lines 114-115: the line of one rank. *)
Definition ranking_line (rank : Z) (student : cell) (stats : Stats) : exn + line :=
  name ← format_padl 8 student;
  mean ← format_f2 6 (平均点 stats);
  mret [medal rank; Lit " "; name; Lit " : "; mean; Lit "点"].

Definition create_ranking (results : dict cell Stats) : M unit :=
  match results with
  | [] => mret tt
  | _ =>
    print [Lit nl; Lit "🏅 平均点ランキング"];;
    print [Lit (str_mul "=" 40)];;
    for_each (enumerate1 (sorted_students results))
      (λ '(rank, (student, stats)), lift (ranking_line rank student stats) ≫= print);;
    print [Lit (str_mul "=" 40)]
  end.

(** Lines 166-173: the block of one subject. *)
Definition display_subject (data : list Record_) (subject : cell) : M unit :=
  let subject_scores := scores_of_subject data subject in
  print [Lit nl; Lit "【"; FStr subject; Lit "】"];;
  mean ← lift (statistics_mean (PyInt <$> subject_scores) ≫= format_f2 6);
  print [Lit "   平均点: "; mean; Lit "点"];;
  hi ← lift (max_int subject_scores);
  print [Lit "   最高点: "; FIntW 6 hi; Lit "点"];;
  lo ← lift (min_int subject_scores);
  print [Lit "   最低点: "; FIntW 6 lo; Lit "点"];;
  print [Lit "   受験者: "; FIntW 6 (len subject_scores); Lit "人"].

Definition analyze_by_subject (csv_file : string) : M unit :=
  try_except
    (data ← read_records csv_file;
     let subjects := set_list (科目 <$> data) in
     print [Lit nl; Lit "📖 科目別分析"];;
     print [Lit (str_mul "=" 50)];;
     for_each subjects (display_subject data);;
     print [Lit (str_mul "=" 50)])
    [ (Exception, λ e,
        print (Lit "科目別分析でエラーが発生しました: " :: exn_str e)) ].

(** Line 123. *)
Definition csv_file_path : string := "ダウンロード/課題2 (1).csv".

(** Lines 119-139.  [if results:] holds for a non-empty dict.  The file
    is read a second time by [analyze_by_subject]; both reads see the
    same file state [fs]. *)
Definition main : M unit :=
  let csv_file := csv_file_path in
  print [Lit "📚 学生成績分析プログラム"];;
  print [Lit (str_mul "=" 60)];;
  results ← analyze_student_scores csv_file;
  match results with
  | Some ((_ :: _) as results) =>
      display_results results;;
      create_ranking results;;
      analyze_by_subject csv_file
  | _ => mret tt
  end.

End Program.

(** * Vocabulary of the properties *)

(** [e] is an instance of [Exception], which the catch-all clauses name. *)
Definition is_Exception (e : exn) : Prop := isinstance e Exception = true.

(** A step raises instances of [Exception] only. *)
Definition raises_Exception {A} (r : exn + A) : Prop :=
  ∀ e, r = inl e → is_Exception e.

(** The exception [min(dates)] raises on an empty list. *)
Definition empty_min_error : exn :=
  Exn ValueError [Lit "min"; Lit "() arg is an empty sequence"].

(** Sum of a list of ints. *)
Definition sum_Z (l : list Z) : Z := foldr Z.add 0 l.

(** Descending order by a key: the key of [b] is not larger. *)
Definition desc_by {A} (key : A → num) (a b : A) : Prop :=
  num_le (key b) (key a).

(** [a] may stand in front of [b] in a ranking: its mean is not smaller. *)
Definition ranked_before : cell * Stats → cell * Stats → Prop :=
  desc_by (λ x, 平均点 x.2).

(** The lines lines 113-115 print for a ranking. *)
Definition ranking_lines (ranking : list (cell * Stats)) : exn + list line :=
  mapM (λ '(rank, (student, stats)), ranking_line rank student stats)
       (enumerate1 ranking).

(** The line of the overview that reports the period (line 36). *)
Definition period_line (lo hi : cell) : line :=
  [Lit "対象期間: "; FStr lo; Lit " ～ "; FStr hi].

(** The five lines of the class summary (lines 91-95) for the values
    printed in them. *)
Definition summary_lines (class_mean : float) (class_max class_min : Z)
  : list line :=
  [ [Lit nl; Lit "🌟 全体統計"];
    [Lit "   クラス平均:     "; FFix2 6 class_mean; Lit "点"];
    [Lit "   クラス最高点:   "; FIntW 6 class_max; Lit "点"];
    [Lit "   クラス最低点:   "; FIntW 6 class_min; Lit "点"];
    [Lit (str_mul "=" 60)] ].

(** ** Vocabulary of the float properties *)

(** [2 ^ e] as a fraction [pexp e / nexp e] of two positive integers. *)
Definition pexp (e : Z) : Z := 2 ^ Z.max e 0.
Definition nexp (e : Z) : Z := 2 ^ Z.max (- e) 0.

(** The largest finite binary64 value. *)
Definition DBL_MAX : Z := (2 ^ 53 - 1) * 2 ^ 971.

(** A number a float can hold: every float, and every int that
    [float(...)] converts without [OverflowError]. *)
Definition in_float_range (x : num) : Prop :=
  (inject_Z (- DBL_MAX) <= num_Q x <= inject_Z DBL_MAX)%Q.

(** ** The mean as the specification words it *)

(** The two standard rules for a value exactly halfway. *)
Inductive tie_rule := HalfEven | HalfUp.

(** [100 * s / n] rounded to an integer under a rule ([0 < n]): the
    average [s / n] rounded to two decimal places, in hundredths. *)
Definition round_cents (r : tie_rule) (s n : Z) : Z :=
  match r with
  | HalfEven => rne (100 * s) n
  | HalfUp => (200 * s + n) / (2 * n)
  end.

(** Following the specification: [m] is the arithmetic average of
    [scores] rounded to two decimal places under rule [r].  Its value is
    that decimal exactly, or [m] is the float nearest to that decimal
    (most two-decimal values are no binary64 values). *)
Definition spec_rounded_mean (r : tie_rule) (scores : list Z) (m : num) : Prop :=
  let c := round_cents r (sum_Z scores) (len scores) in
  (num_Q m == Qmake c 100)%Q
  ∨ ∃ f, float_of_ratio c 100 = Some f ∧ m = PyFloat f.

(** The average lies exactly halfway between two neighbouring
    two-decimal values. *)
Definition is_tie (scores : list Z) : Prop :=
  2 * ((100 * sum_Z scores) mod len scores) = len scores.

(** [c / 100] is a two-decimal value nearest to the average. *)
Definition nearest_cents (scores : list Z) (c : Z) : Prop :=
  Z.abs (2 * (100 * sum_Z scores - c * len scores)) ≤ len scores.

(** [f] lies within half a unit in its last place of [n / d]. *)
Definition half_ulp_close (n d : Z) (f : float) : Prop :=
  Z.abs (2 * (n * nexp (fexp f) - fmant f * (d * pexp (fexp f))))
  ≤ d * pexp (fexp f).

(** ** Sample inputs *)

(** The plain decimal literals among what [int] accepts: ASCII digits
    after an optional sign. *)
Definition digit_value (c : ascii) : option Z :=
  let n := Z.of_nat (nat_of_ascii c) in
  if (48 <=? n) && (n <=? 57) then Some (n - 48) else None.

Fixpoint digits_value (acc : Z) (s : string) : option Z :=
  match s with
  | EmptyString => Some acc
  | String c s' =>
      match digit_value c with
      | Some d => digits_value (10 * acc + d) s'
      | None => None
      end
  end.

Definition decimal_literal (s : string) : option Z :=
  match s with
  | EmptyString => None
  | String "-" (String _ _ as s') => Z.opp <$> digits_value 0 s'
  | String "+" (String _ _ as s') => digits_value 0 s'
  | _ => digits_value 0 s
  end.

Definition header : list string := ["名前"; "日付"; "科目"; "スコア"].

(** The scenario of the specification: Alice 80 and 90, Bob 70. *)
Definition sample_rows : list (list string) :=
  [ header;
    ["Alice"; "2024-01-01"; "Math"; "80"];
    ["Alice"; "2024-01-02"; "Math"; "90"];
    ["Bob"; "2024-01-01"; "Math"; "70"] ].

Definition sample_fs (path : string) : file :=
  if decide (path = csv_file_path) then Opened sample_rows None else Absent.

Definition sample_data : list Record_ :=
  [ {| 名前 := Some "Alice"; 日付 := Some "2024-01-01"; 科目 := Some "Math"; スコア := 80 |};
    {| 名前 := Some "Alice"; 日付 := Some "2024-01-02"; 科目 := Some "Math"; スコア := 90 |};
    {| 名前 := Some "Bob"; 日付 := Some "2024-01-01"; 科目 := Some "Math"; スコア := 70 |} ].

(** Forty tests of one student, one scored 3 and the others 0: the
    average is 0.075, halfway between 0.07 and 0.08. *)
Definition tie_rows : list (list string) :=
  header :: ["A"; "2024-01-01"; "Math"; "3"]
         :: replicate 39 ["A"; "2024-01-02"; "Math"; "0"].

Definition tie_fs (path : string) : file :=
  if decide (path = csv_file_path) then Opened tie_rows None else Absent.

Definition tie_scores : list Z := 3 :: replicate 39 0.

Definition tie_data : list Record_ :=
  {| 名前 := Some "A"; 日付 := Some "2024-01-01"; 科目 := Some "Math"; スコア := 3 |}
  :: replicate 39
       {| 名前 := Some "A"; 日付 := Some "2024-01-02"; 科目 := Some "Math"; スコア := 0 |}.

(** What the analysis returns for them: the mean is the float nearest
    to 0.07. *)
Definition tie_stats : Stats :=
  {| 平均点 := PyFloat (Float 5044031582654956 (-56));
     最高点 := 3; 最低点 := 0; テスト回数 := 40; スコア詳細 := tie_scores |}.

(** A file with a header row only. *)
Definition header_only_fs (path : string) : file :=
  if decide (path = csv_file_path) then Opened [header] None else Absent.

(** What the analysis of the sample returns, in first-seen order. *)
Definition sample_results : dict cell Stats :=
  [ (Some "Alice",
      {| 平均点 := PyInt 85; 最高点 := 90; 最低点 := 80; テスト回数 := 2;
         スコア詳細 := [80; 90] |});
    (Some "Bob",
      {| 平均点 := PyInt 70; 最高点 := 70; 最低点 := 70; テスト回数 := 1;
         スコア詳細 := [70] |}) ].

(** Last-seen order is another order a set may be listed in. *)
Definition last_seen_order : SetOrder.
Proof.
  refine {| set_list := λ xs, reverse (remove_dups xs) |}.
  - intros xs. rewrite reverse_Permutation. apply NoDup_remove_dups.
  - intros xs x. rewrite elem_of_reverse. apply elem_of_remove_dups.
Defined.


(** ** Cross-checking the float model *)

(** Binary64 values of the Standard Library's specification of IEEE 754
    arithmetic, read as values of the model. *)
Definition Z2SF (z : Z) : spec_float :=
  match z with
  | Z0 => S754_zero false
  | Zpos p => S754_finite false p 0
  | Zneg p => S754_finite true p 0
  end.

Definition of_spec_float (x : spec_float) : option float :=
  match x with
  | S754_zero _ => Some (Float 0 0)
  | S754_finite s m e => Some (Float (if s then Zneg m else Zpos m) e)
  | _ => None
  end.

Definition same_value (a b : option float) : bool :=
  match a, b with
  | Some x, Some y => Qeq_bool (F2Q x) (F2Q y)
  | None, None => true
  | _, _ => false
  end.

(** [float_of_ratio n d] against the correctly rounded division [SFdiv]
    in binary64 (53 bits of precision, exponents below 1024). *)
Definition agrees_with_SFdiv (n d : Z) : bool :=
  same_value (float_of_ratio n d)
             (of_spec_float (SFdiv 53 1024 (Z2SF n) (Z2SF d))).

Definition Z_range (a b : Z) : list Z :=
  (λ i, a + Z.of_nat i) <$> seq 0 (Z.to_nat (b - a + 1)).

(** Ratios at the limits of the format: ties at 53 bits, the largest
    finite value, the overflow threshold, subnormal values, underflow. *)
Definition limit_cases : list (Z * Z) :=
  [ (2 ^ 53 + 1, 1); (2 ^ 53 + 3, 1); (2 ^ 54 + 1, 3); (10 ^ 30, 7);
    ((2 ^ 53 - 1) * 2 ^ 971, 1); (2 ^ 1024 - 2 ^ 970 - 1, 1);
    (2 ^ 1024 - 2 ^ 970, 1); (2 ^ 1024, 1); (2 ^ 1030, 3);
    (1, 2 ^ 1022); (3, 2 ^ 1074); (1, 2 ^ 1075); (3, 2 ^ 1076); (1, 2 ^ 1076 + 1) ].

(** ** Vocabulary of the properties of reading *)


(** The column a name of the header refers to: [dict(zip(fieldnames, row))]
    keeps the last one when the header repeats a name. *)
Definition column_at (fieldnames : list string) (key : string) (i : nat) : Prop :=
  fieldnames !! i = Some key ∧ ∀ j, (i < j)%nat → fieldnames !! j ≠ Some key.

(** The line the first [except] clause of [analyze_student_scores] prints. *)
Definition not_found_line (csv_file : string) : line :=
  [Lit "エラー: ファイル '"; FStr (Some csv_file); Lit "' が見つかりません。"].

(** A step raises exceptions of the listed classes only. *)
Definition raises_in {A} (cs : list exn_class) (r : exn + A) : Prop :=
  ∀ e, r = inl e → exn_type e ∈ cs.

(** The first four lines of the overview (lines 32-35), for the three
    counts they show. *)
Definition overview_lines (total students subjects : Z) : list line :=
  [ [Lit "=== データの概要 ==="];
    [Lit "総データ数: "; FInt total; Lit "件"];
    [Lit "参加者数: "; FInt students; Lit "人"];
    [Lit "科目数: "; FInt subjects; Lit "科目"] ].

(** The line a catch-all clause prints for an exception. *)
Definition error_line (prefix : string) (e : exn) : line :=
  Lit prefix :: exn_str e.

Section SubjectBody.

Context {set_order : SetOrder}.
Variable int_of_string : string → option Z.
Variable fs : string → file.

(** The body of the [try] statement of [analyze_by_subject], lines
    149-175. *)
Definition subject_body (csv_file : string) : M unit :=
  data ← read_records int_of_string fs csv_file;
  let subjects := set_list (科目 <$> data) in
  print [Lit nl; Lit "📖 科目別分析"];;
  print [Lit (str_mul "=" 50)];;
  for_each subjects (display_subject data);;
  print [Lit (str_mul "=" 50)].

End SubjectBody.

(** ** Vocabulary of the properties of the ranking *)

(** [x] has the same mean as [y], by Python's [==] on numbers. *)
Definition same_mean (y x : cell * Stats) : Prop :=
  Qeq_bool (num_Q (平均点 x.2)) (num_Q (平均点 y.2)) = true.

#[global] Instance same_mean_dec y x : Decision (same_mean y x) :=
  decide (Qeq_bool (num_Q (平均点 x.2)) (num_Q (平均点 y.2)) = true).

(** ** Vocabulary of the analysis by subject *)

(** The five lines of one subject (lines 169-173), for the values shown
    in them. *)
Definition subject_block (subject : cell) (mean : float) (hi lo count : Z)
  : list line :=
  [ [Lit nl; Lit "【"; FStr subject; Lit "】"];
    [Lit "   平均点: "; FFix2 6 mean; Lit "点"];
    [Lit "   最高点: "; FIntW 6 hi; Lit "点"];
    [Lit "   最低点: "; FIntW 6 lo; Lit "点"];
    [Lit "   受験者: "; FIntW 6 count; Lit "人"] ].

(** [lo <= x <= hi] on Python numbers. *)
Definition num_between (lo hi : Z) (x : num) : Prop :=
  num_le (PyInt lo) x ∧ num_le x (PyInt hi).

(** ** More sample inputs *)

(** A header in another order, and a row that stops before the date. *)
Definition shuffled_header : list string := ["スコア"; "名前"; "科目"; "日付"].

Definition short_row : list string := ["80"; "Alice"; "Math"].

(** A file whose second row of data has a score that is no integer. *)
Definition bad_score_fs (path : string) : file :=
  if decide (path = csv_file_path)
  then Opened [ header;
                ["Alice"; "2024-01-01"; "Math"; "80"];
                ["Bob"; "2024-01-02"; "Math"; "abc"];
                ["Carol"; "2024-01-03"; "Math"; "70"] ] None
  else Absent.


(** A file with the 名前 column last, and a row that stops before it. *)
Definition nameless_fs (path : string) : file :=
  if decide (path = csv_file_path)
  then Opened [ ["スコア"; "日付"; "科目"; "名前"];
                ["80"; "2024-01-01"; "Math"] ] None
  else Absent.

Definition nameless_data : list Record_ :=
  [ {| 名前 := None; 日付 := Some "2024-01-01"; 科目 := Some "Math"; スコア := 80 |} ].

(** A dict with a [None] key. *)
Definition nameless_results : dict cell Stats :=
  [ (None,
      {| 平均点 := PyInt 80; 最高点 := 80; 最低点 := 80; テスト回数 := 1;
         スコア詳細 := [80] |}) ].

(** The exception of a mean too large for a float: the one exception
    the loop over the students can raise. *)
Definition mean_overflow_error : exn :=
  Exn OverflowError [Lit "integer division result too large for a float"].

(** ** Vocabulary of the display *)

(** The seven lines of one student (lines 78-84), for the mean as the
    format shows it. *)
Definition student_block (i : Z) (student : cell) (stats : Stats) (mean : float)
  : list line :=
  [ [Lit nl; Lit "【"; FInt i; Lit ". "; FStr student; Lit "】"];
    [Lit "   📈 平均点:     "; FFix2 6 mean; Lit "点"];
    [Lit "   🏆 最高点:     "; FIntW 6 (最高点 stats); Lit "点"];
    [Lit "   📉 最低点:     "; FIntW 6 (最低点 stats); Lit "点"];
    [Lit "   📝 テスト回数: "; FIntW 6 (テスト回数 stats); Lit "回"];
    [Lit "   📋 スコア詳細: "; FList (スコア詳細 stats)];
    [Lit (str_mul "-" 50)] ].
(** * Properties *)

(** ** Exceptions raised by the steps of the program *)

Module Raises.

Lemma raises_ret {A} (a : A) : raises_Exception (inr a).
Proof. intros e [=]. Qed.

Lemma raises_bind {A B} (r : exn + A) (f : A → exn + B) :
  raises_Exception r → (∀ a, raises_Exception (f a)) →
  raises_Exception (r ≫= f).
Proof.
  intros Hr Hf e. destruct r as [e'|a]; simpl.
  - intros [= <-]. by apply Hr.
  - apply Hf.
Qed.

Lemma raises_mapM {A B} (f : A → exn + B) (l : list A) :
  (∀ a, raises_Exception (f a)) → raises_Exception (mapM f l).
Proof.
  intros Hf. induction l as [|a l IH]; [apply raises_ret|].
  simpl. apply raises_bind; [apply Hf|].
  intros b. apply raises_bind; [apply IH|]. intros; apply raises_ret.
Qed.

Lemma raises_min_max_loop {A} (op : A → A → exn + bool) (l : list A) best :
  (∀ a b, raises_Exception (op a b)) →
  raises_Exception (min_max_loop op best l).
Proof.
  intros Hop. revert best.
  induction l as [|x l IH]; intros best; [apply raises_ret|].
  simpl. apply (raises_bind (op x best)); [apply Hop|]. intros c; apply IH.
Qed.

Lemma raises_min_max {A} name (op : A → A → exn + bool) (l : list A) :
  (∀ a b, raises_Exception (op a b)) → raises_Exception (min_max name op l).
Proof.
  intros Hop. destruct l as [|x l]; simpl.
  - by intros e [= <-].
  - by apply raises_min_max_loop.
Qed.

Lemma raises_cell_lt a b : raises_Exception (cell_lt a b).
Proof. destruct a, b; simpl; intros e [= <-]; done. Qed.

Lemma raises_cell_gt a b : raises_Exception (cell_gt a b).
Proof. destruct a, b; simpl; intros e [= <-]; done. Qed.

Lemma raises_min_str l : raises_Exception (min_str l).
Proof. apply raises_min_max, raises_cell_lt. Qed.

Lemma raises_max_str l : raises_Exception (max_str l).
Proof. apply raises_min_max, raises_cell_gt. Qed.

Lemma raises_min_int l : raises_Exception (min_int l).
Proof. apply raises_min_max. intros; apply raises_ret. Qed.

Lemma raises_max_int l : raises_Exception (max_int l).
Proof. apply raises_min_max. intros; apply raises_ret. Qed.

Lemma raises_getitem row key : raises_Exception (getitem row key).
Proof. unfold getitem. destruct (row !! key); intros e [= <-]; done. Qed.

Lemma raises_py_int f v : raises_Exception (py_int f v).
Proof.
  unfold py_int. destruct v as [s|]; [destruct (f s)|]; intros e [= <-]; done.
Qed.

Lemma raises_statistics_mean data : raises_Exception (statistics_mean data).
Proof.
  unfold statistics_mean. destruct data as [|x data]; [by intros e [= <-]|].
  destruct (_ && _); [apply raises_ret|].
  destruct (float_of_Q _); intros e [= <-]; done.
Qed.

Lemma raises_round2 x : raises_Exception (round2 x).
Proof.
  destruct x as [z|f]; simpl; [apply raises_ret|].
  destruct (round_float2 f); intros e [= <-]; done.
Qed.

Lemma raises_format_f2 w x : raises_Exception (format_f2 w x).
Proof.
  destruct x as [z|f]; simpl; [|apply raises_ret].
  destruct (float_of_ratio z 1); intros e [= <-]; done.
Qed.

Lemma raises_format_padl w v : raises_Exception (format_padl w v).
Proof. destruct v; intros e [= <-]; done. Qed.

End Raises.
Import Raises.

Create HintDb raises.
#[global] Hint Resolve raises_ret raises_min_str raises_max_str raises_min_int
  raises_max_int raises_getitem raises_py_int raises_statistics_mean
  raises_round2 raises_format_f2 raises_format_padl : raises.

(** Splits a chain of binds into its steps and closes each with the
    lemmas above. *)
Ltac raises_steps :=
  repeat match goal with
  | |- raises_Exception (_ ≫= _) => apply raises_bind; [|intros ?]
  | |- raises_Exception (mret _) => apply raises_ret
  | |- raises_Exception _ => solve [auto with raises]
  end.

(** ** Running the printing monad *)

Lemma bind_inr {A B} out (a : A) (f : A → M B) :
  (out, inr a) ≫= f = ((out ++ (f a).1), (f a).2).
Proof. unfold mbind, M_bind, bind. by destruct (f a). Qed.

Lemma bind_inl {A B} out e (f : A → M B) :
  ((out, inl e) : M A) ≫= f = (out, inl e).
Proof. done. Qed.

Lemma outcome_bind {A B} (m : M A) (f : A → M B) :
  outcome (m ≫= f) =
    match outcome m with inl e => inl e | inr a => outcome (f a) end.
Proof.
  destruct m as [out [e|a]]; [done|]. rewrite bind_inr. done.
Qed.

Lemma output_bind {A B} (m : M A) (f : A → M B) :
  output (m ≫= f) =
    output m ++ match outcome m with inl e => [] | inr a => output (f a) end.
Proof.
  destruct m as [out [e|a]].
  - rewrite bind_inl. simpl. by rewrite app_nil_r.
  - by rewrite bind_inr.
Qed.

Lemma lift_bind_inr {A B} (a : A) (f : A → M B) : lift (inr a) ≫= f = f a.
Proof. unfold lift. rewrite bind_inr. by destruct (f a). Qed.

Lemma lift_bind_inl {A B} e (f : A → M B) : lift (inl e : exn + A) ≫= f = ([], inl e).
Proof. done. Qed.

Lemma print_bind {B} l (m : M B) : (print l;; m) = (l :: m.1, m.2).
Proof. unfold print. rewrite bind_inr. done. Qed.

Lemma outcome_print_bind {B} l (m : M B) : outcome (print l;; m) = outcome m.
Proof. by rewrite print_bind. Qed.

Lemma output_print_bind {B} l (m : M B) : output (print l;; m) = l :: output m.
Proof. by rewrite print_bind. Qed.

Lemma outcome_lift_bind {A B} (r : exn + A) (f : A → M B) :
  outcome (lift r ≫= f) =
    match r with inl e => inl e | inr a => outcome (f a) end.
Proof. destruct r; [done|by rewrite lift_bind_inr]. Qed.

Lemma output_lift_bind {A B} (r : exn + A) (f : A → M B) :
  output (lift r ≫= f) =
    match r with inl e => [] | inr a => output (f a) end.
Proof. destruct r; [done|by rewrite lift_bind_inr]. Qed.

Lemma raises_M_bind {A B} (m : M A) (f : A → M B) :
  raises_Exception (outcome m) → (∀ a, raises_Exception (outcome (f a))) →
  raises_Exception (outcome (m ≫= f)).
Proof.
  intros Hm Hf. rewrite outcome_bind. revert Hm.
  destruct (outcome m) as [e|a]; [|intros _; apply Hf].
  intros Hm e' [= <-]. by apply (Hm e).
Qed.

Lemma raises_print l : raises_Exception (outcome (print l)).
Proof. intros e [=]. Qed.

Lemma raises_lift {A} (r : exn + A) :
  raises_Exception r → raises_Exception (outcome (lift r)).
Proof. done. Qed.

Lemma raises_mret {A} (a : A) : raises_Exception (outcome (mret a : M A)).
Proof. intros e [=]. Qed.

Lemma raises_for_each {A} (l : list A) (body : A → M unit) :
  (∀ a, raises_Exception (outcome (body a))) →
  raises_Exception (outcome (for_each l body)).
Proof.
  intros Hb. induction l as [|x l IH]; simpl; [apply raises_mret|].
  apply raises_M_bind; [apply Hb|intros _; apply IH].
Qed.

(** The same for computations that print. *)
Ltac raises_run :=
  repeat match goal with
  | |- raises_Exception (outcome (_ ≫= _)) => apply raises_M_bind; [|intros ?]
  | |- raises_Exception (outcome (print _)) => apply raises_print
  | |- raises_Exception (outcome (mret _)) => apply raises_mret
  | |- raises_Exception (outcome (lift _)) => apply raises_lift; raises_steps
  end.

(** ** Error handling of the entry points *)

Section ErrorHandling.

Context {set_order : SetOrder}.
Variable int_of_string : string → option Z.
Variable fs : string → file.

Local Abbreviation read := (read_records int_of_string fs).
Local Abbreviation body := (analyze_body int_of_string fs).
Local Abbreviation analyze := (analyze_student_scores int_of_string fs).

Lemma set_list_nil : set_list [] = [].
Proof.
  destruct (set_list []) as [|x l] eqn:E; [done|].
  assert (x ∈ set_list []) as Hx by (rewrite E; left).
  apply (proj1 (set_list_elem _ _)) in Hx. by apply elem_of_nil in Hx.
Qed.

Lemma raises_to_record row : raises_Exception (to_record int_of_string row).
Proof.
  unfold to_record. raises_steps.
Qed.

Lemma read_records_output csv_file : output (read csv_file) = [].
Proof.
  unfold read_records. destruct (fs csv_file) as [|why msg|rows fault]; [done..|].
  destruct (mapM _ _) as [e|data]; [done|]. rewrite lift_bind_inr.
  by destruct fault.
Qed.

Lemma raises_read_records csv_file :
  raises_Exception (outcome (read csv_file)).
Proof.
  unfold read_records. destruct (fs csv_file) as [|why msg|rows fault].
  - by intros e [= <-].
  - intros e [= <-]. by destruct why.
  - pose proof (raises_mapM (to_record int_of_string) (DictReader rows)
                  raises_to_record) as Hm.
    destruct (mapM _ _) as [e|data].
    + intros e' [= <-]. by apply Hm.
    + rewrite lift_bind_inr. destruct fault as [[[|] msg]|]; intros e [=]; by subst.
Qed.

Lemma raises_student_stats data student :
  raises_Exception (student_stats data student).
Proof.
  unfold student_stats. raises_steps.
Qed.

Lemma raises_collect_results data students :
  raises_Exception (collect_results data students).
Proof.
  unfold collect_results.
  assert (∀ acc : exn + dict cell Stats, raises_Exception acc →
    raises_Exception
      (foldl (λ acc student,
                results ← acc; stats ← student_stats data student;
                mret (dict_set results student stats)) acc students)) as H.
  { induction students as [|s l IH]; intros acc Hacc; [done|].
    simpl. apply IH. apply raises_bind; [done|]. intros results.
    apply raises_bind; [apply raises_student_stats|]. intros; apply raises_ret. }
  apply H, raises_ret.
Qed.

Lemma raises_analyze_records data :
  raises_Exception (outcome (analyze_records data)).
Proof.
  unfold analyze_records. cbv zeta. raises_run. apply raises_collect_results.
Qed.

Lemma raises_analyze_body csv_file :
  raises_Exception (outcome (body csv_file)).
Proof.
  unfold analyze_body.
  apply raises_M_bind; [apply raises_read_records|intros data].
  apply raises_M_bind; [apply raises_analyze_records|intros results].
  apply raises_mret.
Qed.

(** What the two [except] clauses of [analyze_student_scores] do with an
    exception of the body. *)
Lemma analyze_handlers_catch csv_file e :
  is_Exception e →
  ∃ l, handle e
    [ (FileNotFoundError, λ _ : exn,
        print [Lit "エラー: ファイル '"; FStr (Some csv_file);
               Lit "' が見つかりません。"];;
        mret (None : option (dict cell Stats)));
      (Exception, λ e : exn,
        print (Lit "エラーが発生しました: " :: exn_str e);;
        mret None) ] = ([l], inr None).
Proof.
  intros He. simpl. destruct (isinstance e FileNotFoundError); [by eexists|].
  rewrite He. by eexists.
Qed.

(** When the body returns, it returns a dict, never [None]. *)
Lemma analyze_body_returns_dict csv_file r :
  outcome (body csv_file) = inr r → ∃ results, r = Some results.
Proof.
  unfold analyze_body. rewrite !outcome_bind.
  destruct (outcome (read csv_file)) as [e|data]; [done|].
  rewrite outcome_bind.
  destruct (outcome (analyze_records data)) as [e|results]; [done|].
  intros [= <-]. by eexists.
Qed.

(** The outcome of [analyze_student_scores] is always a returned value:
    what the body returns, or [None] when the body raises. *)
Lemma analyze_outcome (csv_file : string) :
  outcome (analyze csv_file) =
    inr (match outcome (body csv_file) with
         | inr r => r
         | inl _ => None
         end).
Proof.
  unfold analyze_student_scores, try_except.
  pose proof (raises_analyze_body csv_file) as Hb.
  destruct (body csv_file) as [out [e|r]]; [|done].
  destruct (analyze_handlers_catch csv_file e) as [l ->]; [by apply Hb|done].
Qed.

Lemma analyze_outcome_Some csv_file results :
  outcome (analyze csv_file) = inr (Some results)
  ↔ outcome (body csv_file) = inr (Some results).
Proof.
  rewrite analyze_outcome.
  pose proof (analyze_body_returns_dict csv_file) as Hd.
  destruct (outcome (body csv_file)) as [e|r]; [split; intros [=]|].
  destruct (Hd r eq_refl) as [results' ->]. split; intros [= ->]; done.
Qed.

(** C10: [analyze_student_scores] never propagates an exception: for every
    path and file state its outcome is a returned value, the dict of the
    body when the body returns, [None] when the body raises anything
    (a missing file, an unreadable one, a missing column, a score that is
    no integer literal, empty data, a mean beyond the float range). *)
Theorem analyze_student_scores_never_raises (csv_file : string) :
  outcome (analyze csv_file) =
    inr (match outcome (body csv_file) with
         | inr r => r
         | inl _ => None
         end)
  ∧ (∀ results, outcome (body csv_file) ≠ inr None
                ∧ (outcome (analyze csv_file) = inr (Some results)
                   ↔ outcome (body csv_file) = inr (Some results)))
  ∧ (outcome (analyze csv_file) = inr None
     ↔ ∃ e, outcome (body csv_file) = inl e).
Proof.
  pose proof (analyze_outcome csv_file) as Hmain.
  split; [done|].
  pose proof (analyze_body_returns_dict csv_file) as Hd.
  rewrite Hmain. destruct (outcome (body csv_file)) as [e|r].
  - split; [intros results; split; [done|split; intros [=]]|].
    split; [by eexists|done].
  - destruct (Hd r eq_refl) as [results ->].
    split; [intros results'; split; [done|split; intros [= ->]; done]|].
    split; [done|intros [e [=]]].
Qed.

Lemma read_records_eq csv_file r :
  outcome (read csv_file) = r → read csv_file = ([], r).
Proof.
  intros <-. pose proof (read_records_output csv_file) as Ho.
  destruct (read csv_file) as [out res]. simpl in *. by subst.
Qed.

Lemma analyze_file_not_found csv_file :
  fs csv_file = Absent →
  analyze csv_file =
    ([[Lit "エラー: ファイル '"; FStr (Some csv_file); Lit "' が見つかりません。"]],
     inr None).
Proof.
  intros Hfs. unfold analyze_student_scores, analyze_body, read_records.
  by rewrite Hfs.
Qed.

(** C7: when the input path does not resolve, the error is reported (one
    line naming the file), [analyze_student_scores] returns [None], and
    [main] stops there: after its banner the only output is that line, so
    no overview, statistics, ranking or subject analysis is printed. *)
Theorem file_not_found_aborts :
  fs csv_file_path = Absent →
  analyze csv_file_path =
    ([[Lit "エラー: ファイル '"; FStr (Some csv_file_path);
       Lit "' が見つかりません。"]], inr None)
  ∧ main int_of_string fs =
    ([[Lit "📚 学生成績分析プログラム"]; [Lit (str_mul "=" 60)];
      [Lit "エラー: ファイル '"; FStr (Some csv_file_path);
       Lit "' が見つかりません。"]], inr tt).
Proof.
  intros Hfs. pose proof (analyze_file_not_found _ Hfs) as Ha.
  split; [done|]. unfold main. cbv zeta. rewrite !print_bind, Ha. done.
Qed.

Lemma analyze_records_empty :
  analyze_records [] =
    ([[Lit "=== データの概要 ==="];
      [Lit "総データ数: "; FInt 0; Lit "件"];
      [Lit "参加者数: "; FInt 0; Lit "人"];
      [Lit "科目数: "; FInt 0; Lit "科目"]], inl empty_min_error).
Proof. unfold analyze_records. simpl. rewrite set_list_nil. done. Qed.

(** C6: when the file yields no record (a header row only), the failure
    is a defined one: building the overview, [min(dates)] raises
    [ValueError] on the empty list, before any group is aggregated (so
    [statistics.mean] of an empty group is never reached); the catch-all
    clause reports it, [analyze_student_scores] returns [None], and [main]
    ends normally without further output. *)
Theorem empty_input_defined_failure :
  outcome (read csv_file_path) = inr [] →
  outcome (analyze_records []) = inl empty_min_error
  ∧ analyze csv_file_path =
    ([[Lit "=== データの概要 ==="];
      [Lit "総データ数: "; FInt 0; Lit "件"];
      [Lit "参加者数: "; FInt 0; Lit "人"];
      [Lit "科目数: "; FInt 0; Lit "科目"];
      Lit "エラーが発生しました: " :: exn_str empty_min_error], inr None)
  ∧ main int_of_string fs =
    ([[Lit "📚 学生成績分析プログラム"]; [Lit (str_mul "=" 60)];
      [Lit "=== データの概要 ==="];
      [Lit "総データ数: "; FInt 0; Lit "件"];
      [Lit "参加者数: "; FInt 0; Lit "人"];
      [Lit "科目数: "; FInt 0; Lit "科目"];
      Lit "エラーが発生しました: " :: exn_str empty_min_error], inr tt).
Proof.
  intros Hr. apply read_records_eq in Hr.
  assert (analyze csv_file_path =
    ([[Lit "=== データの概要 ==="];
      [Lit "総データ数: "; FInt 0; Lit "件"];
      [Lit "参加者数: "; FInt 0; Lit "人"];
      [Lit "科目数: "; FInt 0; Lit "科目"];
      Lit "エラーが発生しました: " :: exn_str empty_min_error], inr None)) as Ha.
  { unfold analyze_student_scores, analyze_body.
    by rewrite Hr, bind_inr, analyze_records_empty. }
  split; [by rewrite analyze_records_empty|]. split; [done|].
  unfold main. cbv zeta. rewrite !print_bind, Ha. done.
Qed.

End ErrorHandling.

(** ** Dicts *)

Section Dict.

Context {K V : Type} `{EqDecision K}.
Implicit Types (d : dict K V) (k : K) (v : V).

Lemma dict_get_None d k : dict_get d k = None ↔ k ∉ keys d.
Proof.
  induction d as [|[k' v'] d IH]; simpl.
  - split; [intros _; apply not_elem_of_nil|done].
  - rewrite not_elem_of_cons. destruct (decide (k' = k)) as [->|Hne].
    + split; [done|intros [? _]; done].
    + rewrite IH. split; [intros ?; split; [congruence|done]|by intros [_ ?]].
Qed.

Lemma dict_get_Some_elem d k v : dict_get d k = Some v → (k, v) ∈ d.
Proof.
  induction d as [|[k' v'] d IH]; simpl; [done|].
  destruct (decide (k' = k)) as [->|Hne].
  - intros [= ->]. left.
  - intros Hg. right. by apply IH.
Qed.

Lemma dict_set_fresh d k v : k ∉ keys d → dict_set d k v = d ++ [(k, v)].
Proof.
  induction d as [|[k' v'] d IH]; simpl; [done|].
  rewrite not_elem_of_cons. intros [Hne Hk].
  destruct (decide (k' = k)); [congruence|]. by rewrite IH.
Qed.

Lemma dict_get_app d d' k :
  dict_get (d ++ d') k =
    match dict_get d k with Some v => Some v | None => dict_get d' k end.
Proof.
  induction d as [|[k' v'] d IH]; simpl; [done|].
  by destruct (decide (k' = k)).
Qed.

Lemma keys_app d d' : keys (d ++ d') = keys d ++ keys d'.
Proof. apply fmap_app. Qed.

Lemma dict_get_NoDup d k v : NoDup (keys d) → (k, v) ∈ d → dict_get d k = Some v.
Proof.
  induction d as [|[k' v'] d IH]; simpl; [by intros _ ?%elem_of_nil|].
  intros [Hk Hd]%NoDup_cons [[= -> ->]|Hin]%elem_of_cons.
  - by rewrite decide_True.
  - destruct (decide (k' = k)) as [->|Hne]; [|by apply IH].
    exfalso. apply Hk. unfold keys. apply list_elem_of_fmap. by exists (k, v).
Qed.

End Dict.

(** ** Grouping by student *)

Section Grouping.

Variable data : list Record_.

Lemma collect_results_unfold students :
  collect_results data students = foldl (collect_step data) (inr []) students.
Proof. done. Qed.

Lemma collect_raised e students : foldl (collect_step data) (inl e) students = inl e.
Proof. by induction students. Qed.

(** With distinct students every round appends one item. *)
Lemma collect_loop students : ∀ acc r,
  NoDup students → (∀ s, s ∈ students → s ∉ keys acc) →
  foldl (collect_step data) (inr acc) students = r →
  match r with
  | inr results =>
      ∃ new, results = acc ++ new
        ∧ Forall2 (λ s kv, kv.1 = s ∧ student_stats data s = inr kv.2)
                  students new
  | inl e => ∃ s, s ∈ students ∧ student_stats data s = inl e
  end.
Proof.
  induction students as [|s l IH]; intros acc r Hnd Hfresh; simpl.
  - intros <-. exists []. by rewrite app_nil_r.
  - apply NoDup_cons in Hnd as [Hs Hl].
    destruct (student_stats data s) as [e|st] eqn:Hst; simpl.
    + rewrite collect_raised. intros <-. exists s. split; [left|done].
    + rewrite dict_set_fresh by (apply Hfresh; left). intros Hr.
      assert (∀ s', s' ∈ l → s' ∉ keys (acc ++ [(s, st)])) as Hfresh'.
      { intros s' Hs'. rewrite keys_app, not_elem_of_app. split.
        - apply Hfresh. by right.
        - simpl. intros ->%list_elem_of_singleton. done. }
      pose proof (IH (acc ++ [(s, st)]) r Hl Hfresh' Hr) as H.
      destruct r as [e|results].
      * destruct H as (s' & Hs' & He). exists s'. split; [by right|done].
      * destruct H as (new & -> & HF).
        exists ((s, st) :: new). split; [by rewrite <-app_assoc|].
        by constructor.
Qed.

Lemma collect_results_inr students results :
  NoDup students → collect_results data students = inr results →
  Forall2 (λ s kv, kv.1 = s ∧ student_stats data s = inr kv.2) students results.
Proof.
  intros Hnd Hc.
  destruct (collect_loop students [] _ Hnd (λ s _, not_elem_of_nil s) Hc)
    as (new & -> & HF).
  done.
Qed.

Lemma collect_results_inl students e :
  NoDup students → collect_results data students = inl e →
  ∃ s, s ∈ students ∧ student_stats data s = inl e.
Proof.
  intros Hnd Hc.
  apply (collect_loop students [] _ Hnd (λ s _, not_elem_of_nil s) Hc).
Qed.

Lemma collect_results_keys students results :
  NoDup students → collect_results data students = inr results →
  keys results = students.
Proof.
  intros Hnd Hc. pose proof (collect_results_inr _ _ Hnd Hc) as HF.
  clear Hc Hnd. unfold keys. induction HF as [|s kv l r [Hs _] _ IH]; [done|].
  rewrite fmap_cons, IH. by f_equal.
Qed.

(** The dict maps each student of the loop to the statistics of that
    student, and nothing else. *)
Lemma collect_results_lookup students results k :
  NoDup students → collect_results data students = inr results →
  dict_get results k =
    if decide (k ∈ students)
    then match student_stats data k with inr st => Some st | inl _ => None end
    else None.
Proof.
  intros Hnd Hc. pose proof (collect_results_keys _ _ Hnd Hc) as Hk.
  pose proof (collect_results_inr _ _ Hnd Hc) as HF.
  destruct (decide (k ∈ students)) as [Hin|Hout].
  - assert (∃ st, (k, st) ∈ results ∧ student_stats data k = inr st)
      as (st & Hel & Hst).
    { clear Hc Hk Hnd. induction HF as [|s [k' st] l r [Hk' Hst] _ IH].
      - by apply elem_of_nil in Hin.
      - simpl in *. subst k'. apply elem_of_cons in Hin as [->|Hin].
        + exists st. split; [left|done].
        + destruct (IH Hin) as (st' & ? & ?). exists st'. split; [by right|done]. }
    rewrite Hst. apply dict_get_NoDup; [by rewrite Hk|done].
  - apply dict_get_None. by rewrite Hk.
Qed.

Lemma collect_results_succeeds students :
  NoDup students →
  (∃ results, collect_results data students = inr results)
  ↔ ∀ s, s ∈ students → ∃ st, student_stats data s = inr st.
Proof.
  intros Hnd. split.
  - intros [results Hc] s Hs.
    pose proof (collect_results_lookup _ _ s Hnd Hc) as Hl.
    rewrite decide_True in Hl by done.
    pose proof (collect_results_keys _ _ Hnd Hc) as Hk.
    destruct (student_stats data s) as [e|st]; [|by eexists].
    apply dict_get_None in Hl. by rewrite Hk in Hl.
  - intros Hall. destruct (collect_results data students) as [e|results] eqn:Hc.
    + destruct (collect_results_inl _ _ Hnd Hc) as (s & Hs & He).
      destruct (Hall s Hs) as [st Hst]. congruence.
    + by eexists.
Qed.

End Grouping.

(** ** [min] and [max] on ints *)

Lemma max_int_loop l : ∀ best,
  ∃ m, min_max_loop int_gt best l = inr m
       ∧ (m = best ∨ m ∈ l) ∧ best ≤ m ∧ ∀ x, x ∈ l → x ≤ m.
Proof.
  induction l as [|x l IH]; intros best; simpl.
  - exists best. split_and!; [done|by left|lia|by intros ? ?%elem_of_nil].
  - destruct (IH (if best <? x then x else best)) as (m & -> & Hm & Hle & Hall).
    exists m. split; [done|].
    destruct (Z.ltb_spec best x).
    + split_and!; [right; destruct Hm as [->|?]; [left|by right]|lia|].
      intros y [->|Hy]%elem_of_cons; [done|by apply Hall].
    + split_and!; [destruct Hm as [->|?]; [by left|right; by right]|lia|].
      intros y [->|Hy]%elem_of_cons; [lia|by apply Hall].
Qed.

Lemma min_int_loop l : ∀ best,
  ∃ m, min_max_loop int_lt best l = inr m
       ∧ (m = best ∨ m ∈ l) ∧ m ≤ best ∧ ∀ x, x ∈ l → m ≤ x.
Proof.
  induction l as [|x l IH]; intros best; simpl.
  - exists best. split_and!; [done|by left|lia|by intros ? ?%elem_of_nil].
  - destruct (IH (if x <? best then x else best)) as (m & -> & Hm & Hle & Hall).
    exists m. split; [done|].
    destruct (Z.ltb_spec x best).
    + split_and!; [right; destruct Hm as [->|?]; [left|by right]|lia|].
      intros y [->|Hy]%elem_of_cons; [done|by apply Hall].
    + split_and!; [destruct Hm as [->|?]; [by left|right; by right]|lia|].
      intros y [->|Hy]%elem_of_cons; [lia|by apply Hall].
Qed.

(** On a non-empty list [max] returns an element no other exceeds. *)
Lemma max_int_spec l :
  l ≠ [] → ∃ m, max_int l = inr m ∧ m ∈ l ∧ ∀ x, x ∈ l → x ≤ m.
Proof.
  destruct l as [|b l]; [done|intros _].
  destruct (max_int_loop l b) as (m & Hm & Hin & Hle & Hall).
  exists m. split; [done|]. split.
  - destruct Hin as [->|?]; [left|by right].
  - intros x [->|Hx]%elem_of_cons; [done|by apply Hall].
Qed.

Lemma min_int_spec l :
  l ≠ [] → ∃ m, min_int l = inr m ∧ m ∈ l ∧ ∀ x, x ∈ l → m ≤ x.
Proof.
  destruct l as [|b l]; [done|intros _].
  destruct (min_int_loop l b) as (m & Hm & Hin & Hle & Hall).
  exists m. split; [done|]. split.
  - destruct Hin as [->|?]; [left|by right].
  - intros x [->|Hx]%elem_of_cons; [done|by apply Hall].
Qed.

(** ** The statistics of one student *)

Lemma student_stats_inr data student st :
  student_stats data student = inr st →
  let scores := scores_of_student data student in
  (statistics_mean (PyInt <$> scores) ≫= round2) = inr (平均点 st)
  ∧ max_int scores = inr (最高点 st)
  ∧ min_int scores = inr (最低点 st)
  ∧ テスト回数 st = len scores
  ∧ スコア詳細 st = scores.
Proof.
  unfold student_stats. cbv zeta.
  destruct (statistics_mean _ ≫= round2) as [e|mean]; [done|].
  destruct (max_int _) as [e|hi]; [done|].
  destruct (min_int _) as [e|lo]; [done|].
  by intros [= <-].
Qed.

Lemma scores_of_student_nonempty data student :
  student ∈ (名前 <$> data) → scores_of_student data student ≠ [].
Proof.
  intros (row & -> & Hrow)%list_elem_of_fmap Hnil.
  apply fmap_nil_inv in Hnil.
  assert (row ∈ filter (λ r, 名前 r = 名前 row) data) as Hin
    by (by apply list_elem_of_filter).
  rewrite Hnil in Hin. by apply elem_of_nil in Hin.
Qed.

Lemma sum_Z_cons x l : sum_Z (x :: l) = x + sum_Z l.
Proof. done. Qed.

Lemma len_cons {A} (x : A) l : len (x :: l) = 1 + len l.
Proof. unfold len. simpl. lia. Qed.

(** Group sizes add up: with distinct keys covering the key of every
    element, each element is counted under exactly one key. *)
Lemma group_sizes_sum {A} (key : A → cell) (l : list A) (ks : list cell) :
  NoDup ks → (∀ x, x ∈ l → key x ∈ ks) →
  sum_Z ((λ k, len (filter (λ x, key x = k) l)) <$> ks) = len l.
Proof.
  intros Hnd. induction l as [|x l IH]; intros Hcov.
  - clear. induction ks as [|k ks IH]; [done|].
    rewrite fmap_cons, sum_Z_cons, IH. done.
  - assert (sum_Z ((λ k, len (filter (λ y, key y = k) (x :: l))) <$> ks)
            = 1 + sum_Z ((λ k, len (filter (λ y, key y = k) l)) <$> ks)) as ->.
    { assert (key x ∈ ks) as Hx by (apply Hcov; left).
      clear IH Hcov. induction ks as [|k ks IH]; [by apply elem_of_nil in Hx|].
      apply NoDup_cons in Hnd as [Hk Hnd].
      rewrite !fmap_cons, !sum_Z_cons, filter_cons.
      destruct (decide (key x = k)) as [Heq|Hne].
      - assert (sum_Z ((λ k, len (filter (λ y, key y = k) (x :: l))) <$> ks)
                = sum_Z ((λ k, len (filter (λ y, key y = k) l)) <$> ks)) as ->.
        { clear IH Hnd Hx. induction ks as [|k' ks IH]; [done|].
          apply not_elem_of_cons in Hk as [Hne Hk].
          rewrite !fmap_cons, !sum_Z_cons.
          rewrite filter_cons, decide_False by congruence. by rewrite IH. }
        rewrite len_cons. lia.
      - apply elem_of_cons in Hx as [?|Hx]; [done|].
        rewrite (IH Hnd Hx). lia. }
    rewrite IH by (intros y Hy; apply Hcov; by right).
    rewrite len_cons. lia.
Qed.

(** ** The per-student mapping *)

Section Aggregation.

Context {set_order : SetOrder}.
Variable int_of_string : string → option Z.
Variable fs : string → file.

Local Abbreviation read := (read_records int_of_string fs).
Local Abbreviation body := (analyze_body int_of_string fs).
Local Abbreviation analyze := (analyze_student_scores int_of_string fs).

Lemma analyze_records_inr data results :
  outcome (analyze_records data) = inr results →
  collect_results data (set_list (名前 <$> data)) = inr results.
Proof.
  unfold analyze_records. cbv zeta.
  rewrite !outcome_print_bind, outcome_lift_bind.
  destruct (min_str _) as [e|lo]; [done|]. rewrite outcome_lift_bind.
  destruct (max_str _) as [e|hi]; [done|].
  by rewrite !outcome_print_bind.
Qed.

(** A returned dict is the one the loop builds from the records read. *)
Lemma analyze_success csv_file data results :
  outcome (read csv_file) = inr data →
  outcome (analyze csv_file) = inr (Some results) →
  collect_results data (set_list (名前 <$> data)) = inr results.
Proof.
  intros Hr Ha.
  apply analyze_outcome_Some in Ha. revert Ha.
  unfold analyze_body. rewrite outcome_bind, Hr, outcome_bind.
  destruct (outcome (analyze_records data)) as [e|r] eqn:Hd; [done|].
  intros [= ->]. by apply analyze_records_inr.
Qed.

(** Under a name of the records the returned dict holds the statistics
    of that student. *)
Lemma lookup_student csv_file data results student :
  outcome (read csv_file) = inr data →
  outcome (analyze csv_file) = inr (Some results) →
  student ∈ (名前 <$> data) →
  ∃ stats, dict_get results student = Some stats
           ∧ student_stats data student = inr stats.
Proof.
  intros Hr Ha Hin. pose proof (analyze_success _ _ _ Hr Ha) as Hc.
  pose proof (collect_results_lookup data _ _ student (set_list_NoDup _) Hc) as Hl.
  rewrite decide_True in Hl by (by apply set_list_elem).
  destruct (proj1 (collect_results_succeeds data _ (set_list_NoDup _))
              (ex_intro _ results Hc) student) as [st Hst];
    [by apply set_list_elem|].
  rewrite Hst in Hl. by exists st.
Qed.

Lemma counts_of_results data students results :
  Forall2 (λ s kv, kv.1 = s ∧ student_stats data s = inr kv.2) students results →
  テスト回数 <$> values results
  = (λ k, len (filter (λ row, 名前 row = k) data)) <$> students.
Proof.
  induction 1 as [|s [k st] l r [_ Hst] _ IH]; [done|].
  unfold values in *. rewrite !fmap_cons, IH. f_equal. simpl in *.
  destruct (student_stats_inr _ _ _ Hst) as (_ & _ & _ & -> & _).
  unfold scores_of_student, len. by rewrite length_fmap.
Qed.

End Aggregation.

(** ** Independence of the order of sets *)

Section SetOrders.

Variables order1 order2 : SetOrder.
Variable int_of_string : string → option Z.
Variable fs : string → file.

Lemma analyze_records_outcome (so : SetOrder) data :
  outcome (@analyze_records so data) =
    match min_str (日付 <$> data), max_str (日付 <$> data) with
    | inl e, _ => inl e
    | inr _, inl e => inl e
    | inr _, inr _ => collect_results data (@set_list so (名前 <$> data))
    end.
Proof.
  unfold analyze_records. cbv zeta.
  rewrite !outcome_print_bind, outcome_lift_bind.
  destruct (min_str _) as [e|lo]; [done|]. rewrite outcome_lift_bind.
  destruct (max_str _) as [e|hi]; [done|].
  by rewrite !outcome_print_bind.
Qed.

Lemma collect_results_orders data :
  match collect_results data (@set_list order1 (名前 <$> data)),
        collect_results data (@set_list order2 (名前 <$> data)) with
  | inr r1, inr r2 => ∀ k, dict_get r1 k = dict_get r2 k
  | inl _, inl _ => True
  | _, _ => False
  end.
Proof.
  set (l1 := @set_list order1 (名前 <$> data)).
  set (l2 := @set_list order2 (名前 <$> data)).
  assert (NoDup l1) as Hnd1 by apply set_list_NoDup.
  assert (NoDup l2) as Hnd2 by apply set_list_NoDup.
  assert (∀ k, k ∈ l1 ↔ k ∈ l2) as Hsame.
  { intros k. unfold l1, l2. by rewrite !set_list_elem. }
  pose proof (collect_results_succeeds data l1 Hnd1) as Hs1.
  pose proof (collect_results_succeeds data l2 Hnd2) as Hs2.
  destruct (collect_results data l1) as [e1|r1] eqn:H1,
           (collect_results data l2) as [e2|r2] eqn:H2; [done|..].
  - destruct (proj2 Hs1) as [r1 [=]].
    intros s Hs. apply (proj1 Hs2); [by eexists|by apply Hsame].
  - destruct (proj2 Hs2) as [r2 [=]].
    intros s Hs. apply (proj1 Hs1); [by eexists|by apply Hsame].
  - intros k.
    rewrite (collect_results_lookup data l1 r1 k Hnd1 H1).
    rewrite (collect_results_lookup data l2 r2 k Hnd2 H2).
    destruct (decide (k ∈ l1)) as [Hin|Hout].
    + by rewrite decide_True by (by apply Hsame).
    + by rewrite decide_False by (by rewrite <-Hsame).
Qed.

(** C8: running the analysis again on the same input gives the same
    statistics under every key.  The model has no state that survives a
    call; the one thing a second run can do differently is enumerate its
    sets in another order, and the result does not depend on that: under
    any two orders both runs return [None], or both return dicts that
    hold the same statistics for every key. *)
Theorem analysis_is_repeatable csv_file :
  match outcome (@analyze_student_scores order1 int_of_string fs csv_file),
        outcome (@analyze_student_scores order2 int_of_string fs csv_file) with
  | inr (Some r1), inr (Some r2) => ∀ k, dict_get r1 k = dict_get r2 k
  | inr None, inr None => True
  | _, _ => False
  end.
Proof.
  rewrite (@analyze_outcome order1), (@analyze_outcome order2).
  unfold analyze_body. rewrite !outcome_bind.
  destruct (outcome (read_records int_of_string fs csv_file)) as [e|data]; [done|].
  rewrite !outcome_bind, !analyze_records_outcome.
  destruct (min_str _) as [e|lo]; [done|].
  destruct (max_str _) as [e|hi]; [done|].
  pose proof (collect_results_orders data) as H.
  destruct (collect_results data (@set_list order1 _)) as [e1|r1],
           (collect_results data (@set_list order2 _)) as [e2|r2]; done.
Qed.

End SetOrders.

(** ** Ranking *)

Lemma num_leb_le x y : num_leb x y = true ↔ num_le x y.
Proof. apply Qle_bool_iff. Qed.

Lemma num_le_total x y : num_le x y ∨ num_le y x.
Proof.
  unfold num_le. destruct (Qlt_le_dec (num_Q y) (num_Q x)) as [H|H].
  - right. by apply Qlt_le_weak.
  - by left.
Qed.

Lemma num_le_trans x y z : num_le x y → num_le y z → num_le x z.
Proof. apply Qle_trans. Qed.

Section Sorting.

Context {A : Type} (key : A → num).

Local Abbreviation desc := (desc_by key).

Lemma insert_desc_Permutation x l : insert_desc key x l ≡ₚ x :: l.
Proof.
  induction l as [|y l IH]; simpl; [done|].
  destruct (num_leb (key y) (key x)); [done|].
  rewrite IH. apply Permutation_swap.
Qed.

Lemma insert_desc_HdRel a x l :
  desc a x → HdRel desc a l → HdRel desc a (insert_desc key x l).
Proof.
  intros Hax Hal. destruct l as [|y l]; simpl; [by constructor|].
  destruct (num_leb (key y) (key x)); [by constructor|].
  constructor. by inversion Hal.
Qed.

Lemma insert_desc_Sorted x l :
  Sorted desc l → Sorted desc (insert_desc key x l).
Proof.
  induction 1 as [|y l Hl IH Hy]; simpl; [by repeat constructor|].
  destruct (num_leb (key y) (key x)) eqn:Hle.
  - constructor; [by constructor|]. constructor. by apply num_leb_le.
  - constructor; [done|]. apply insert_desc_HdRel; [|done].
    destruct (num_le_total (key x) (key y)) as [H|H]; [done|].
    apply num_leb_le in H. congruence.
Qed.

Lemma sorted_desc_Permutation l : sorted_desc key l ≡ₚ l.
Proof.
  induction l as [|x l IH]; simpl; [done|].
  by rewrite insert_desc_Permutation, IH.
Qed.

Lemma sorted_desc_Sorted l : Sorted desc (sorted_desc key l).
Proof.
  induction l as [|x l IH]; simpl; [constructor|by apply insert_desc_Sorted].
Qed.

Lemma Sorted_adjacent (R : A → A → Prop) l i a b :
  Sorted R l → l !! i = Some a → l !! S i = Some b → R a b.
Proof.
  intros Hs. revert i. induction Hs as [|x l Hl IH Hx]; intros i; [done|].
  destruct i as [|i]; simpl.
  - intros [= ->] Hb. destruct l as [|y l]; [done|].
    simpl in Hb. injection Hb as ->. by inversion Hx.
  - apply IH.
Qed.

End Sorting.

Lemma for_each_lift_print {A} (g : A → exn + line) (l : list A) lines :
  mapM g l = inr lines →
  for_each l (λ x, lift (g x) ≫= print) = (lines, inr tt).
Proof.
  revert lines. induction l as [|x l IH]; intros lines Hm.
  - by injection Hm as <-.
  - change (mapM g (x :: l)) with (y ← g x; k ← mapM g l; mret (y :: k)) in Hm.
    change (for_each (x :: l) (λ x, lift (g x) ≫= print))
      with ((lift (g x) ≫= print);; for_each l (λ x, lift (g x) ≫= print)).
    destruct (g x) as [e|ln]; [done|].
    destruct (mapM g l) as [e|lns]; [done|]. injection Hm as <-.
    rewrite lift_bind_inr, print_bind, (IH lns eq_refl). done.
Qed.

Lemma for_each_ext {A} (l : list A) (f g : A → M unit) :
  (∀ x, f x = g x) → for_each l f = for_each l g.
Proof.
  intros Hfg. induction l as [|x l IH]; [done|]. simpl. by rewrite Hfg, IH.
Qed.

(** C2: the ranking of a non-empty statistics mapping holds the items of
    the mapping, each once, ordered by mean descending: of any two
    adjacent items the first has the mean that is not smaller.  Whenever
    every line can be formatted, [create_ranking] prints the header, one
    line per item in that order, and the closing rule. *)
Theorem ranking_sorted_by_mean_descending (results : dict cell Stats) :
  results ≠ [] →
  sorted_students results ≡ₚ results
  ∧ Sorted ranked_before (sorted_students results)
  ∧ (∀ i a b, sorted_students results !! i = Some a →
              sorted_students results !! S i = Some b →
              num_le (平均点 b.2) (平均点 a.2))
  ∧ (∀ lines, ranking_lines (sorted_students results) = inr lines →
              create_ranking results =
                ([Lit nl; Lit "🏅 平均点ランキング"] :: [Lit (str_mul "=" 40)]
                   :: lines ++ [[Lit (str_mul "=" 40)]], inr tt)).
Proof.
  intros Hne.
  pose proof (sorted_desc_Sorted (λ x : cell * Stats, 平均点 x.2) results) as Hs.
  split_and!.
  - apply sorted_desc_Permutation.
  - exact Hs.
  - intros i a b Ha Hb. by apply (Sorted_adjacent _ _ _ _ _ Hs Ha Hb).
  - intros lines Hl. unfold create_ranking.
    destruct results as [|kv results]; [done|].
    rewrite (for_each_ext _ _
      (λ x, lift ((λ '(rank, (student, stats)),
                    ranking_line rank student stats) x) ≫= print))
      by (by intros [rank [student stats]]).
    rewrite !print_bind, (for_each_lift_print _ _ _ Hl), bind_inr. done.
Qed.

(** ** [min] and [max] on strs *)

Lemma str_ltb_trans a b c :
  str_ltb a b = true → str_ltb b c = true → str_ltb a c = true.
Proof.
  unfold str_ltb. intros Hab Hbc.
  destruct (String.compare a b) eqn:Eab; try done.
  destruct (String.compare b c) eqn:Ebc; try done.
  apply OrderedTypeEx.String_as_OT.cmp_lt in Eab, Ebc.
  pose proof (OrderedTypeEx.String_as_OT.lt_trans _ _ _ Eab Ebc) as Hac.
  apply OrderedTypeEx.String_as_OT.cmp_lt in Hac.
  unfold OrderedTypeEx.String_as_OT.cmp in Hac. by rewrite Hac.
Qed.

Lemma str_ltb_leb a b : str_ltb a b = false ↔ String.leb b a = true.
Proof.
  unfold str_ltb, String.leb. rewrite (String.compare_antisym a b).
  destruct (String.compare b a); simpl; split; done.
Qed.

Lemma str_ltb_cases a b :
  str_ltb a b = true ∨ a = b ∨ str_ltb b a = true.
Proof.
  unfold str_ltb. rewrite (String.compare_antisym a b).
  destruct (String.compare b a) eqn:E; simpl; [|by right; right|by left].
  right; left. symmetry. by apply String.compare_eq_iff.
Qed.

(** [a < b] and [b <= c] give [a < c]; [a <= b] and [a < c]... *)
Lemma str_lt_le_trans a b c :
  str_ltb a b = true → str_ltb c b = false → str_ltb a c = true.
Proof.
  intros Hab Hcb. destruct (str_ltb_cases b c) as [Hbc|[<-|Hbc]].
  - by apply (str_ltb_trans a b c).
  - done.
  - congruence.
Qed.

Lemma str_le_lt_trans a b c :
  str_ltb b a = false → str_ltb b c = true → str_ltb a c = true.
Proof.
  intros Hba Hbc. destruct (str_ltb_cases a b) as [Hab|[->|Hab]].
  - by apply (str_ltb_trans a b c).
  - done.
  - congruence.
Qed.

Lemma str_ltb_irrefl a : str_ltb a a = false.
Proof.
  unfold str_ltb. pose proof (String.compare_antisym a a) as H.
  by destruct (String.compare a a).
Qed.

(** The loop of [min] on strs ends with an element none is below. *)
Lemma min_str_loop (l : list string) : ∀ best,
  ∃ m, min_max_loop cell_lt (Some best) (Some <$> l) = inr (Some m)
       ∧ m ∈ best :: l ∧ ∀ x, x ∈ best :: l → str_ltb x m = false.
Proof.
  induction l as [|x l IH]; intros best.
  - exists best. split_and!; [done|left|].
    intros y ->%list_elem_of_singleton. apply str_ltb_irrefl.
  - rewrite fmap_cons. simpl. destruct (str_ltb x best) eqn:Hlt.
    + destruct (IH x) as (m & -> & Hin & Hall).
      exists m. split_and!; [done|by right|].
      intros y [->|Hy]%elem_of_cons; [|by apply Hall].
      destruct (str_ltb best m) eqn:Hbm; [|done].
      rewrite <-(Hall x (list_elem_of_here _ _)).
      symmetry. by apply (str_ltb_trans x best m).
    + destruct (IH best) as (m & -> & Hin & Hall).
      exists m. split_and!; [done|..].
      * apply elem_of_cons in Hin as [->|?]; [left|right; by right].
      * intros y [->|[->|Hy]%elem_of_cons]%elem_of_cons.
        -- apply Hall. left.
        -- destruct (str_ltb x m) eqn:Hym; [|done].
           rewrite <-Hlt. symmetry. apply (str_lt_le_trans x m best); [done|].
           apply Hall. left.
        -- apply Hall. by right.
Qed.

(** The loop of [max] on strs ends with an element none is above. *)
Lemma max_str_loop (l : list string) : ∀ best,
  ∃ m, min_max_loop cell_gt (Some best) (Some <$> l) = inr (Some m)
       ∧ m ∈ best :: l ∧ ∀ x, x ∈ best :: l → str_ltb m x = false.
Proof.
  induction l as [|x l IH]; intros best.
  - exists best. split_and!; [done|left|].
    intros y ->%list_elem_of_singleton. apply str_ltb_irrefl.
  - rewrite fmap_cons. simpl. destruct (str_ltb best x) eqn:Hlt.
    + destruct (IH x) as (m & -> & Hin & Hall).
      exists m. split_and!; [done|by right|].
      intros y [->|Hy]%elem_of_cons; [|by apply Hall].
      destruct (str_ltb m best) eqn:Hmb; [|done].
      rewrite <-(Hall x (list_elem_of_here _ _)).
      symmetry. by apply (str_ltb_trans m best x).
    + destruct (IH best) as (m & -> & Hin & Hall).
      exists m. split_and!; [done|..].
      * apply elem_of_cons in Hin as [->|?]; [left|right; by right].
      * intros y [->|[->|Hy]%elem_of_cons]%elem_of_cons.
        -- apply Hall. left.
        -- destruct (str_ltb m x) eqn:Hmy; [|done].
           rewrite <-Hlt. symmetry. apply (str_le_lt_trans best m x); [|done].
           apply Hall. left.
        -- apply Hall. by right.
Qed.

Lemma min_str_spec (dates : list string) :
  dates ≠ [] →
  ∃ lo, min_str (Some <$> dates) = inr (Some lo) ∧ lo ∈ dates
        ∧ ∀ d, d ∈ dates → String.leb lo d = true.
Proof.
  destruct dates as [|b l]; [done|intros _].
  destruct (min_str_loop l b) as (m & Hm & Hin & Hall).
  exists m. split_and!; [done..|]. intros d Hd. by apply str_ltb_leb, Hall.
Qed.

Lemma max_str_spec (dates : list string) :
  dates ≠ [] →
  ∃ hi, max_str (Some <$> dates) = inr (Some hi) ∧ hi ∈ dates
        ∧ ∀ d, d ∈ dates → String.leb d hi = true.
Proof.
  destruct dates as [|b l]; [done|intros _].
  destruct (max_str_loop l b) as (m & Hm & Hin & Hall).
  exists m. split_and!; [done..|]. intros d Hd. by apply str_ltb_leb, Hall.
Qed.

(** ** The overview *)

Section Overview.

Context {set_order : SetOrder}.
Variable int_of_string : string → option Z.
Variable fs : string → file.

Lemma try_except_output_prefix {A} (m : M A) hs :
  ∃ more, output (try_except m hs) = output m ++ more.
Proof.
  unfold try_except. destruct m as [out [e|a]].
  - destruct (handle e hs) as [out' r]. by exists out'.
  - exists []. simpl. by rewrite app_nil_r.
Qed.

(** C9: for a non-empty list of records whose dates are strs, the
    overview reports the period as the least and the greatest date in
    lexical order: its fifth line is 対象期間 with two dates of the records,
    the first no later and the second no earlier than any date. *)
Theorem period_is_min_max_date csv_file data (dates : list string) :
  outcome (read_records int_of_string fs csv_file) = inr data →
  data ≠ [] →
  日付 <$> data = Some <$> dates →
  ∃ lo hi,
    lo ∈ dates ∧ hi ∈ dates
    ∧ (∀ d, d ∈ dates → String.leb lo d = true ∧ String.leb d hi = true)
    ∧ output (analyze_records data) !! 4%nat = Some (period_line (Some lo) (Some hi))
    ∧ output (analyze_student_scores int_of_string fs csv_file) !! 4%nat
      = Some (period_line (Some lo) (Some hi)).
Proof.
  intros Hr Hne Hdates.
  assert (dates ≠ []) as Hne'.
  { intros ->. by apply fmap_nil_inv in Hdates. }
  destruct (min_str_spec dates Hne') as (lo & Hlo & Hlo_in & Hlo_le).
  destruct (max_str_spec dates Hne') as (hi & Hhi & Hhi_in & Hhi_le).
  assert (output (analyze_records data) !! 4%nat
          = Some (period_line (Some lo) (Some hi))) as Hl.
  { unfold analyze_records. cbv zeta.
    rewrite !output_print_bind, output_lift_bind, Hdates, Hlo.
    rewrite output_lift_bind, Hhi, !output_print_bind. done. }
  exists lo, hi. split_and!; [done..|by split; auto|done|].
  - unfold analyze_student_scores.
    destruct (try_except_output_prefix (analyze_body int_of_string fs csv_file)
      [ (FileNotFoundError, λ _ : exn,
          print [Lit "エラー: ファイル '"; FStr (Some csv_file);
                 Lit "' が見つかりません。"];;
          mret (None : option (dict cell Stats)));
        (Exception, λ e : exn,
          print (Lit "エラーが発生しました: " :: exn_str e);;
          mret None) ]) as [more ->].
    apply lookup_app_l_Some. unfold analyze_body.
    rewrite output_bind, (read_records_output int_of_string fs), Hr. simpl.
    rewrite output_bind. by apply lookup_app_l_Some.
Qed.

End Overview.

(** ** Rounding to the nearest integer *)

Module RoundFacts.

Lemma rne_bounds p q : 0 < q → - q ≤ 2 * (p - q * rne p q) ≤ q.
Proof.
  intros Hq. unfold rne.
  pose proof (Z.div_mod p q ltac:(lia)) as Hdm.
  pose proof (Z.mod_pos_bound p q Hq) as Hm.
  destruct (Z.compare_spec (2 * (p mod q)) q) as [H|H|H];
    [destruct (Z.even (p / q))|..]; nia.
Qed.

Lemma rne_unique p q k : 0 < q → - q < 2 * (p - q * k) < q → rne p q = k.
Proof.
  intros Hq Hk. pose proof (rne_bounds p q Hq) as Hr. nia.
Qed.

Lemma rne_exact q k : 0 < q → rne (k * q) q = k.
Proof. intros Hq. apply rne_unique; [done|nia]. Qed.

Lemma rne_scale c p q : 0 < c → 0 < q → rne (c * p) (c * q) = rne p q.
Proof.
  intros Hc Hq. unfold rne.
  rewrite Z.mul_mod_distr_l, Z.div_mul_cancel_l by lia.
  destruct (Z.compare_spec (2 * (c * (p mod q))) (c * q)) as [H|H|H];
    destruct (Z.compare_spec (2 * (p mod q)) q) as [H'|H'|H']; try done; nia.
Qed.

Lemma rne_cross p q p' q' :
  0 < q → 0 < q' → p * q' = p' * q → rne p q = rne p' q'.
Proof.
  intros Hq Hq' Heq.
  rewrite <-(rne_scale q' p q), <-(rne_scale q p' q') by done.
  f_equal; lia.
Qed.

Lemma rne_le p q K : 0 < q → p ≤ K * q → rne p q ≤ K.
Proof. intros Hq Hp. pose proof (rne_bounds p q Hq). nia. Qed.

Lemma rne_ge p q K : 0 < q → K * q ≤ p → K ≤ rne p q.
Proof. intros Hq Hp. pose proof (rne_bounds p q Hq). nia. Qed.

Lemma rne_abs_le p q K : 0 < q → Z.abs p ≤ K * q → Z.abs (rne p q) ≤ K.
Proof.
  intros Hq Hp. apply Z.abs_le. split.
  - replace (- K) with (-K) by done. apply rne_ge; [done|lia].
  - apply rne_le; [done|lia].
Qed.

Lemma rne_0 q : 0 < q → rne 0 q = 0.
Proof. intros Hq. apply (rne_exact q 0 Hq). Qed.

End RoundFacts.
Import RoundFacts.

(** ** Powers of two and the binary logarithm of a ratio *)

Module Pow2Facts.

Lemma pexp_pos e : 0 < pexp e.
Proof. unfold pexp. apply Z.pow_pos_nonneg; lia. Qed.

Lemma nexp_pos e : 0 < nexp e.
Proof. unfold nexp. apply Z.pow_pos_nonneg; lia. Qed.

Lemma pexp_nonneg e : 0 ≤ e → pexp e = 2 ^ e ∧ nexp e = 1.
Proof.
  intros He. unfold pexp, nexp.
  rewrite Z.max_l, Z.max_r by lia. done.
Qed.

Lemma pexp_neg e : e ≤ 0 → pexp e = 1 ∧ nexp e = 2 ^ (- e).
Proof.
  intros He. unfold pexp, nexp.
  rewrite Z.max_r, Z.max_l by lia. done.
Qed.

(** [2 ^ (e + 1) = 2 * 2 ^ e] on the two sides of the fraction. *)
Lemma pexp_succ e : pexp (e + 1) * nexp e = 2 * pexp e * nexp (e + 1).
Proof.
  destruct (Z.le_gt_cases 0 e) as [He|He].
  - destruct (pexp_nonneg e He) as [-> ->].
    destruct (pexp_nonneg (e + 1) ltac:(lia)) as [-> ->].
    rewrite Z.pow_add_r by lia. lia.
  - destruct (pexp_neg e ltac:(lia)) as [-> ->].
    destruct (pexp_neg (e + 1) ltac:(lia)) as [-> ->].
    replace (- e) with (- (e + 1) + 1) by lia.
    rewrite Z.pow_add_r by lia. lia.
Qed.

(** [2 ^ (a + b) = 2 ^ a * 2 ^ b] on the two sides of the fraction. *)
Lemma pexp_add a b :
  pexp (a + b) * nexp a * nexp b = pexp a * pexp b * nexp (a + b).
Proof.
  unfold pexp, nexp. rewrite <-!Z.pow_add_r by lia. f_equal. lia.
Qed.

Lemma ilog2_ratio_lower a d :
  0 < a → 0 < d → pexp (ilog2_ratio a d) * d ≤ a * nexp (ilog2_ratio a d).
Proof.
  intros Ha Hd. unfold ilog2_ratio.
  pose proof (Z.log2_spec a Ha) as [Hal Hau].
  pose proof (Z.log2_spec d Hd) as [Hdl Hdu].
  pose proof (Z.log2_nonneg a). pose proof (Z.log2_nonneg d).
  set (l := Z.log2 a - Z.log2 d) in *.
  destruct (Z.leb_spec 0 l) as [Hl|Hl].
  - destruct (pexp_nonneg l Hl) as [Hp Hn].
    destruct (Z.leb_spec (d * 2 ^ l) a) as [Ht|Ht]; [rewrite Hp, Hn; lia|].
    destruct (Z.le_gt_cases 0 (l - 1)) as [Hl1|Hl1].
    + destruct (pexp_nonneg (l - 1) Hl1) as [-> ->].
      assert (2 ^ Z.log2 a = 2 ^ (l - 1) * 2 ^ Z.succ (Z.log2 d)) as Heq.
      { rewrite <-Z.pow_add_r by lia. f_equal. lia. }
      assert (0 < 2 ^ (l - 1)) by (apply Z.pow_pos_nonneg; lia). nia.
    + assert (l = 0) as Hl0 by lia.
      destruct (pexp_neg (l - 1) ltac:(lia)) as [-> ->].
      rewrite Hl0. simpl. replace (Z.log2 a) with (Z.log2 d) in * by lia.
      rewrite Z.pow_succ_r in Hdu by done. lia.
  - destruct (pexp_neg l ltac:(lia)) as [Hp Hn].
    destruct (Z.leb_spec d (a * 2 ^ (- l))) as [Ht|Ht]; [rewrite Hp, Hn; lia|].
    destruct (pexp_neg (l - 1) ltac:(lia)) as [-> ->].
    assert (2 ^ Z.succ (Z.log2 d) = 2 ^ (- (l - 1)) * 2 ^ Z.log2 a) as Heq.
    { rewrite <-Z.pow_add_r by lia. f_equal. lia. }
    assert (0 < 2 ^ (- (l - 1))) by (apply Z.pow_pos_nonneg; lia). nia.
Qed.

Lemma ilog2_ratio_upper a d :
  0 < a → 0 < d →
  a * nexp (ilog2_ratio a d) < 2 * pexp (ilog2_ratio a d) * d.
Proof.
  intros Ha Hd. unfold ilog2_ratio.
  pose proof (Z.log2_spec a Ha) as [Hal Hau].
  pose proof (Z.log2_spec d Hd) as [Hdl Hdu].
  pose proof (Z.log2_nonneg a). pose proof (Z.log2_nonneg d).
  set (l := Z.log2 a - Z.log2 d) in *.
  destruct (Z.leb_spec 0 l) as [Hl|Hl].
  - destruct (pexp_nonneg l Hl) as [Hp Hn].
    destruct (Z.leb_spec (d * 2 ^ l) a) as [Ht|Ht].
    + rewrite Hp, Hn.
      assert (2 ^ Z.succ (Z.log2 a) = 2 * 2 ^ l * 2 ^ Z.log2 d) as Heq.
      { rewrite <-Z.pow_succ_r, <-Z.pow_add_r by lia. f_equal. lia. }
      assert (0 < 2 ^ l) by (apply Z.pow_pos_nonneg; lia). nia.
    + destruct (Z.le_gt_cases 0 (l - 1)) as [Hl1|Hl1].
      * destruct (pexp_nonneg (l - 1) Hl1) as [-> ->].
        replace (2 ^ l) with (2 * 2 ^ (l - 1)) in Ht; [lia|].
        rewrite <-Z.pow_succ_r by lia. f_equal. lia.
      * assert (l = 0) as Hl0 by lia.
        destruct (pexp_neg (l - 1) ltac:(lia)) as [-> ->].
        rewrite Hl0 in *. simpl in *. lia.
  - destruct (pexp_neg l ltac:(lia)) as [Hp Hn].
    destruct (Z.leb_spec d (a * 2 ^ (- l))) as [Ht|Ht].
    + rewrite Hp, Hn.
      assert (2 ^ Z.succ (Z.log2 a) * 2 ^ (- l) = 2 * 2 ^ Z.log2 d) as Heq.
      { rewrite <-Z.pow_add_r, <-Z.pow_succ_r by lia. f_equal. lia. }
      assert (0 < 2 ^ (- l)) by (apply Z.pow_pos_nonneg; lia). nia.
    + destruct (pexp_neg (l - 1) ltac:(lia)) as [-> ->].
      replace (- (l - 1)) with (Z.succ (- l)) by lia.
      rewrite Z.pow_succ_r by lia. lia.
Qed.

End Pow2Facts.
Import Pow2Facts.

(** ** Conversion to float *)

Module FloatFacts.

Lemma float_mant_eq n d e :
  (if 0 <=? e then rne n (d * 2 ^ e) else rne (n * 2 ^ (- e)) d)
  = rne (n * nexp e) (d * pexp e).
Proof.
  destruct (Z.leb_spec 0 e) as [He|He].
  - destruct (pexp_nonneg e He) as [-> ->]. by rewrite Z.mul_1_r.
  - destruct (pexp_neg e ltac:(lia)) as [-> ->]. by rewrite Z.mul_1_r.
Qed.

(** What a successful conversion returns. *)
Lemma float_of_ratio_Some n d x :
  n ≠ 0 → float_of_ratio n d = Some x →
  x = Float (rne (n * nexp (ulp_exp n d)) (d * pexp (ulp_exp n d)))
            (ulp_exp n d).
Proof.
  intros Hn. unfold float_of_ratio.
  destruct (Z.eqb_spec n 0) as [?|_]; [done|]. cbv zeta.
  rewrite float_mant_eq. destruct (_ && _); [done|]. by intros [= <-].
Qed.

Lemma cents_neg_exp m e :
  e < 0 → cents (Float m e) = rne (100 * m) (nexp e).
Proof.
  intros He. unfold cents. simpl.
  destruct (Z.leb_spec 0 e) as [?|_]; [lia|].
  by destruct (pexp_neg e ltac:(lia)) as [_ ->].
Qed.

(** For a ratio of moderate size the unit in the last place is far
    below a hundredth of [1 / d]. *)
Lemma ulp_exp_small s d :
  0 < d → s ≠ 0 → 100 * Z.abs s < 2 ^ 52 → 100 * d < 2 ^ 1074 →
  ulp_exp s d < 0 ∧ 100 * d < nexp (ulp_exp s d).
Proof.
  intros Hd Hs Hsb Hdb. unfold ulp_exp.
  assert (0 < Z.abs s) as Ha by lia.
  pose proof (ilog2_ratio_lower (Z.abs s) d Ha Hd) as Hlo.
  set (L := ilog2_ratio (Z.abs s) d) in *.
  assert (L < 52) as HL.
  { destruct (Z.lt_ge_cases L 52) as [?|HL]; [done|exfalso].
    destruct (pexp_nonneg L ltac:(lia)) as [Hp Hn]. rewrite Hp, Hn in Hlo.
    assert (2 ^ 52 ≤ 2 ^ L) by (apply Z.pow_le_mono_r; lia). nia. }
  split; [lia|].
  destruct (Z.max_spec (L - 52) (-1074)) as [[_ ->]|[Hge ->]].
  - by destruct (pexp_neg (-1074) ltac:(lia)) as [_ ->].
  - destruct (pexp_neg (L - 52) ltac:(lia)) as [_ ->].
    destruct (Z.le_gt_cases 0 L) as [HL0|HL0].
    + destruct (pexp_nonneg L HL0) as [Hp Hn]. rewrite Hp, Hn in Hlo.
      assert (2 ^ 52 = 2 ^ (- (L - 52)) * 2 ^ L) as Heq.
      { rewrite <-Z.pow_add_r by lia. f_equal. lia. }
      assert (0 < 2 ^ L) by (apply Z.pow_pos_nonneg; lia). nia.
    + destruct (pexp_neg L ltac:(lia)) as [Hp Hn]. rewrite Hp, Hn in Hlo.
      assert (2 ^ (- (L - 52)) = 2 ^ 52 * 2 ^ (- L)) as ->.
      { rewrite <-Z.pow_add_r by lia. f_equal. lia. }
      assert (0 < 2 ^ (- L)) by (apply Z.pow_pos_nonneg; lia). nia.
Qed.

(** Rounding the float of [s / d] to cents gives an integer nearest to
    [100 * s / d]: the two roundings together stay within half a cent. *)
Lemma cents_nearest s d x :
  0 < d → s ≠ 0 → 100 * Z.abs s < 2 ^ 52 → 100 * d < 2 ^ 1074 →
  float_of_ratio s d = Some x →
  Z.abs (2 * (100 * s - cents x * d)) ≤ d.
Proof.
  intros Hd Hs Hsb Hdb Hx.
  destruct (ulp_exp_small s d Hd Hs Hsb Hdb) as [He HN].
  rewrite (float_of_ratio_Some s d x Hs Hx), cents_neg_exp by done.
  destruct (pexp_neg (ulp_exp s d) ltac:(lia)) as [-> _].
  rewrite Z.mul_1_r.
  set (N := nexp (ulp_exp s d)) in *.
  assert (0 < N) as HNpos by apply nexp_pos.
  set (m := rne (s * N) d).
  pose proof (rne_bounds (s * N) d Hd) as Hm. fold m in Hm.
  pose proof (rne_bounds (100 * m) N HNpos) as Hc.
  set (c := rne (100 * m) N) in *.
  assert (N * (2 * (100 * s - c * d))
          = 100 * (2 * (s * N - d * m)) + d * (2 * (100 * m - N * c))) as Heq
    by ring.
  apply Z.abs_le. nia.
Qed.

Lemma rne_strict p q :
  0 < q → 2 * (p mod q) ≠ q → - q < 2 * (p - q * rne p q) < q.
Proof.
  intros Hq Hne. unfold rne.
  pose proof (Z.div_mod p q ltac:(lia)) as Hdm.
  pose proof (Z.mod_pos_bound p q Hq) as Hm.
  destruct (Z.compare_spec (2 * (p mod q)) q) as [H|H|H]; [done|nia..].
Qed.

(** Away from a tie the nearest integer is unique. *)
Lemma nearest_unique p q c :
  0 < q → 2 * (p mod q) ≠ q → Z.abs (2 * (p - c * q)) ≤ q → c = rne p q.
Proof.
  intros Hq Hne Hc. pose proof (rne_strict p q Hq Hne) as Hk.
  apply Z.abs_le in Hc. nia.
Qed.

End FloatFacts.
Import FloatFacts.

(** ** [statistics.mean] and [round] on the scores of a group *)

Module MeanFacts.

Lemma sum_Q_ints scores : (sum_Q (PyInt <$> scores) == inject_Z (sum_Z scores))%Q.
Proof.
  induction scores as [|z l IH]; [done|].
  rewrite fmap_cons. simpl. rewrite IH, inject_Z_plus. done.
Qed.

Lemma forallb_is_int scores : forallb is_int (PyInt <$> scores) = true.
Proof. induction scores as [|z l IH]; [done|]. by rewrite fmap_cons. Qed.

Lemma len_pos {A} (l : list A) : l ≠ [] → 0 < len l.
Proof. destruct l; [done|]. intros _. rewrite len_cons. unfold len. lia. Qed.

Lemma statistics_mean_nonempty data :
  data ≠ [] →
  statistics_mean data =
    if forallb is_int data && (Qden (exact_mean data) =? 1)%positive
    then inr (PyInt (Qnum (exact_mean data)))
    else match float_of_Q (exact_mean data) with
         | Some x => inr (PyFloat x)
         | None => inl (Exn OverflowError
             [Lit "integer division result too large for a float"])
         end.
Proof. by destruct data. Qed.

Lemma exact_mean_ints scores :
  exact_mean (PyInt <$> scores)
  = Qred (sum_Q (PyInt <$> scores) / inject_Z (len scores)).
Proof. unfold exact_mean, len. by rewrite length_fmap. Qed.

(** The exact mean in lowest terms: [s' / n'] with [s' * n = s * n'],
    [n = g * n'] and [s = g * s']. *)
Lemma mean_fraction scores :
  scores ≠ [] →
  let s := sum_Z scores in
  let n := len scores in
  let v := Qred (sum_Q (PyInt <$> scores) / inject_Z n) in
  Z.gcd (Qnum v) (Zpos (Qden v)) = 1
  ∧ ∃ g, 0 < g ∧ n = g * Zpos (Qden v) ∧ s = g * Qnum v.
Proof.
  intros Hne s n v. pose proof (len_pos scores Hne) as Hn. fold n in Hn.
  pose proof (gcd_Qred (sum_Q (PyInt <$> scores) / inject_Z n)) as Hg.
  fold v in Hg. split; [done|].
  assert (v == Qmake s (Z.to_pos n))%Q as Hv.
  { unfold v. rewrite Qred_correct, sum_Q_ints, Qmake_Qdiv.
    by rewrite Z2Pos.id by done. }
  unfold Qeq in Hv. simpl in Hv. rewrite Z2Pos.id in Hv by done.
  assert ((Zpos (Qden v) | n)) as [g Hgn].
  { apply (Z.gauss _ (Qnum v)).
    - exists s. lia.
    - by rewrite Z.gcd_comm. }
  exists g. split; [nia|]. split; [done|]. nia.
Qed.

(** The mean [round]ed to two places, for a group with int scores. *)
Lemma mean_of_ints scores mean :
  scores ≠ [] →
  (statistics_mean (PyInt <$> scores) ≫= round2) = inr mean →
  let s := sum_Z scores in
  let n := len scores in
  ((n | s) → mean = PyInt (s / n))
  ∧ (¬ (n | s) → 100 * Z.abs s < 2 ^ 52 → 100 * n < 2 ^ 1074 →
     ∃ c f, Z.abs (2 * (100 * s - c * n)) ≤ n
            ∧ float_of_ratio c 100 = Some f ∧ mean = PyFloat f).
Proof.
  intros Hne Hm s n.
  destruct (mean_fraction scores Hne) as (Hgcd & g & Hg & Hn & Hs).
  fold s n in Hn, Hs, Hgcd. revert Hm.
  rewrite statistics_mean_nonempty by (by destruct scores).
  rewrite forallb_is_int, exact_mean_ints. fold n.
  set (v := Qred (sum_Q (PyInt <$> scores) / inject_Z n)) in *.
  unfold mbind, exn_bind, ebind.
  cbn [andb]. destruct (Pos.eqb_spec (Qden v) 1) as [Hd|Hd].
  - simpl. intros [= <-]. rewrite Hd in Hn.
    assert (s = Qnum v * n) as Hsn by nia.
    split.
    + intros _. by rewrite Hsn, Z.div_mul by lia.
    + intros Hndiv. destruct Hndiv. by exists (Qnum v).
  - assert (¬ (n | s)) as Hndiv.
    { intros [t Ht]. assert (Qnum v = Zpos (Qden v) * t) as Hq by nia.
      rewrite Hq, Z.gcd_comm, Z.gcd_mul_diag_l in Hgcd by lia. congruence. }
    intros Hm. split; [done|]. intros _ Hsb Hnb. revert Hm. unfold float_of_Q.
    destruct (float_of_ratio (Qnum v) (Zpos (Qden v))) as [x|] eqn:Hx; [|done].
    simpl. unfold round_float2.
    destruct (float_of_ratio (cents x) 100) as [r|] eqn:Hr; [|done].
    intros [= <-]. exists (cents x), r. split; [|done].
    assert (Qnum v ≠ 0) as Hv0.
    { intros Hv0. rewrite Hv0, Z.gcd_0_l in Hgcd. lia. }
    assert (Z.abs (2 * (100 * Qnum v - cents x * Zpos (Qden v))) ≤ Zpos (Qden v))
      as Hc.
    { apply cents_nearest; [done|done|nia|nia|done]. }
    apply Z.abs_le in Hc. apply Z.abs_le. nia.
Qed.

End MeanFacts.
Import MeanFacts.

(** ** The statistics of a student against the specification *)

Lemma round_cents_whole r t n : 0 < n → round_cents r (t * n) n = 100 * t.
Proof.
  intros Hn. destruct r; simpl.
  - replace (100 * (t * n)) with (100 * t * n) by lia. by apply rne_exact.
  - symmetry. apply (Z.div_unique_pos _ _ _ n); lia.
Qed.

Lemma round_cents_no_tie r s n :
  0 < n → 2 * ((100 * s) mod n) ≠ n → round_cents r s n = rne (100 * s) n.
Proof.
  intros Hn Hne. destruct r; simpl; [done|].
  apply nearest_unique; [done..|].
  pose proof (Z.div_mod (200 * s + n) (2 * n) ltac:(lia)) as Hdm.
  pose proof (Z.mod_pos_bound (200 * s + n) (2 * n) ltac:(lia)) as Hm.
  apply Z.abs_le. lia.
Qed.


(** ** Values within the float range *)

Module RangeFacts.

Lemma float_of_ratio_close n d f :
  0 < d → float_of_ratio n d = Some f → half_ulp_close n d f.
Proof.
  intros Hd Hf. unfold half_ulp_close.
  destruct (Z.eq_dec n 0) as [->|Hn].
  - injection Hf as <-. simpl. pose proof (pexp_pos 0). lia.
  - rewrite (float_of_ratio_Some n d f Hn Hf). simpl.
    set (e := ulp_exp n d).
    pose proof (rne_bounds (n * nexp e) (d * pexp e)
                  ltac:(pose proof (pexp_pos e); nia)) as Hb.
    apply Z.abs_le. lia.
Qed.

Lemma DBL_MAX_eq : DBL_MAX = (2 ^ 53 - 1) * 2 ^ 971.
Proof. done. Qed.

(** A ratio of magnitude at most [DBL_MAX] converts without overflow. *)
Lemma float_of_ratio_in_range n d :
  0 < d → Z.abs n ≤ DBL_MAX * d → ∃ f, float_of_ratio n d = Some f.
Proof.
  intros Hd Hn. unfold float_of_ratio.
  destruct (Z.eqb_spec n 0) as [?|Hn0]; [by eexists|]. cbv zeta.
  rewrite float_mant_eq.
  set (e := ulp_exp n d).
  destruct (Z.leb_spec 0 e) as [He|He]; [|by eexists].
  cbn [andb].
  destruct (Z.leb_spec (2 ^ 1024)
    (Z.abs (rne (n * nexp e) (d * pexp e)) * 2 ^ e)) as [Hov|_]; [|by eexists].
  exfalso.
  destruct (pexp_nonneg e He) as [Hp Hnx]. rewrite Hp, Hnx, Z.mul_1_r in Hov.
  assert (0 < Z.abs n) as Ha by lia.
  pose proof (ilog2_ratio_lower (Z.abs n) d Ha Hd) as Hlo.
  pose proof (ilog2_ratio_upper (Z.abs n) d Ha Hd) as Hup.
  set (L := ilog2_ratio (Z.abs n) d) in *.
  assert (e = L - 52) as HeL by (unfold e, ulp_exp in *; fold L in He |- *; lia).
  destruct (pexp_nonneg L ltac:(lia)) as [HpL HnL]. rewrite HpL, HnL in Hlo, Hup.
  assert (0 < 2 ^ e) as Hpe by (apply Z.pow_pos_nonneg; lia).
  assert (2 ^ L = 2 ^ 52 * 2 ^ e) as HLe.
  { rewrite <-Z.pow_add_r by lia. f_equal. lia. }
  assert (2 ^ 1024 = 2 ^ 53 * 2 ^ 971) as H1024 by (by rewrite <-Z.pow_add_r).
  assert (0 < 2 ^ 971) as H971 by (by apply Z.pow_pos_nonneg).
  assert (2 ^ 53 = 2 * 2 ^ 52) as H53 by done.
  assert (0 < 2 ^ 52) as H52 by done.
  destruct (Z.le_gt_cases e 970) as [Hsmall|Hbig].
  - assert (Z.abs (rne n (d * 2 ^ e)) ≤ 2 ^ 53) as Hm.
    { apply rne_abs_le; [nia|]. rewrite H53. nia. }
    assert (2 ^ 971 = 2 ^ (970 - e) * 2 * 2 ^ e) as Heq.
    { replace 971 with ((970 - e) + 1 + e) at 1 by lia.
      rewrite !Z.pow_add_r by lia. done. }
    assert (0 < 2 ^ (970 - e)) by (apply Z.pow_pos_nonneg; lia).
    rewrite H1024, Heq in Hov. nia.
  - assert (e = 971) as He971.
    { destruct (Z.le_gt_cases e 971) as [?|Hgt]; [lia|exfalso].
      assert (2 ^ 971 * 2 ≤ 2 ^ e) as Hpow.
      { replace (2 ^ 971 * 2) with (2 ^ (971 + 1))
          by (by rewrite Z.pow_add_r by lia).
        apply Z.pow_le_mono_r; lia. }
      rewrite DBL_MAX_eq in Hn. nia. }
    rewrite He971 in *.
    assert (Z.abs (rne n (d * 2 ^ 971)) ≤ 2 ^ 53 - 1) as Hm.
    { apply rne_abs_le; [nia|]. rewrite DBL_MAX_eq in Hn. lia. }
    rewrite H1024 in Hov. nia.
Qed.

End RangeFacts.
Import RangeFacts.

(** ** The class summary *)

Module SummaryFacts.

Lemma sum_Q_range data :
  Forall in_float_range data →
  (inject_Z (- (len data * DBL_MAX)) <= sum_Q data
   ∧ sum_Q data <= inject_Z (len data * DBL_MAX))%Q.
Proof.
  induction 1 as [|x l [Hlo Hhi] _ [IHlo IHhi]].
  - simpl. split; apply Qle_refl.
  - rewrite len_cons. change (sum_Q (x :: l)) with (num_Q x + sum_Q l)%Q.
    replace (- ((1 + len l) * DBL_MAX))
      with (- DBL_MAX + - (len l * DBL_MAX)) by lia.
    replace ((1 + len l) * DBL_MAX) with (DBL_MAX + len l * DBL_MAX) by lia.
    rewrite !inject_Z_plus. split; by apply Qplus_le_compat.
Qed.

Lemma exact_mean_range data :
  data ≠ [] → Forall in_float_range data →
  Z.abs (Qnum (exact_mean data)) ≤ DBL_MAX * Zpos (Qden (exact_mean data)).
Proof.
  intros Hne Hall. pose proof (len_pos data Hne) as Hn.
  destruct (sum_Q_range data Hall) as [Hlo Hhi].
  assert (0 < inject_Z (len data))%Q as Hn'.
  { unfold Qlt. simpl. lia. }
  assert (inject_Z (- DBL_MAX) <= exact_mean data
          ∧ exact_mean data <= inject_Z DBL_MAX)%Q as [Hvlo Hvhi].
  { unfold exact_mean. rewrite Qred_correct. split.
    - apply Qle_shift_div_l; [done|].
      rewrite <-inject_Z_mult. by replace (- DBL_MAX * len data)
        with (- (len data * DBL_MAX)) by lia.
    - apply Qle_shift_div_r; [done|].
      rewrite <-inject_Z_mult. by replace (DBL_MAX * len data)
        with (len data * DBL_MAX) by lia. }
  unfold Qle in Hvlo, Hvhi. simpl in Hvlo, Hvhi. apply Z.abs_le. lia.
Qed.

Lemma exact_mean_converts data :
  data ≠ [] → Forall in_float_range data →
  ∃ f, float_of_Q (exact_mean data) = Some f.
Proof.
  intros Hne Hall. apply float_of_ratio_in_range; [done|].
  by apply exact_mean_range.
Qed.

(** [statistics.mean] followed by the [.2f] format prints the float of
    the exact mean, whether the mean was an int or a float. *)
Lemma mean_then_format data w f :
  data ≠ [] → float_of_Q (exact_mean data) = Some f →
  statistics_mean data ≫= format_f2 w = inr (FFix2 w f).
Proof.
  intros Hne Hf. rewrite statistics_mean_nonempty by done.
  unfold mbind, exn_bind, ebind.
  destruct (forallb is_int data); cbn [andb]; [|by rewrite Hf].
  destruct (Pos.eqb_spec (Qden (exact_mean data)) 1) as [Hd|Hd]; [|by rewrite Hf].
  unfold float_of_Q in Hf. rewrite Hd in Hf. simpl. by rewrite Hf.
Qed.

Lemma format_f2_in_range w x :
  in_float_range x → ∃ f, format_f2 w x = inr (FFix2 w f).
Proof.
  destruct x as [z|f]; [|by eexists]. intros [Hlo Hhi]. simpl in *.
  rewrite <-Zle_Qle in Hlo, Hhi.
  destruct (float_of_ratio_in_range z 1) as [f Hf]; [done|lia|].
  exists f. simpl. by rewrite Hf.
Qed.

Lemma display_student_returns i student stats :
  in_float_range (平均点 stats) →
  outcome (display_student i student stats) = inr tt.
Proof.
  intros Hr. destruct (format_f2_in_range 6 _ Hr) as [f Hf].
  unfold display_student. rewrite !outcome_print_bind, outcome_lift_bind, Hf.
  by rewrite !outcome_print_bind.
Qed.

Lemma for_each_returns {A} (l : list A) (body : A → M unit) :
  (∀ x, x ∈ l → outcome (body x) = inr tt) →
  outcome (for_each l body) = inr tt.
Proof.
  induction l as [|x l IH]; intros Hb; [done|].
  simpl. rewrite outcome_bind, Hb by left. apply IH.
  intros y Hy. apply Hb. by right.
Qed.

Lemma enumerate1_elem {A} (l : list A) i x :
  (i, x) ∈ enumerate1 l → x ∈ l.
Proof.
  unfold enumerate1. intros Hin.
  apply elem_of_zip_r in Hin. done.
Qed.

End SummaryFacts.
Import SummaryFacts.

(** ** The analysis succeeds on typed records within the float range *)

Module TotalFacts.

(** [2 ^ a <= 2 ^ 52 * 2 ^ b] on fractions, for [a <= b + 52]. *)
Lemma pexp_le_52 a b :
  a ≤ b + 52 → pexp a * nexp b ≤ 2 ^ 52 * pexp b * nexp a.
Proof.
  intros Hab. unfold pexp, nexp. rewrite <-!Z.pow_add_r by lia.
  apply Z.pow_le_mono_r; lia.
Qed.

(** A converted value has at most 53 significant bits and is finite. *)
Lemma float_of_ratio_valid n d f :
  0 < d → float_of_ratio n d = Some f →
  Z.abs (fmant f) ≤ 2 ^ 53
  ∧ (0 ≤ fexp f → Z.abs (fmant f) * 2 ^ fexp f < 2 ^ 1024).
Proof.
  intros Hd. unfold float_of_ratio.
  destruct (Z.eqb_spec n 0) as [?|Hn0].
  { intros [= <-]. simpl. split; [done|]. intros _. done. }
  cbv zeta. rewrite float_mant_eq. set (e := ulp_exp n d).
  set (m := rne (n * nexp e) (d * pexp e)).
  assert (Z.abs m ≤ 2 ^ 53) as Hm.
  { assert (0 < Z.abs n) as Ha by lia.
    pose proof (ilog2_ratio_upper (Z.abs n) d Ha Hd) as Hup.
    set (L := ilog2_ratio (Z.abs n) d) in *.
    assert (L ≤ e + 52) as HLe by (unfold e, ulp_exp; fold L; lia).
    pose proof (pexp_le_52 L e HLe) as Hfrac.
    pose proof (pexp_pos e). pose proof (nexp_pos e).
    pose proof (pexp_pos L). pose proof (nexp_pos L).
    apply rne_abs_le; [nia|].
    rewrite Z.abs_mul, (Z.abs_eq (nexp e)) by lia.
    assert (2 ^ 53 = 2 * 2 ^ 52) as -> by done.
    assert (Z.abs n * nexp e * nexp L ≤ 2 * 2 ^ 52 * (d * pexp e) * nexp L)
      as Hmul by nia.
    nia. }
  destruct (Z.leb_spec 0 e) as [He|He]; cbn [andb].
  - destruct (Z.leb_spec (2 ^ 1024) (Z.abs m * 2 ^ e)) as [?|Hlt]; [done|].
    intros [= <-]. simpl. split; [done|]. intros _. done.
  - intros [= <-]. simpl. split; [done|]. lia.
Qed.

(** [round(x, 2)] never overflows on such a value. *)
Lemma round_float2_succeeds f :
  Z.abs (fmant f) ≤ 2 ^ 53 →
  (0 ≤ fexp f → Z.abs (fmant f) * 2 ^ fexp f < 2 ^ 1024) →
  ∃ r, round_float2 f = Some r.
Proof.
  destruct f as [m e]. simpl. intros Hm Hfin.
  apply float_of_ratio_in_range; [done|]. unfold cents. simpl.
  assert (2 ^ 1024 = 2 ^ 53 * 2 ^ 971) as H1024 by (by rewrite <-Z.pow_add_r).
  assert (0 < 2 ^ 971) as H971 by (by apply Z.pow_pos_nonneg).
  assert (2 ^ 53 = 2 * 2 ^ 52) as H53 by done.
  assert (0 < 2 ^ 52) as H52 by done.
  rewrite DBL_MAX_eq.
  destruct (Z.leb_spec 0 e) as [He|He].
  - specialize (Hfin He). rewrite H1024 in Hfin.
    assert (0 < 2 ^ e) as Hpe by (apply Z.pow_pos_nonneg; lia).
    rewrite !Z.abs_mul, (Z.abs_eq 100), (Z.abs_eq (2 ^ e)) by lia.
    destruct (Z.le_gt_cases 971 e) as [Hbig|Hsmall].
    + assert (2 ^ e = 2 ^ (e - 971) * 2 ^ 971) as Heq.
      { rewrite <-Z.pow_add_r by lia. f_equal. lia. }
      assert (0 < 2 ^ (e - 971)) by (apply Z.pow_pos_nonneg; lia).
      rewrite Heq in Hfin |- *. nia.
    + assert (2 ^ 971 = 2 ^ (970 - e) * 2 * 2 ^ e) as Heq.
      { replace 971 with ((970 - e) + 1 + e) at 1 by lia.
        rewrite !Z.pow_add_r by lia. done. }
      assert (0 < 2 ^ (970 - e)) by (apply Z.pow_pos_nonneg; lia).
      rewrite Heq. nia.
  - assert (0 < 2 ^ (- e)) as HN by (apply Z.pow_pos_nonneg; lia).
    assert (Z.abs (rne (100 * m) (2 ^ (- e))) ≤ 100 * 2 ^ 53) as Hc.
    { apply rne_abs_le; [done|]. rewrite Z.abs_mul, (Z.abs_eq 100) by lia. nia. }
    nia.
Qed.

Lemma round2_succeeds n d f :
  0 < d → float_of_ratio n d = Some f → ∃ r, round2 (PyFloat f) = inr (PyFloat r).
Proof.
  intros Hd Hf. destruct (float_of_ratio_valid n d f Hd Hf) as [Hm Hfin].
  destruct (round_float2_succeeds f Hm Hfin) as [r Hr].
  exists r. simpl. by rewrite Hr.
Qed.

Lemma ints_in_range scores :
  Forall (λ z, Z.abs z ≤ DBL_MAX) scores →
  Forall in_float_range (PyInt <$> scores).
Proof.
  intros H. apply Forall_fmap. eapply Forall_impl; [exact H|].
  intros z Hz. cbv beta in Hz.
  unfold compose, in_float_range, num_Q. rewrite <-!Zle_Qle. lia.
Qed.

(** The statistics of a non-empty group of scores a float can hold. *)
Lemma student_stats_succeeds data student :
  student ∈ (名前 <$> data) →
  Forall (λ row, Z.abs (スコア row) ≤ DBL_MAX) data →
  ∃ stats, student_stats data student = inr stats.
Proof.
  intros Hin Hb. pose proof (scores_of_student_nonempty data student Hin) as Hne.
  unfold student_stats. cbv zeta.
  set (scores := scores_of_student data student) in *.
  assert (Forall (λ z, Z.abs z ≤ DBL_MAX) scores) as Hbs.
  { unfold scores, scores_of_student. apply Forall_fmap.
    apply Forall_forall. intros row [_ Hrow]%list_elem_of_filter.
    rewrite Forall_forall in Hb. by apply Hb. }
  assert (PyInt <$> scores ≠ []) as Hne' by (by destruct scores).
  destruct (exact_mean_converts _ Hne' (ints_in_range _ Hbs)) as [x Hx].
  assert (∃ mean, statistics_mean (PyInt <$> scores) ≫= round2 = inr mean)
    as [mean ->].
  { rewrite statistics_mean_nonempty by done.
    unfold mbind, exn_bind, ebind.
    destruct (_ && _); [by eexists|].
    rewrite Hx.
    destruct (round2_succeeds _ (Zpos _) x eq_refl Hx) as [r Hr].
    exists (PyFloat r). exact Hr. }
  destruct (max_int_spec scores Hne) as (hi & -> & _).
  destruct (min_int_spec scores Hne) as (lo & -> & _).
  by eexists.
Qed.

(** On a non-empty list of records with str dates and scores a float can
    hold, the analysis returns a dict. *)
Lemma analyze_records_succeeds `{SetOrder} data (dates : list string) :
  data ≠ [] →
  日付 <$> data = Some <$> dates →
  Forall (λ row, Z.abs (スコア row) ≤ DBL_MAX) data →
  ∃ results, outcome (analyze_records data) = inr results.
Proof.
  intros Hne Hdates Hb.
  assert (dates ≠ []) as Hne'.
  { intros ->. by apply fmap_nil_inv in Hdates. }
  destruct (min_str_spec dates Hne') as (lo & Hlo & _).
  destruct (max_str_spec dates Hne') as (hi & Hhi & _).
  destruct (proj2 (collect_results_succeeds data (set_list (名前 <$> data))
                     (set_list_NoDup _))) as [results Hc].
  { intros s Hs. apply (proj1 (set_list_elem _ _)) in Hs.
    by apply student_stats_succeeds. }
  exists results. unfold analyze_records. cbv zeta.
  rewrite !outcome_print_bind, outcome_lift_bind, Hdates, Hlo.
  rewrite outcome_lift_bind, Hhi, !outcome_print_bind. done.
Qed.

End TotalFacts.
Import TotalFacts.

(** * The per-student mapping and the class summary *)

(** The groups of distinct keys that cover every element partition the
    list. *)
Lemma groups_partition {A} (key : A → cell) (ks : list cell) : ∀ l : list A,
  NoDup ks → (∀ x, x ∈ l → key x ∈ ks) →
  concat ((λ k, filter (λ x, key x = k) l) <$> ks) ≡ₚ l.
Proof.
  induction ks as [|k ks IH]; intros l Hnd Hcov.
  - destruct l as [|x l]; [done|].
    exfalso. apply (not_elem_of_nil (key x)), Hcov. left.
  - apply NoDup_cons in Hnd as [Hk Hnd]. rewrite fmap_cons. simpl.
    etransitivity; [|apply (filter_app_complement (λ x, key x = k) l)].
    apply Permutation_app_head.
    assert ((λ k', filter (λ x, key x = k') l) <$> ks
            = (λ k', filter (λ x, key x = k') (filter (λ x, ¬ key x = k) l)) <$> ks)
      as ->.
    { apply list_fmap_ext. intros i k' Hk'.
      rewrite list_filter_filter. apply list_filter_iff. intros x. split.
      - intros Hx. split; [done|]. intros Hxk. apply Hk. rewrite <-Hxk, Hx.
        by apply list_elem_of_lookup_2 in Hk'.
      - by intros [Hx _]. }
    apply IH; [done|].
    intros x [Hx Hin]%list_elem_of_filter.
    by destruct (proj1 (elem_of_cons _ _ _) (Hcov x Hin)).
Qed.

Section PerStudent.

Context {set_order : SetOrder}.
Variable int_of_string : string → option Z.
Variable fs : string → file.

Local Abbreviation read := (read_records int_of_string fs).
Local Abbreviation analyze := (analyze_student_scores int_of_string fs).

(** The analysis of a file returns a dict whenever the file yields at
    least one record, the dates are strs and the scores are within the
    float range. *)
Lemma analysis_succeeds csv_file data (dates : list string) :
  outcome (read csv_file) = inr data →
  data ≠ [] →
  日付 <$> data = Some <$> dates →
  Forall (λ row, Z.abs (スコア row) ≤ DBL_MAX) data →
  ∃ results, outcome (analyze csv_file) = inr (Some results).
Proof.
  intros Hr Hne Hd Hb.
  destruct (analyze_records_succeeds data dates Hne Hd Hb) as [results Hres].
  exists results. rewrite analyze_outcome.
  unfold analyze_body. by rewrite outcome_bind, Hr, outcome_bind, Hres.
Qed.

Lemma elem_of_names_nonempty (data : list Record_) student :
  student ∈ (名前 <$> data) → data ≠ [].
Proof. intros Hin ->. by apply elem_of_nil in Hin. Qed.

Lemma details_of_results data students results :
  Forall2 (λ s kv, kv.1 = s ∧ student_stats data s = inr kv.2) students results →
  スコア詳細 <$> values results
  = (λ k, スコア <$> filter (λ row, 名前 row = k) data) <$> students.
Proof.
  induction 1 as [|s [k st] l r [_ Hst] _ IH]; [done|].
  unfold values in *. rewrite !fmap_cons, IH. f_equal. simpl in *.
  by destruct (student_stats_inr _ _ _ Hst) as (_ & _ & _ & _ & ->).
Qed.

Lemma concat_fmap_fmap {A B} (f : A → B) (ls : list (list A)) :
  concat ((λ l : list A, f <$> l) <$> ls) = f <$> concat ls.
Proof.
  induction ls as [|l ls IH]; [done|].
  by rewrite fmap_cons, !concat_cons, fmap_app, IH.
Qed.

(** C4: for every key occurring in the records, the スコア詳細 of the
    statistics stored under that key is the list of the scores of the
    records with that key, in the order of the input.  The mapping
    exists whenever the dates are strs and the scores are within the
    float range. *)
Theorem values_in_input_order csv_file data student :
  outcome (read csv_file) = inr data →
  student ∈ (名前 <$> data) →
  (∀ results, outcome (analyze csv_file) = inr (Some results) →
     ∃ stats, dict_get results student = Some stats
       ∧ スコア詳細 stats = スコア <$> filter (λ row, 名前 row = student) data)
  ∧ (∀ dates : list string,
       日付 <$> data = Some <$> dates →
       Forall (λ row, Z.abs (スコア row) ≤ DBL_MAX) data →
       ∃ results, outcome (analyze csv_file) = inr (Some results)).
Proof.
  intros Hr Hin. split.
  - intros results Ha.
    destruct (lookup_student _ _ _ _ _ _ Hr Ha Hin) as (st & Hl & Hst).
    exists st. split; [done|].
    by destruct (student_stats_inr _ _ _ Hst) as (_ & _ & _ & _ & ->).
  - intros dates Hd Hb.
    by apply (analysis_succeeds csv_file data dates Hr
                (elem_of_names_nonempty _ _ Hin) Hd Hb).
Qed.

(** C5: every record belongs to exactly one group in each dimension.
    By name: the keys of the result are distinct, each record matches
    exactly one of them and its score is listed under that key; the
    スコア詳細 of all keys together hold the scores of the records, each
    occurrence once, and the テスト回数 add up to the number of records.
    By subject: each record matches exactly one subject of the loop of
    [analyze_by_subject], and the group sizes it prints (受験者) add up to
    the number of records. *)
Theorem each_record_in_one_group csv_file data :
  outcome (read csv_file) = inr data →
  (∀ results, outcome (analyze csv_file) = inr (Some results) →
     NoDup (keys results)
     ∧ (∀ row, row ∈ data →
         (exists! k, k ∈ keys results ∧ row ∈ filter (λ r, 名前 r = k) data)
         ∧ ∃ stats, dict_get results (名前 row) = Some stats
                    ∧ スコア row ∈ スコア詳細 stats)
     ∧ concat (スコア詳細 <$> values results) ≡ₚ スコア <$> data
     ∧ sum_Z (テスト回数 <$> values results) = len data)
  ∧ (∀ row, row ∈ data →
      exists! k, k ∈ set_list (科目 <$> data) ∧ row ∈ filter (λ r, 科目 r = k) data)
  ∧ sum_Z ((λ subject, len (scores_of_subject data subject))
             <$> set_list (科目 <$> data)) = len data
  ∧ (∀ dates : list string,
       data ≠ [] →
       日付 <$> data = Some <$> dates →
       Forall (λ row, Z.abs (スコア row) ≤ DBL_MAX) data →
       ∃ results, outcome (analyze csv_file) = inr (Some results)).
Proof.
  intros Hr. split_and!.
  - intros results Ha. pose proof (analyze_success _ _ _ _ _ Hr Ha) as Hc.
    pose proof (collect_results_keys data _ _ (set_list_NoDup _) Hc) as Hk.
    pose proof (collect_results_inr data _ _ (set_list_NoDup _) Hc) as HF.
    assert (∀ row, row ∈ data → 名前 row ∈ set_list (名前 <$> data)) as Hcov.
    { intros row Hrow. apply set_list_elem, list_elem_of_fmap. by exists row. }
    split_and!.
    + rewrite Hk. apply set_list_NoDup.
    + intros row Hrow. split.
      * exists (名前 row). split.
        -- split; [|by apply list_elem_of_filter]. rewrite Hk. by apply Hcov.
        -- intros k [_ Hf]. by apply list_elem_of_filter in Hf as [-> _].
      * destruct (lookup_student _ _ _ _ _ (名前 row) Hr Ha)
          as (stats & Hg & Hst); [apply list_elem_of_fmap; by exists row|].
        destruct (student_stats_inr _ _ _ Hst) as (_ & _ & _ & _ & Hd).
        exists stats. split; [done|]. rewrite Hd.
        apply list_elem_of_fmap. exists row. split; [done|].
        by apply list_elem_of_filter.
    + rewrite (details_of_results _ _ _ HF).
      rewrite <-(groups_partition 名前 (set_list (名前 <$> data)) data
                  (set_list_NoDup _) Hcov) at 2.
      by rewrite <-concat_fmap_fmap, <-list_fmap_compose.
    + rewrite (counts_of_results _ _ _ HF).
      apply group_sizes_sum; [apply set_list_NoDup|done].
  - intros row Hrow. exists (科目 row). split.
    + split; [|by apply list_elem_of_filter].
      apply set_list_elem, list_elem_of_fmap. by exists row.
    + intros k [_ Hf]. by apply list_elem_of_filter in Hf as [-> _].
  - erewrite list_fmap_ext;
      [apply (group_sizes_sum 科目 data); [apply set_list_NoDup|]|].
    + intros row Hrow. apply set_list_elem, list_elem_of_fmap. by exists row.
    + intros i k _. unfold scores_of_subject, len. by rewrite length_fmap.
  - intros dates Hne Hd Hb. by apply (analysis_succeeds csv_file data dates).
Qed.

(** C1, as the code has it: for every student name occurring in the
    records, the statistics stored under that name have テスト回数 equal to
    the number of the student's records, 最高点 and 最低点 equal to the
    greatest and the least of their scores, and 平均点 equal to
    - the average itself, an int, when the count divides the sum;
    - otherwise the float nearest to [c / 100] for an integer [c] nearest
      to 100 times the average, so that 平均点 is the average rounded to
      two decimal places under either standard rule whenever the average
      is no tie.  At a tie [c] is one of the two neighbours, whichever
      the float of the average lies nearer to.
    The float cases are stated for sums below [2 ^ 52 / 100] in
    magnitude.  The mapping exists whenever the dates are strs and the
    scores are within the float range. *)
Theorem student_statistics_correct csv_file data student :
  outcome (read csv_file) = inr data →
  student ∈ (名前 <$> data) →
  (∀ results, outcome (analyze csv_file) = inr (Some results) →
   ∃ stats, dict_get results student = Some stats ∧
    let scores := スコア <$> filter (λ row, 名前 row = student) data in
    テスト回数 stats = len scores
    ∧ (最高点 stats ∈ scores ∧ ∀ x, x ∈ scores → x ≤ 最高点 stats)
    ∧ (最低点 stats ∈ scores ∧ ∀ x, x ∈ scores → 最低点 stats ≤ x)
    ∧ ((len scores | sum_Z scores) →
         平均点 stats = PyInt (sum_Z scores / len scores)
         ∧ ∀ r, spec_rounded_mean r scores (平均点 stats))
    ∧ (100 * Z.abs (sum_Z scores) < 2 ^ 52 → 100 * len scores < 2 ^ 1074 →
         (¬ is_tie scores → ∀ r, spec_rounded_mean r scores (平均点 stats))
         ∧ (¬ (len scores | sum_Z scores) →
              ∃ c f, nearest_cents scores c ∧ float_of_ratio c 100 = Some f
                     ∧ 平均点 stats = PyFloat f)))
  ∧ (∀ dates : list string,
       日付 <$> data = Some <$> dates →
       Forall (λ row, Z.abs (スコア row) ≤ DBL_MAX) data →
       ∃ results, outcome (analyze csv_file) = inr (Some results)).
Proof.
  intros Hr Hin. split.
  2:{ intros dates Hd Hb.
      by apply (analysis_succeeds csv_file data dates Hr
                  (elem_of_names_nonempty _ _ Hin) Hd Hb). }
  intros results Ha.
  destruct (lookup_student _ _ _ _ _ _ Hr Ha Hin) as (st & Hl & Hst).
  exists st. split; [done|].
  destruct (student_stats_inr _ _ _ Hst) as (Hmean & Hmax & Hmin & Hcnt & _).
  fold (scores_of_student data student).
  pose proof (scores_of_student_nonempty data student Hin) as Hne.
  set (scores := scores_of_student data student) in *. cbv zeta.
  destruct (max_int_spec scores Hne) as (hi & Hhi & Hhi_in & Hhi_le).
  destruct (min_int_spec scores Hne) as (lo & Hlo & Hlo_in & Hlo_le).
  rewrite Hhi in Hmax. rewrite Hlo in Hmin.
  injection Hmax as <-. injection Hmin as <-.
  pose proof (len_pos scores Hne) as Hn.
  destruct (mean_of_ints scores (平均点 st) Hne Hmean) as [Hwhole Hfloat].
  assert ((len scores | sum_Z scores) → ∀ r, spec_rounded_mean r scores (平均点 st))
    as Hspec_whole.
  { intros Hdiv r. rewrite (Hwhole Hdiv). destruct Hdiv as [t Ht].
    left. rewrite Ht, round_cents_whole, Z.div_mul by lia.
    unfold Qeq. simpl. lia. }
  split_and!; [done..| |].
  - intros Hdiv. split; [by apply Hwhole|by apply Hspec_whole].
  - intros Hsb Hnb. split.
    + intros Hnt r.
      destruct (decide (sum_Z scores mod len scores = 0)) as [Hdiv|Hndiv];
        [apply Z.mod_divide in Hdiv; [by apply Hspec_whole|lia]|].
      rewrite Z.mod_divide in Hndiv by lia.
      destruct (Hfloat Hndiv Hsb Hnb) as (c & f & Hc' & Hf & ->).
      right. exists f. split; [|done].
      unfold is_tie in Hnt. rewrite round_cents_no_tie by done.
      by rewrite <-(nearest_unique _ _ c Hn Hnt Hc').
    + intros Hndiv. by apply Hfloat.
Qed.

End PerStudent.

(** C3: for a non-empty collection of per-group statistics the class
    summary takes
    - as the class maximum a group's 最高点 that no group exceeds;
    - as the class minimum a group's 最低点 that no group is below;
    - as the class mean the float of the exact mean of the groups'
      (rounded) 平均点, a value within half a unit in the last place of it,
      and prints them in its five lines.  The mean converts, and
      [display_results] ends normally with these lines, whenever every
      平均点 is within the float range (as every float is). *)
Theorem class_summary_correct (results : dict cell Stats) :
  results ≠ [] →
  let mean_of_means := exact_mean (平均点 <$> values results) in
  ∃ class_max class_min,
    max_int (最高点 <$> values results) = inr class_max
    ∧ class_max ∈ (最高点 <$> values results)
    ∧ (∀ stats, stats ∈ values results → 最高点 stats ≤ class_max)
    ∧ min_int (最低点 <$> values results) = inr class_min
    ∧ class_min ∈ (最低点 <$> values results)
    ∧ (∀ stats, stats ∈ values results → class_min ≤ 最低点 stats)
    ∧ (∀ class_mean, float_of_Q mean_of_means = Some class_mean →
         half_ulp_close (Qnum mean_of_means) (Zpos (Qden mean_of_means)) class_mean
         ∧ display_class results
           = (summary_lines class_mean class_max class_min, inr tt))
    ∧ (Forall (λ stats, in_float_range (平均点 stats)) (values results) →
         ∃ class_mean blocks,
           float_of_Q mean_of_means = Some class_mean
           ∧ display_results results =
             ([Lit (str_mul "=" 60)] :: [Lit "           📊 学生成績分析結果 📊"]
                :: [Lit (str_mul "=" 60)]
                :: blocks ++ summary_lines class_mean class_max class_min,
              inr tt)).
Proof.
  intros Hne mean_of_means.
  assert (values results ≠ []) as Hv by (by destruct results).
  assert (平均点 <$> values results ≠ []) as Hmeans
    by (by destruct (values results)).
  destruct (max_int_spec (最高点 <$> values results)) as (hi & Hhi & Hhi_in & Hhi_le);
    [by destruct (values results)|].
  destruct (min_int_spec (最低点 <$> values results)) as (lo & Hlo & Hlo_in & Hlo_le);
    [by destruct (values results)|].
  assert (∀ f, float_of_Q mean_of_means = Some f →
            display_class results = (summary_lines f hi lo, inr tt)) as Hclass.
  { intros f Hf. unfold display_class. cbv zeta.
    rewrite (mean_then_format _ 6 f Hmeans Hf), Hhi, Hlo.
    rewrite !print_bind, !lift_bind_inr, !print_bind. done. }
  exists hi, lo. split_and!; [done|done| |done|done| | |].
  - intros stats Hs. apply Hhi_le, list_elem_of_fmap. by exists stats.
  - intros stats Hs. apply Hlo_le, list_elem_of_fmap. by exists stats.
  - intros f Hf. split; [by apply float_of_ratio_close|by apply Hclass].
  - intros Hall.
    assert (Forall in_float_range (平均点 <$> values results)) as Hall'
      by (by apply Forall_fmap).
    destruct (exact_mean_converts _ Hmeans Hall') as [f Hf].
    unfold display_results. destruct results as [|kv results]; [done|].
    set (rs := kv :: results) in *.
    set (loop := for_each (enumerate1 rs)
      (λ '(i, (student, stats)), display_student i student stats)).
    assert (outcome loop = inr tt) as Hloop.
    { apply for_each_returns. intros [i [student stats]] Hin.
      apply display_student_returns.
      apply enumerate1_elem in Hin.
      rewrite Forall_forall in Hall. apply Hall.
      apply list_elem_of_fmap. by exists (student, stats). }
    exists f, (output loop). split; [done|]. rewrite !print_bind.
    destruct loop as [out r]. simpl in Hloop. subst r.
    rewrite bind_inr, (Hclass f Hf). done.
Qed.

(** * Reading the file *)

(** ** [csv.DictReader] rows *)

Section FoldInsert.

Context {X : Type} (f : X → string) (g : X → cell).

Local Abbreviation put := (λ (d : gmap string cell) x, <[f x := g x]> d).

Lemma foldl_insert_other (l : list X) (d : gmap string cell) k :
  (∀ x, x ∈ l → f x ≠ k) → foldl put d l !! k = d !! k.
Proof.
  revert d. induction l as [|x l IH]; intros d Hl; [done|].
  simpl. rewrite IH by (intros y Hy; apply Hl; by right).
  apply lookup_insert_ne, Hl. left.
Qed.

Lemma foldl_insert_last (l1 l2 : list X) x (d : gmap string cell) :
  (∀ y, y ∈ l2 → f y ≠ f x) →
  foldl put d (l1 ++ x :: l2) !! f x = Some (g x).
Proof.
  intros Hl2. rewrite foldl_app. simpl.
  rewrite foldl_insert_other by done. apply lookup_insert_eq.
Qed.

End FoldInsert.



(** Under a field name the row holds the field of that column, [None]
    when the row is too short to have one. *)
Lemma row_dict_lookup fieldnames row key i :
  column_at fieldnames key i →
  row_dict fieldnames row !! key = Some (row !! i).
Proof.
  intros [Hi Hlast]. unfold row_dict. cbv zeta.
  destruct (row !! i) as [v|] eqn:Hv.
  - assert (i < length row)%nat as Hlen by (by apply lookup_lt_Some in Hv).
    rewrite (foldl_insert_other id (λ _, None)).
    2:{ intros k [j Hj]%list_elem_of_lookup_1 Heq. unfold id in Heq. subst k.
        rewrite lookup_drop in Hj. apply (Hlast (length row + j)%nat); [lia|done]. }
    assert (zip fieldnames row !! i = Some (key, v)) as Hz.
    { apply lookup_zip_with_Some. by exists key, v. }
    rewrite <-(take_drop_middle _ _ _ Hz).
    apply (foldl_insert_last fst (λ kv, Some kv.2) _ _ (key, v)).
    intros [k w] [j Hj]%list_elem_of_lookup_1 Heq. simpl in Heq. subst k.
    rewrite lookup_drop in Hj.
    apply lookup_zip_with_Some in Hj as (k' & w' & [= <- <-] & Hk' & _).
    apply (Hlast (S i + j)%nat); [lia|done].
  - apply lookup_ge_None in Hv.
    assert (drop (length row) fieldnames !! (i - length row)%nat = Some key) as Hd.
    { rewrite lookup_drop. rewrite <-Hi. f_equal. lia. }
    rewrite <-(take_drop_middle _ _ _ Hd).
    apply (foldl_insert_last id (λ _, None) _ _ key).
    intros k [j Hj]%list_elem_of_lookup_1 Heq. unfold id in Heq. subst k.
    rewrite !lookup_drop in Hj. apply (Hlast (length row + (S (i - length row) + j))%nat); [lia|done].
Qed.


(** ** The classes of the exceptions a step raises *)

(** Membership in a list that is written out, and inclusion of such
    lists. *)
Ltac in_list := solve [repeat first [left | right]].

Ltac sub_list :=
  let x := fresh "x" in
  let Hx := fresh "Hx" in
  intros x Hx;
  repeat (apply elem_of_cons in Hx as [->|Hx]; [in_list|]);
  by apply elem_of_nil in Hx.

Lemma raises_in_ret {A} cs (a : A) : raises_in cs (inr a).
Proof. intros e [=]. Qed.

Lemma raises_in_mono {A} cs cs' (r : exn + A) :
  cs ⊆ cs' → raises_in cs r → raises_in cs' r.
Proof. intros Hsub Hr e He. by apply Hsub, Hr. Qed.

Lemma raises_in_bind {A B} cs (r : exn + A) (f : A → exn + B) :
  raises_in cs r → (∀ a, r = inr a → raises_in cs (f a)) →
  raises_in cs (r ≫= f).
Proof.
  intros Hr Hf e. destruct r as [e'|a]; simpl.
  - intros [= <-]. by apply Hr.
  - by apply Hf.
Qed.

Lemma raises_in_mapM {A B} cs (f : A → exn + B) (l : list A) :
  (∀ a, a ∈ l → raises_in cs (f a)) → raises_in cs (mapM f l).
Proof.
  induction l as [|a l IH]; intros Hf; [apply raises_in_ret|].
  simpl. apply raises_in_bind; [apply Hf; left|]. intros b _.
  apply raises_in_bind; [apply IH; intros; apply Hf; by right|].
  intros; apply raises_in_ret.
Qed.

Lemma raises_in_getitem row key : raises_in [KeyError] (getitem row key).
Proof.
  unfold getitem. destruct (row !! key); intros e [= <-]. simpl. left.
Qed.

Lemma raises_in_py_int f v : raises_in [TypeError; ValueError] (py_int f v).
Proof.
  unfold py_int. destruct v as [s|]; [destruct (f s)|]; intros e [= <-]; simpl.
  - right; left.
  - left.
Qed.

Lemma raises_in_to_record f row :
  raises_in [KeyError; TypeError; ValueError] (to_record f row).
Proof.
  assert ([KeyError] ⊆ [KeyError; TypeError; ValueError]) as Hk by sub_list.
  assert ([TypeError; ValueError] ⊆ [KeyError; TypeError; ValueError]) as Hi
    by sub_list.
  unfold to_record.
  apply raises_in_bind; [by eapply raises_in_mono, raises_in_getitem|intros name _].
  apply raises_in_bind; [by eapply raises_in_mono, raises_in_getitem|intros date _].
  apply raises_in_bind; [by eapply raises_in_mono, raises_in_getitem|intros subj _].
  apply raises_in_bind; [|intros; apply raises_in_ret].
  apply raises_in_bind; [by eapply raises_in_mono, raises_in_getitem|intros v _].
  by eapply raises_in_mono, raises_in_py_int.
Qed.

(** What the handlers make of an exception of these classes. *)
Lemma caught_by_catch_all e :
  exn_type e ∈ [PermissionError; IsADirectoryError; UnicodeDecodeError; csv_Error;
                KeyError; TypeError; ValueError; StatisticsError; OverflowError] →
  isinstance e FileNotFoundError = false ∧ is_Exception e.
Proof.
  unfold is_Exception, isinstance. intros He.
  repeat (apply elem_of_cons in He as [->|He]; [done|]).
  by apply elem_of_nil in He.
Qed.

(** The first row that cannot be converted stops the conversion. *)
Lemma mapM_first_error {A B} (f : A → exn + B) l1 x l2 e :
  Forall (λ y, ∃ b, f y = inr b) l1 → f x = inl e →
  mapM f (l1 ++ x :: l2) = inl e.
Proof.
  intros Hl1 Hx. induction Hl1 as [|y l1 [b Hy] _ IH]; simpl.
  - by rewrite Hx.
  - rewrite Hy. simpl. by rewrite IH.
Qed.

Section Reading.

Context {set_order : SetOrder}.
Variable int_of_string : string → option Z.
Variable fs : string → file.

Local Abbreviation read := (read_records int_of_string fs).
Local Abbreviation body := (analyze_body int_of_string fs).
Local Abbreviation analyze := (analyze_student_scores int_of_string fs).
Local Abbreviation by_subject := (analyze_by_subject int_of_string fs).

(** X2: Columns are found by the names of the header, in whatever order
    the header lists them: each field of a record is the field of the row
    in the column of that name, [None] where the row is too short; only
    the score is converted, by [int]. *)
Theorem columns_read_by_name fieldnames row i_name i_date i_subject i_score :
  column_at fieldnames "名前" i_name →
  column_at fieldnames "日付" i_date →
  column_at fieldnames "科目" i_subject →
  column_at fieldnames "スコア" i_score →
  to_record int_of_string (row_dict fieldnames row) =
    (score ← py_int int_of_string (row !! i_score);
     mret {| 名前 := row !! i_name; 日付 := row !! i_date;
             科目 := row !! i_subject; スコア := score |}).
Proof.
  intros Hn Hd Hs Hc. unfold to_record, getitem.
  by rewrite (row_dict_lookup _ _ _ _ Hn), (row_dict_lookup _ _ _ _ Hd),
    (row_dict_lookup _ _ _ _ Hs), (row_dict_lookup _ _ _ _ Hc).
Qed.

(** A failed read is reported by the catch-all clause of either
    function, and nothing else is printed. *)
Lemma read_error_reported csv_file e :
  outcome (read csv_file) = inl e →
  isinstance e FileNotFoundError = false → is_Exception e →
  analyze csv_file = ([Lit "エラーが発生しました: " :: exn_str e], inr None)
  ∧ by_subject csv_file
    = ([Lit "科目別分析でエラーが発生しました: " :: exn_str e], inr tt).
Proof.
  intros Hr%read_records_eq Hnf Hex.
  unfold analyze_student_scores, analyze_by_subject, analyze_body.
  rewrite Hr, !bind_inl. simpl. unfold is_Exception in Hex.
  by rewrite Hnf, Hex.
Qed.

Lemma read_rows_error csv_file fieldnames rows fault e :
  fs csv_file = Opened (fieldnames :: rows) fault →
  mapM (to_record int_of_string) (row_dict fieldnames <$> filter (λ row, row ≠ []) rows)
  = inl e →
  outcome (read csv_file) = inl e.
Proof.
  intros Hfs Hm. unfold read_records. rewrite Hfs. unfold DictReader.
  by rewrite Hm.
Qed.

(** X4: One row that cannot be converted makes the whole analysis fail:
    whatever the rows before and after it hold, [analyze_student_scores]
    prints the one line that reports the exception of that row and
    returns [None], and [analyze_by_subject] prints its own report of
    it. *)
Theorem bad_row_aborts_analysis csv_file fieldnames rows1 row rows2 fault e :
  fs csv_file = Opened (fieldnames :: rows1 ++ row :: rows2) fault →
  Forall (λ r, r = [] ∨ ∃ rec, to_record int_of_string (row_dict fieldnames r) = inr rec)
         rows1 →
  row ≠ [] →
  to_record int_of_string (row_dict fieldnames row) = inl e →
  analyze csv_file = ([Lit "エラーが発生しました: " :: exn_str e], inr None)
  ∧ by_subject csv_file
    = ([Lit "科目別分析でエラーが発生しました: " :: exn_str e], inr tt).
Proof.
  intros Hfs Hgood Hrow He.
  assert (exn_type e ∈ [KeyError; TypeError; ValueError]) as Hcls
    by (by apply (raises_in_to_record int_of_string (row_dict fieldnames row))).
  destruct (caught_by_catch_all e) as [Hnf Hex]; [revert Hcls; generalize (exn_type e); sub_list|].
  apply read_error_reported; [|done..].
  apply (read_rows_error _ _ _ _ _ Hfs).
  rewrite filter_app, filter_cons, decide_True, fmap_app, fmap_cons by done.
  apply mapM_first_error; [|done].
  apply Forall_fmap, Forall_forall. intros r [Hne Hr]%list_elem_of_filter.
  rewrite Forall_forall in Hgood. by destruct (Hgood r Hr) as [?|?].
Qed.



End Reading.

(** * Reading a well-formed file *)

(** Closes [column_at] on a header that is written out. *)
Ltac column_at_tac :=
  split; [reflexivity|];
  let j := fresh "j" in
  let Hj := fresh "Hj" in
  intros j Hj;
  do 5 (destruct j as [|j]; [first [lia | discriminate]|]); discriminate.

Lemma mapM_Forall2 {A B} (f : A → exn + B) (l : list A) (k : list B) :
  Forall2 (λ x y, f x = inr y) l k → mapM f l = inr k.
Proof.
  induction 1 as [|x y l k Hx _ IH]; [done|].
  simpl. rewrite Hx. simpl. by rewrite IH.
Qed.

Section WellFormed.

Context {set_order : SetOrder}.
Variable int_of_string : string → option Z.
Variable fs : string → file.

(** A row of four fields under the header 名前, 日付, 科目, スコア. *)
Lemma to_record_four_fields n d s t :
  to_record int_of_string (row_dict header [n; d; s; t])
  = (score ← py_int int_of_string (Some t);
     mret {| 名前 := Some n; 日付 := Some d; 科目 := Some s; スコア := score |}).
Proof.
  assert (column_at header "名前" 0) as Hn by column_at_tac.
  assert (column_at header "日付" 1) as Hd by column_at_tac.
  assert (column_at header "科目" 2) as Hs by column_at_tac.
  assert (column_at header "スコア" 3) as Hc by column_at_tac.
  unfold to_record, getitem.
  by rewrite (row_dict_lookup _ _ _ _ Hn), (row_dict_lookup _ _ _ _ Hd),
    (row_dict_lookup _ _ _ _ Hs), (row_dict_lookup _ _ _ _ Hc).
Qed.

(** X1: A well-formed file is read row for row: under the header 名前, 日付,
    科目, スコア, when every row has four fields and its last field is an
    integer literal, the records are the rows, in the order of the file,
    with the three texts as they stand and the score [int] reads. *)
Theorem well_formed_file_is_read csv_file (rows : list (list string))
    (data : list Record_) :
  fs csv_file = Opened (header :: rows) None →
  Forall2 (λ row record,
      ∃ n d s t, row = [n; d; s; t]
        ∧ int_of_string t = Some (スコア record)
        ∧ 名前 record = Some n ∧ 日付 record = Some d ∧ 科目 record = Some s)
    rows data →
  read_records int_of_string fs csv_file = ([], inr data).
Proof.
  intros Hfs Hrows. unfold read_records. rewrite Hfs. unfold DictReader.
  assert (filter (λ row : list string, row ≠ []) rows = rows) as ->.
  { clear Hfs. induction Hrows as [|row record rows data Hrow _ IH]; [done|].
    destruct Hrow as (n & d & s & t & -> & _).
    by rewrite filter_cons, decide_True, IH by done. }
  rewrite (mapM_Forall2 _ _ data); [done|].
  apply Forall2_fmap_l. eapply Forall2_impl; [exact Hrows|].
  intros row [name date subject score] (n & d & s & t & -> & Ht & Hn & Hd & Hs).
  simpl in *. subst. rewrite to_record_four_fields. simpl. by rewrite Ht.
Qed.

End WellFormed.

(** * The overview and the mapping returned *)

Lemma raises_in_min_max_loop {A} cs (op : A → A → exn + bool) (l : list A) best :
  (∀ a b, raises_in cs (op a b)) → raises_in cs (min_max_loop op best l).
Proof.
  intros Hop. revert best.
  induction l as [|x l IH]; intros best; [apply raises_in_ret|].
  simpl. apply (raises_in_bind cs (op x best)); [apply Hop|]. intros c _; apply IH.
Qed.

Lemma raises_in_min_str l : raises_in [ValueError; TypeError] (min_str l).
Proof.
  destruct l as [|x l]; [intros e [= <-]; simpl; in_list|].
  apply raises_in_min_max_loop.
  intros [a|] [b|] e [= <-]; simpl; in_list.
Qed.

Lemma raises_in_max_str l : raises_in [ValueError; TypeError] (max_str l).
Proof.
  destruct l as [|x l]; [intros e [= <-]; simpl; in_list|].
  apply raises_in_min_max_loop.
  intros [a|] [b|] e [= <-]; simpl; in_list.
Qed.

(** On a group that is not empty the mean is the one step that can
    fail, with [OverflowError]. *)
Lemma mean_error data e :
  data ≠ [] → statistics_mean data = inl e → exn_type e = OverflowError.
Proof.
  intros Hne. rewrite statistics_mean_nonempty by done.
  destruct (_ && _); [done|]. destruct (float_of_Q _); [done|]. by intros [= <-].
Qed.

Lemma round2_error x e : round2 x = inl e → exn_type e = OverflowError.
Proof.
  destruct x as [z|f]; simpl; [done|].
  destruct (round_float2 f); [done|]. by intros [= <-].
Qed.

Lemma format_f2_error w x e : format_f2 w x = inl e → exn_type e = OverflowError.
Proof.
  destruct x as [z|f]; simpl; [|done].
  destruct (float_of_ratio z 1); [done|]. by intros [= <-].
Qed.

Lemma student_stats_error data student e :
  student ∈ (名前 <$> data) →
  student_stats data student = inl e → exn_type e = OverflowError.
Proof.
  intros Hin. pose proof (scores_of_student_nonempty data student Hin) as Hne.
  unfold student_stats. cbv zeta.
  set (scores := scores_of_student data student) in *.
  destruct (max_int_spec scores Hne) as (hi & -> & _).
  destruct (min_int_spec scores Hne) as (lo & -> & _).
  destruct (statistics_mean (PyInt <$> scores)) as [e'|m] eqn:Hm.
  - simpl. intros [= <-]. apply (mean_error (PyInt <$> scores)); [|done].
    by destruct scores.
  - simpl. destruct (round2 m) as [e'|r] eqn:Hr; [|done].
    simpl. intros [= <-]. by apply (round2_error m).
Qed.

Lemma scores_of_subject_nonempty data subject :
  subject ∈ (科目 <$> data) → scores_of_subject data subject ≠ [].
Proof.
  intros (row & -> & Hrow)%list_elem_of_fmap Hnil.
  apply fmap_nil_inv in Hnil.
  assert (row ∈ filter (λ r, 科目 r = 科目 row) data) as Hin
    by (by apply list_elem_of_filter).
  rewrite Hnil in Hin. by apply elem_of_nil in Hin.
Qed.

Lemma display_subject_error data subject e :
  subject ∈ (科目 <$> data) →
  outcome (display_subject data subject) = inl e → exn_type e = OverflowError.
Proof.
  intros Hin. pose proof (scores_of_subject_nonempty data subject Hin) as Hne.
  unfold display_subject. cbv zeta.
  set (scores := scores_of_subject data subject) in *.
  destruct (max_int_spec scores Hne) as (hi & -> & _).
  destruct (min_int_spec scores Hne) as (lo & -> & _).
  rewrite outcome_print_bind, outcome_lift_bind.
  destruct (statistics_mean (PyInt <$> scores) ≫= format_f2 6) as [e'|mean] eqn:Hm.
  - intros [= <-]. revert Hm.
    destruct (statistics_mean (PyInt <$> scores)) as [e1|m] eqn:Hm1; simpl.
    + intros [= <-]. apply (mean_error (PyInt <$> scores)); [|done].
      by destruct scores.
    + apply format_f2_error.
  - by rewrite !outcome_print_bind, !lift_bind_inr, !outcome_print_bind.
Qed.

Lemma for_each_error {A} (P : exn → Prop) (l : list A) (body : A → M unit) e :
  (∀ x e, x ∈ l → outcome (body x) = inl e → P e) →
  outcome (for_each l body) = inl e → P e.
Proof.
  induction l as [|x l IH]; intros Hb; [done|].
  simpl. rewrite outcome_bind.
  destruct (outcome (body x)) as [e'|[]] eqn:Hx.
  - intros [= <-]. apply (Hb x); [left|done].
  - apply IH. intros y e' Hy. apply Hb. by right.
Qed.

Lemma set_list_length `{SetOrder} xs : len (set_list xs) = len (remove_dups xs).
Proof.
  unfold len. f_equal. apply Permutation_length, NoDup_Permutation.
  - apply set_list_NoDup.
  - apply NoDup_remove_dups.
  - intros x. by rewrite set_list_elem, elem_of_remove_dups.
Qed.

Section Returned.

Context {set_order : SetOrder}.
Variable int_of_string : string → option Z.
Variable fs : string → file.

Local Abbreviation read := (read_records int_of_string fs).
Local Abbreviation body := (analyze_body int_of_string fs).
Local Abbreviation analyze := (analyze_student_scores int_of_string fs).
Local Abbreviation by_subject := (analyze_by_subject int_of_string fs).

Lemma collect_error data e :
  collect_results data (set_list (名前 <$> data)) = inl e →
  exn_type e = OverflowError.
Proof.
  intros Hc.
  destruct (collect_results_inl data _ _ (set_list_NoDup _) Hc) as (s & Hs & He).
  apply (student_stats_error data s); [|done]. by apply set_list_elem.
Qed.

(** What [analyze_records] prints: the four lines of counts, then the
    period and an empty line when [min] and [max] of the dates exist. *)
Lemma analyze_records_output data :
  output (analyze_records data) =
    overview_lines (len data) (len (remove_dups (名前 <$> data)))
                   (len (remove_dups (科目 <$> data)))
    ++ match min_str (日付 <$> data), max_str (日付 <$> data) with
       | inr lo, inr hi => [period_line lo hi; []]
       | _, _ => []
       end.
Proof.
  unfold analyze_records, overview_lines. cbv zeta.
  rewrite !output_print_bind, output_lift_bind, !set_list_length.
  cbn [app]. do 4 f_equal.
  destruct (min_str _) as [e|lo]; [done|]. cbv beta. rewrite output_lift_bind.
  destruct (max_str _) as [e|hi]; [done|]. cbv beta.
  by rewrite !output_print_bind.
Qed.

Lemma analyze_records_error data e :
  outcome (analyze_records data) = inl e →
  exn_type e ∈ [ValueError; TypeError; OverflowError].
Proof.
  rewrite analyze_records_outcome.
  pose proof (raises_in_min_str (日付 <$> data)) as Hlo.
  pose proof (raises_in_max_str (日付 <$> data)) as Hhi.
  destruct (min_str _) as [e1|lo].
  { intros [= <-]. specialize (Hlo e1 eq_refl). revert Hlo.
    generalize (exn_type e1). sub_list. }
  destruct (max_str _) as [e2|hi].
  { intros [= <-]. specialize (Hhi e2 eq_refl). revert Hhi.
    generalize (exn_type e2). sub_list. }
  intros ->%collect_error. in_list.
Qed.

(** The analysis of the records read, through the [except] clauses. *)
Lemma analyze_after_read csv_file data :
  outcome (read csv_file) = inr data →
  analyze csv_file =
    match outcome (analyze_records data) with
    | inr results => (output (analyze_records data), inr (Some results))
    | inl e => (output (analyze_records data)
                  ++ [error_line "エラーが発生しました: " e], inr None)
    end.
Proof.
  intros Hr%read_records_eq.
  unfold analyze_student_scores, analyze_body. rewrite Hr, bind_inr.
  pose proof (analyze_records_error data) as Hcls.
  destruct (analyze_records data) as [out [e|results]]; simpl in *.
  - destruct (caught_by_catch_all e) as [Hnf Hex].
    { specialize (Hcls e eq_refl). revert Hcls. generalize (exn_type e). sub_list. }
    unfold is_Exception in Hex. by rewrite Hnf, Hex.
  - by rewrite app_nil_r.
Qed.

(** X6: The overview counts what was read: whenever the file is read, the
    output begins with the heading and the numbers of records, of distinct
    names and of distinct subjects, whatever order the sets are listed in
    and whether or not the analysis goes on to succeed.  When it succeeds
    the period and an empty line follow, and nothing else. *)
Theorem overview_counts csv_file data :
  outcome (read csv_file) = inr data →
  take 4 (output (analyze csv_file))
  = overview_lines (len data) (len (remove_dups (名前 <$> data)))
                   (len (remove_dups (科目 <$> data)))
  ∧ (∀ results, outcome (analyze csv_file) = inr (Some results) →
       ∃ lo hi, drop 4 (output (analyze csv_file)) = [period_line lo hi; []]).
Proof.
  intros Hr. rewrite (analyze_after_read _ _ Hr).
  pose proof (analyze_records_output data) as Hout.
  pose proof (analyze_records_outcome set_order data) as Hres.
  destruct (outcome (analyze_records data)) as [e|results].
  - split; [|done]. unfold output in *. simpl. by rewrite Hout, <-app_assoc.
  - split; [unfold output in *; simpl; by rewrite Hout|].
    intros ? _. unfold output in *. simpl. rewrite Hout.
    destruct (min_str _) as [e|lo]; [done|].
    destruct (max_str _) as [e|hi]; [done|]. by exists lo, hi.
Qed.

(** X7: A dict that is returned has exactly the names of the records as its
    keys, in the order the set of names is listed in; so it is never
    empty, and the test [if results:] of [main] lets every returned dict
    pass. *)
Theorem returned_dict_covers_names csv_file data results :
  outcome (read csv_file) = inr data →
  outcome (analyze csv_file) = inr (Some results) →
  results ≠ []
  ∧ keys results = set_list (名前 <$> data)
  ∧ (∀ k, k ∈ keys results ↔ k ∈ (名前 <$> data))
  ∧ len results = len (remove_dups (名前 <$> data)).
Proof.
  intros Hr Ha. pose proof (analyze_success _ _ _ _ _ Hr Ha) as Hc.
  pose proof (collect_results_keys data _ _ (set_list_NoDup _) Hc) as Hk.
  assert (data ≠ []) as Hne.
  { intros ->. rewrite (analyze_after_read _ _ Hr) in Ha.
    by rewrite analyze_records_empty in Ha. }
  split_and!.
  - destruct data as [|row data]; [done|]. intros ->.
    assert (名前 row ∈ set_list (名前 <$> row :: data)) as Hin
      by (apply set_list_elem; left).
    rewrite <-Hk in Hin. by apply elem_of_nil in Hin.
  - done.
  - intros k. by rewrite Hk, set_list_elem.
  - rewrite <-set_list_length, <-Hk. unfold len, keys. by rewrite length_fmap.
Qed.

(** X8: No group is ever empty: the loops run over names and subjects taken
    from the records, so [statistics.mean], [max] and [min] always get at
    least one score.  The one exception the two loops can raise is the
    [OverflowError] of a mean too large for a float. *)
Theorem groups_never_empty data e :
  (∀ student, student ∈ set_list (名前 <$> data) →
     scores_of_student data student ≠ [])
  ∧ (∀ subject, subject ∈ set_list (科目 <$> data) →
       scores_of_subject data subject ≠ [])
  ∧ (collect_results data (set_list (名前 <$> data)) = inl e →
       exn_type e = OverflowError)
  ∧ (outcome (for_each (set_list (科目 <$> data)) (display_subject data)) = inl e →
       exn_type e = OverflowError).
Proof.
  split_and!.
  - intros s Hs. by apply scores_of_student_nonempty, set_list_elem.
  - intros s Hs. by apply scores_of_subject_nonempty, set_list_elem.
  - apply collect_error.
  - apply (for_each_error (λ e, exn_type e = OverflowError)).
    intros s e' Hs. apply display_subject_error. by apply set_list_elem.
Qed.

(** X5: The "file not found" line is printed exactly when the file is
    absent: no other failure of the analysis is reported by it. *)
Theorem not_found_line_iff_absent csv_file :
  not_found_line csv_file ∈ output (analyze csv_file) ↔ fs csv_file = Absent.
Proof.
  split.
  2:{ intros Hfs. rewrite (analyze_file_not_found _ _ _ Hfs). simpl. left. }
  intros Hin. destruct (fs csv_file) as [|why msg|rows fault] eqn:Hfs; [done|..];
    exfalso.
  - assert (outcome (read csv_file) = inl (refusal_exn why msg)) as Hr.
    { unfold read_records. by rewrite Hfs. }
    destruct (read_error_reported int_of_string fs csv_file _ Hr) as [Ha _];
      [by destruct why..|].
    rewrite Ha in Hin. simpl in Hin.
    apply list_elem_of_singleton in Hin. by destruct why.
  - destruct (outcome (read csv_file)) as [e|data] eqn:Hr.
    + assert (exn_type e ∈ [KeyError; TypeError; ValueError;
                            UnicodeDecodeError; csv_Error]) as Hcls.
      { revert Hr. unfold read_records. rewrite Hfs.
        pose proof (raises_in_mapM [KeyError; TypeError; ValueError]
          (to_record int_of_string) (DictReader rows)
          (λ a _, raises_in_to_record int_of_string a)) as Hm.
        destruct (mapM _ _) as [e'|data].
        - intros [= <-]. specialize (Hm e' eq_refl). revert Hm.
          generalize (exn_type e'). sub_list.
        - rewrite lift_bind_inr. destruct fault as [[[|] msg]|]; intros [= <-];
            simpl; in_list. }
      destruct (caught_by_catch_all e) as [Hnf Hex].
      { revert Hcls. generalize (exn_type e). sub_list. }
      destruct (read_error_reported int_of_string fs csv_file _ Hr Hnf Hex) as [Ha _].
      rewrite Ha in Hin. simpl in Hin.
      by apply list_elem_of_singleton in Hin.
    + rewrite (analyze_after_read _ _ Hr) in Hin.
      assert (not_found_line csv_file ∉ output (analyze_records data)) as Hno.
      { rewrite analyze_records_output. unfold overview_lines.
        destruct (min_str _) as [?|lo]; [|destruct (max_str _) as [?|hi]];
          simpl; rewrite ?not_elem_of_cons; split_and?; try done;
          apply not_elem_of_nil. }
      destruct (outcome (analyze_records data)) as [e|results]; [|done].
      simpl in Hin. apply elem_of_app in Hin as [?|Hin]; [done|].
      by apply list_elem_of_singleton in Hin.
Qed.

Lemma raises_subject_body csv_file :
  raises_Exception (outcome (subject_body int_of_string fs csv_file)).
Proof.
  unfold subject_body.
  apply raises_M_bind; [apply raises_read_records|intros data]. cbv zeta.
  raises_run. apply raises_for_each. intros subject.
  unfold display_subject. cbv zeta. raises_run.
Qed.

(** [analyze_by_subject] through its [except] clause. *)
Lemma by_subject_eq csv_file :
  by_subject csv_file =
    match outcome (subject_body int_of_string fs csv_file) with
    | inr _ => (output (subject_body int_of_string fs csv_file), inr tt)
    | inl e => (output (subject_body int_of_string fs csv_file)
                  ++ [error_line "科目別分析でエラーが発生しました: " e], inr tt)
    end.
Proof.
  pose proof (raises_subject_body csv_file) as Hraises.
  change (by_subject csv_file) with
    (try_except (subject_body int_of_string fs csv_file)
       [ (Exception, λ e : exn,
           print (Lit "科目別分析でエラーが発生しました: " :: exn_str e)) ]).
  destruct (subject_body int_of_string fs csv_file) as [out [e|[]]]; [|done].
  simpl in *. specialize (Hraises e eq_refl). unfold is_Exception in Hraises.
  by rewrite Hraises.
Qed.

Lemma by_subject_returns csv_file : outcome (by_subject csv_file) = inr tt.
Proof.
  rewrite by_subject_eq.
  by destruct (outcome (subject_body int_of_string fs csv_file)).
Qed.

(** X18: [analyze_by_subject] never propagates an exception: whatever the
    file holds it returns normally; when its body raises, the report of
    the exception is the last line it prints, after whatever the body had
    printed by then. *)
Theorem analyze_by_subject_never_raises csv_file :
  outcome (by_subject csv_file) = inr tt
  ∧ by_subject csv_file =
    match outcome (subject_body int_of_string fs csv_file) with
    | inr _ => (output (subject_body int_of_string fs csv_file), inr tt)
    | inl e => (output (subject_body int_of_string fs csv_file)
                  ++ [error_line "科目別分析でエラーが発生しました: " e], inr tt)
    end.
Proof.
  rewrite by_subject_eq. split; [|done].
  by destruct (outcome (subject_body int_of_string fs csv_file)).
Qed.

End Returned.

(** * The ranking *)

Section Stability.

Context {A : Type} (key : A → num).
Context (P : A → Prop) `{∀ x, Decision (P x)}.

(** [P] picks items of one and the same key. *)
Hypothesis P_same_key : ∀ a b, P a → P b → num_le (key a) (key b).

(** An item never passes one of the same key on its way in. *)
Lemma insert_desc_filter x l :
  filter P (insert_desc key x l) = filter P (x :: l).
Proof.
  induction l as [|y l IH]; [done|]. simpl.
  destruct (num_leb (key y) (key x)) eqn:Hle; [done|].
  rewrite (filter_cons _ y), IH, !filter_cons.
  destruct (decide (P x)) as [Hx|Hx], (decide (P y)) as [Hy|Hy]; try done.
  pose proof (proj2 (num_leb_le _ _) (P_same_key y x Hy Hx)). congruence.
Qed.

Lemma sorted_desc_filter l : filter P (sorted_desc key l) = filter P l.
Proof.
  induction l as [|x l IH]; [done|].
  simpl. by rewrite insert_desc_filter, !filter_cons, IH.
Qed.

End Stability.

Lemma same_mean_refl x : same_mean x x.
Proof. apply Qeq_bool_iff, Qeq_refl. Qed.

Lemma same_mean_le y a b : same_mean y a → same_mean y b → num_le (平均点 a.2) (平均点 b.2).
Proof.
  unfold same_mean, num_le. intros Ha%Qeq_bool_iff Hb%Qeq_bool_iff.
  rewrite Ha, Hb. apply Qle_refl.
Qed.

(** X13: Students with equal means keep the order of the dict in the
    ranking: the sort is stable, also with [reverse=True]. *)
Theorem ranking_ties_keep_order (results : dict cell Stats) (y : cell * Stats) :
  filter (same_mean y) (sorted_students results) = filter (same_mean y) results.
Proof.
  unfold sorted_students.
  apply (sorted_desc_filter (λ x : cell * Stats, 平均点 x.2) (same_mean y)).
  apply same_mean_le.
Qed.

Lemma ranked_before_trans : Relations_1.Transitive ranked_before.
Proof.
  intros a b c Hab Hbc. unfold ranked_before, desc_by in *.
  by apply (num_le_trans _ (平均点 b.2)).
Qed.

(** The head of a ranking has a mean no item exceeds. *)
Lemma sorted_head_best (results : dict cell Stats) top rest :
  sorted_students results = top :: rest →
  ∀ x, x ∈ results → num_le (平均点 x.2) (平均点 top.2).
Proof.
  intros Hs x Hx.
  pose proof (sorted_desc_Sorted (λ x : cell * Stats, 平均点 x.2) results) as Hsorted.
  fold (sorted_students results) in Hsorted. rewrite Hs in Hsorted.
  apply (Sorted_StronglySorted ranked_before_trans) in Hsorted.
  apply StronglySorted_inv in Hsorted as [_ Hall].
  assert (x ∈ top :: rest) as Hin.
  { rewrite <-Hs. unfold sorted_students.
    by rewrite (sorted_desc_Permutation (λ x : cell * Stats, 平均点 x.2) results). }
  apply elem_of_cons in Hin as [->|Hin]; [apply Qle_refl|].
  rewrite Forall_forall in Hall. by apply Hall.
Qed.

Lemma enumerate1_cons {A} (x : A) l :
  enumerate1 (x :: l) = (1, x) :: zip (Z.of_nat <$> seq 2 (length l)) l.
Proof. done. Qed.

(** X14: The gold medal goes to a student no other student beats, and among
    several with that mean to the one who comes first in the dict; the
    line of rank 1 is the third line [create_ranking] prints. *)
Theorem gold_medal_is_best (results : dict cell Stats) :
  results ≠ [] →
  ∃ top,
    head (sorted_students results) = Some top
    ∧ top ∈ results
    ∧ (∀ x, x ∈ results → num_le (平均点 x.2) (平均点 top.2))
    ∧ head (filter (same_mean top) results) = Some top
    ∧ (∀ name mean,
         top.1 = Some name → format_f2 6 (平均点 top.2) = inr mean →
         output (create_ranking results) !! 2%nat
         = Some [Lit "🥇"; Lit " "; FPadL 8 name; Lit " : "; mean; Lit "点"]).
Proof.
  intros Hne.
  pose proof (sorted_desc_Permutation (λ x : cell * Stats, 平均点 x.2) results) as Hperm.
  fold (sorted_students results) in Hperm.
  destruct (sorted_students results) as [|top rest] eqn:Hs.
  { apply Permutation_nil_l in Hperm. by subst. }
  exists top. split_and!.
  - done.
  - rewrite <-Hperm. left.
  - by apply (sorted_head_best results top rest).
  - pose proof (sorted_desc_filter (λ x : cell * Stats, 平均点 x.2) (same_mean top)
                  (same_mean_le top) results) as Hst.
    fold (sorted_students results) in Hst. rewrite Hs, filter_cons in Hst.
    rewrite decide_True in Hst by apply same_mean_refl.
    assert (filter (same_mean top) results
            = top :: filter (same_mean top) rest) as -> by (symmetry; exact Hst).
    done.
  - intros name mean Hname Hmean. unfold create_ranking.
    destruct results as [|kv results]; [done|]. rewrite Hs.
    rewrite !output_print_bind, enumerate1_cons. simpl for_each.
    destruct top as [student stats]. simpl in Hname, Hmean. subst student.
    rewrite !output_bind. unfold ranking_line. rewrite Hmean. done.
Qed.

(** * Running the whole program *)

(** ** Means within the float range *)

(** Every float a conversion produces is within the float range. *)
Lemma float_of_ratio_range n d f :
  0 < d → float_of_ratio n d = Some f → in_float_range (PyFloat f).
Proof.
  intros Hd Hf. destruct (float_of_ratio_valid n d f Hd Hf) as [Hm Hfin].
  destruct f as [m e]. simpl in *. unfold in_float_range, num_Q, F2Q. simpl.
  assert (2 ^ 1024 = 2 ^ 53 * 2 ^ 971) as H1024 by (by rewrite <-Z.pow_add_r).
  assert (0 < 2 ^ 971) as H971 by (by apply Z.pow_pos_nonneg).
  assert (0 < 2 ^ 53) as H53 by done.
  destruct (Z.leb_spec 0 e) as [He|He].
  - specialize (Hfin He). rewrite <-!Zle_Qle. rewrite DBL_MAX_eq.
    assert (0 < 2 ^ e) as Hpe by (apply Z.pow_pos_nonneg; lia).
    assert (Z.abs (m * 2 ^ e) ≤ (2 ^ 53 - 1) * 2 ^ 971) as Habs; [|lia].
    rewrite Z.abs_mul, (Z.abs_eq (2 ^ e)) by lia.
    destruct (Z.le_gt_cases 971 e) as [Hbig|Hsmall].
    + assert (2 ^ e = 2 ^ (e - 971) * 2 ^ 971) as Heq.
      { rewrite <-Z.pow_add_r by lia. f_equal. lia. }
      assert (0 < 2 ^ (e - 971)) by (apply Z.pow_pos_nonneg; lia).
      rewrite Heq, H1024 in Hfin. rewrite Heq. nia.
    + assert (2 ^ 971 = 2 ^ (970 - e) * 2 * 2 ^ e) as Heq.
      { replace 971 with ((970 - e) + 1 + e) at 1 by lia.
        rewrite !Z.pow_add_r by lia. done. }
      assert (0 < 2 ^ (970 - e)) by (apply Z.pow_pos_nonneg; lia).
      rewrite Heq. nia.
  - assert (0 < 2 ^ (- e)) as HN by (apply Z.pow_pos_nonneg; lia).
    unfold Qle. simpl. rewrite Z2Pos.id by done. rewrite DBL_MAX_eq. nia.
Qed.

(** The rounded mean of a group of scores a float can hold is a number
    a float can hold. *)
Lemma rounded_mean_range scores mean :
  scores ≠ [] → Forall (λ z, Z.abs z ≤ DBL_MAX) scores →
  statistics_mean (PyInt <$> scores) ≫= round2 = inr mean →
  in_float_range mean.
Proof.
  intros Hne Hb.
  assert (PyInt <$> scores ≠ []) as Hne' by (by destruct scores).
  pose proof (exact_mean_range _ Hne' (ints_in_range _ Hb)) as Hrange.
  rewrite statistics_mean_nonempty by done.
  unfold mbind, exn_bind, ebind.
  destruct (forallb is_int _ && _) eqn:Hint.
  - intros [= <-]. apply andb_prop in Hint as [_ Hden%Pos.eqb_eq].
    rewrite Hden in Hrange. unfold in_float_range, num_Q.
    rewrite <-!Zle_Qle. lia.
  - destruct (float_of_Q _) as [x|]; [|done]. simpl. unfold round_float2.
    destruct (float_of_ratio (cents x) 100) as [r|] eqn:Hr; [|done].
    intros [= <-]. by apply (float_of_ratio_range (cents x) 100).
Qed.

Lemma student_stats_range data student stats :
  student ∈ (名前 <$> data) →
  Forall (λ row, Z.abs (スコア row) ≤ DBL_MAX) data →
  student_stats data student = inr stats → in_float_range (平均点 stats).
Proof.
  intros Hin Hb Hst.
  destruct (student_stats_inr _ _ _ Hst) as (Hmean & _).
  apply (rounded_mean_range (scores_of_student data student));
    [by apply scores_of_student_nonempty| |done].
  unfold scores_of_student. apply Forall_fmap, Forall_forall.
  intros row [_ Hrow]%list_elem_of_filter.
  rewrite Forall_forall in Hb. by apply Hb.
Qed.

(** ** [display_results] and [create_ranking] on what was returned *)

Lemma display_class_returns (results : dict cell Stats) :
  results ≠ [] →
  Forall (λ stats, in_float_range (平均点 stats)) (values results) →
  outcome (display_class results) = inr tt.
Proof.
  intros Hne Hall.
  assert (values results ≠ []) as Hv by (by destruct results).
  assert (平均点 <$> values results ≠ []) as Hmeans by (by destruct (values results)).
  destruct (max_int_spec (最高点 <$> values results)) as (hi & Hhi & _);
    [by destruct (values results)|].
  destruct (min_int_spec (最低点 <$> values results)) as (lo & Hlo & _);
    [by destruct (values results)|].
  destruct (exact_mean_converts _ Hmeans (proj2 (Forall_fmap _ _ _) Hall)) as [f Hf].
  unfold display_class. cbv zeta.
  rewrite (mean_then_format _ 6 f Hmeans Hf), Hhi, Hlo.
  by rewrite !print_bind, !lift_bind_inr, !print_bind.
Qed.

Lemma display_results_returns (results : dict cell Stats) :
  Forall (λ stats, in_float_range (平均点 stats)) (values results) →
  outcome (display_results results) = inr tt.
Proof.
  intros Hall. unfold display_results.
  destruct results as [|kv results]; [done|].
  rewrite !outcome_print_bind, outcome_bind, for_each_returns.
  - by apply display_class_returns.
  - intros [i [student stats]] Hin. apply display_student_returns.
    apply enumerate1_elem in Hin. rewrite Forall_forall in Hall. apply Hall.
    apply list_elem_of_fmap. by exists (student, stats).
Qed.

(** The loop stops at the first item whose body raises. *)
Lemma for_each_raises {A} (l : list A) (body : A → M unit) x e :
  x ∈ l → outcome (body x) = inl e →
  ∃ x' e', x' ∈ l ∧ outcome (body x') = inl e'
           ∧ outcome (for_each l body) = inl e'.
Proof.
  induction l as [|y l IH]; [by intros ?%elem_of_nil|].
  intros Hin Hx. simpl. rewrite outcome_bind.
  destruct (outcome (body y)) as [e'|[]] eqn:Hy.
  - exists y, e'. split_and!; [left|done..].
  - apply elem_of_cons in Hin as [->|Hin]; [congruence|].
    destruct (IH Hin Hx) as (x' & e' & Hx' & He' & Hloop).
    exists x', e'. split_and!; [by right|done..].
Qed.

Lemma ranking_line_outcome rank student stats :
  in_float_range (平均点 stats) →
  match student with
  | Some name => ∃ ln, ranking_line rank student stats = inr ln
  | None => ∃ e, ranking_line rank student stats = inl e ∧ exn_type e = TypeError
  end.
Proof.
  intros Hr. destruct (format_f2_in_range 6 _ Hr) as [f Hf].
  unfold ranking_line. destruct student as [name|]; simpl.
  - rewrite Hf. by eexists.
  - by eexists.
Qed.

Lemma enumerate1_elem_inv {A} (l : list A) x :
  x ∈ l → ∃ i, (i, x) ∈ enumerate1 l.
Proof.
  intros [i Hi]%list_elem_of_lookup_1. exists (Z.of_nat (1 + i)).
  apply (list_elem_of_lookup_2 _ i). unfold enumerate1.
  apply lookup_zip_with_Some. exists (Z.of_nat (1 + i)), x. split_and!; [done| |done].
  rewrite list_lookup_fmap, lookup_seq_lt; [done|]. by apply lookup_lt_Some in Hi.
Qed.

Lemma sorted_students_elem (results : dict cell Stats) x :
  x ∈ sorted_students results ↔ x ∈ results.
Proof.
  unfold sorted_students.
  by rewrite (sorted_desc_Permutation (λ x : cell * Stats, 平均点 x.2) results).
Qed.

Lemma ranked_mean_range (results : dict cell Stats) rank student stats :
  Forall (λ stats, in_float_range (平均点 stats)) (values results) →
  (rank, (student, stats)) ∈ enumerate1 (sorted_students results) →
  in_float_range (平均点 stats).
Proof.
  intros Hall Hin%enumerate1_elem.
  apply (proj1 (sorted_students_elem _ _)) in Hin.
  rewrite Forall_forall in Hall. apply Hall.
  apply list_elem_of_fmap. by exists (student, stats).
Qed.

(** A [None] key stops the ranking with [TypeError]. *)
Lemma create_ranking_raises (results : dict cell Stats) :
  Forall (λ stats, in_float_range (平均点 stats)) (values results) →
  None ∈ keys results →
  ∃ e, outcome (create_ranking results) = inl e ∧ exn_type e = TypeError.
Proof.
  intros Hall ([student stats] & Hk & Hin)%list_elem_of_fmap.
  simpl in Hk. subst student.
  unfold create_ranking.
  destruct results as [|kv results]; [by apply elem_of_nil in Hin|].
  set (rs := kv :: results) in *.
  apply (proj2 (sorted_students_elem rs _)), enumerate1_elem_inv in Hin
    as [rank Hin].
  destruct (ranking_line_outcome rank None stats
              (ranked_mean_range rs _ _ _ Hall Hin)) as (e & He & _).
  destruct (for_each_raises (enumerate1 (sorted_students rs))
    (λ '(rank, (student, stats)), lift (ranking_line rank student stats) ≫= print)
    (rank, (None, stats)) e Hin)
    as ([rank' [student' stats']] & e' & Hin' & He' & Hloop).
  { by rewrite outcome_lift_bind, He. }
  exists e'. rewrite !outcome_print_bind, outcome_bind, Hloop. split; [done|].
  rewrite outcome_lift_bind in He'.
  pose proof (ranking_line_outcome rank' student' stats'
                (ranked_mean_range rs _ _ _ Hall Hin')) as Hl.
  destruct student' as [name|].
  - destruct Hl as [ln Hln]. by rewrite Hln in He'.
  - destruct Hl as (e'' & He'' & Hty). rewrite He'' in He'. by injection He' as <-.
Qed.

(** With str keys the ranking ends normally. *)
Lemma create_ranking_returns (results : dict cell Stats) :
  Forall (λ stats, in_float_range (平均点 stats)) (values results) →
  None ∉ keys results →
  outcome (create_ranking results) = inr tt.
Proof.
  intros Hall Hnone. unfold create_ranking.
  destruct results as [|kv results]; [done|].
  set (rs := kv :: results) in *.
  rewrite !outcome_print_bind, outcome_bind, for_each_returns; [done|].
  intros [rank [student stats]] Hin. rewrite outcome_lift_bind.
  pose proof (ranking_line_outcome rank student stats
                (ranked_mean_range rs _ _ _ Hall Hin)) as Hl.
  destruct student as [name|].
  - destruct Hl as [ln ->]. done.
  - exfalso. apply Hnone. apply enumerate1_elem in Hin.
    apply (proj1 (sorted_students_elem _ _)) in Hin.
    apply list_elem_of_fmap. by exists (None, stats).
Qed.

(** X15: The ranking needs every name to be a str: with means a float can
    hold, [create_ranking] ends normally exactly when no key of the dict
    is [None]; a [None] key makes [{student:<8}] raise [TypeError], which
    [create_ranking] does not catch. *)
Theorem ranking_needs_names (results : dict cell Stats) :
  Forall (λ stats, in_float_range (平均点 stats)) (values results) →
  (outcome (create_ranking results) = inr tt ↔ None ∉ keys results)
  ∧ (None ∈ keys results →
       ∃ e, outcome (create_ranking results) = inl e ∧ exn_type e = TypeError).
Proof.
  intros Hall. split; [split|].
  - intros Hok Hnone.
    destruct (create_ranking_raises results Hall Hnone) as (e & He & _).
    congruence.
  - by apply create_ranking_returns.
  - by apply create_ranking_raises.
Qed.

(** ** [main] *)

Section Main.

Context {set_order : SetOrder}.
Variable int_of_string : string → option Z.
Variable fs : string → file.

Local Abbreviation read := (read_records int_of_string fs).
Local Abbreviation analyze := (analyze_student_scores int_of_string fs).
Local Abbreviation by_subject := (analyze_by_subject int_of_string fs).

(** The means of a returned dict are numbers a float can hold when the
    scores are. *)
Lemma returned_means_range csv_file data results :
  outcome (read csv_file) = inr data →
  outcome (analyze csv_file) = inr (Some results) →
  Forall (λ row, Z.abs (スコア row) ≤ DBL_MAX) data →
  Forall (λ stats, in_float_range (平均点 stats)) (values results).
Proof.
  intros Hr Ha Hb. pose proof (analyze_success _ _ _ _ _ Hr Ha) as Hc.
  pose proof (collect_results_inr data _ _ (set_list_NoDup _) Hc) as HF.
  apply Forall_fmap, Forall_forall. intros [k stats] [i Hi]%list_elem_of_lookup_1.
  destruct (Forall2_lookup_r _ _ _ _ _ HF Hi) as (s & Hs & Hk & Hst).
  simpl in *. subst k.
  apply (student_stats_range data s); [|done..].
  apply set_list_elem. by apply list_elem_of_lookup_2 in Hs.
Qed.

Lemma main_after_analysis csv_out kv results :
  analyze csv_file_path = (csv_out, inr (Some (kv :: results))) →
  main int_of_string fs =
    ([Lit "📚 学生成績分析プログラム"] :: [Lit (str_mul "=" 60)] :: csv_out, inr tt)
    ≫= λ _, display_results (kv :: results);;
            create_ranking (kv :: results);;
            by_subject csv_file_path.
Proof.
  intros Ha. unfold main. cbv zeta. by rewrite !print_bind, Ha, !bind_inr.
Qed.

(** X16: [main] runs to its end on well-formed data: when the file yields at
    least one record, every name and date is a str and every score is
    within the float range, the analysis returns a dict, the display and
    the ranking end normally, and [main] prints its banner, the overview,
    the statistics, the ranking and the analysis by subject, in that
    order, and returns. *)
Theorem main_completes data (dates names : list string) :
  outcome (read csv_file_path) = inr data →
  data ≠ [] →
  日付 <$> data = Some <$> dates →
  名前 <$> data = Some <$> names →
  Forall (λ row, Z.abs (スコア row) ≤ DBL_MAX) data →
  ∃ results,
    outcome (analyze csv_file_path) = inr (Some results)
    ∧ outcome (display_results results) = inr tt
    ∧ outcome (create_ranking results) = inr tt
    ∧ main int_of_string fs =
      ([Lit "📚 学生成績分析プログラム"] :: [Lit (str_mul "=" 60)]
         :: output (analyze csv_file_path)
         ++ output (display_results results)
         ++ output (create_ranking results)
         ++ output (by_subject csv_file_path), inr tt).
Proof.
  intros Hr Hne Hdates Hnames Hb.
  destruct (analysis_succeeds int_of_string fs _ _ _ Hr Hne Hdates Hb) as [results Ha].
  pose proof (returned_means_range _ _ _ Hr Ha Hb) as Hrange.
  pose proof (analyze_success _ _ _ _ _ Hr Ha) as Hc.
  pose proof (collect_results_keys data _ _ (set_list_NoDup _) Hc) as Hk.
  assert (None ∉ keys results) as Hnone.
  { rewrite Hk, set_list_elem, Hnames. by intros (? & ? & _)%list_elem_of_fmap. }
  pose proof (display_results_returns results Hrange) as Hd.
  pose proof (create_ranking_returns results Hrange Hnone) as Hrk.
  pose proof (by_subject_returns int_of_string fs csv_file_path) as Hs.
  exists results. split_and!; [done..|].
  assert (results ≠ []) as Hres.
  { intros ->. destruct data as [|row data]; [done|].
    assert (名前 row ∈ set_list (名前 <$> row :: data)) as Hin
      by (apply set_list_elem; left).
    rewrite <-Hk in Hin. by apply elem_of_nil in Hin. }
  destruct results as [|kv results]; [done|].
  destruct (analyze csv_file_path) as [out r] eqn:HA. simpl in Ha. subst r.
  rewrite (main_after_analysis out kv results HA).
  destruct (display_results (kv :: results)) as [out1 r1]. simpl in Hd. subst r1.
  destruct (create_ranking (kv :: results)) as [out2 r2]. simpl in Hrk. subst r2.
  destruct (by_subject csv_file_path) as [out3 r3]. simpl in Hs. subst r3.
  by rewrite !bind_inr.
Qed.

(** X17: [main] is not protected against a record without a name: when a
    row leaves the 名前 cell out ([None]) while dates and scores are in
    order, the analysis and the display go through and [create_ranking]
    raises [TypeError], which [main] propagates to its caller. *)
Theorem main_raises_on_missing_name data (dates : list string) :
  outcome (read csv_file_path) = inr data →
  日付 <$> data = Some <$> dates →
  Forall (λ row, Z.abs (スコア row) ≤ DBL_MAX) data →
  None ∈ (名前 <$> data) →
  ∃ e, outcome (main int_of_string fs) = inl e ∧ exn_type e = TypeError.
Proof.
  intros Hr Hdates Hb Hnone.
  destruct (analysis_succeeds int_of_string fs _ _ _ Hr
              (elem_of_names_nonempty _ _ Hnone) Hdates Hb) as [results Ha].
  pose proof (returned_means_range _ _ _ Hr Ha Hb) as Hrange.
  pose proof (analyze_success _ _ _ _ _ Hr Ha) as Hc.
  pose proof (collect_results_keys data _ _ (set_list_NoDup _) Hc) as Hk.
  assert (None ∈ keys results) as Hin by (by rewrite Hk, set_list_elem).
  pose proof (display_results_returns results Hrange) as Hd.
  destruct (create_ranking_raises results Hrange Hin) as (e & He & Hty).
  exists e. split; [|done].
  destruct results as [|kv results]; [by apply elem_of_nil in Hin|].
  destruct (analyze csv_file_path) as [out r] eqn:HA. simpl in Ha. subst r.
  rewrite (main_after_analysis out kv results HA).
  destruct (display_results (kv :: results)) as [out1 r1]. simpl in Hd. subst r1.
  destruct (create_ranking (kv :: results)) as [out2 r2]. simpl in He. subst r2.
  by rewrite !bind_inr.
Qed.

End Main.

(** * Means between the least and the greatest score *)

Module BetweenFacts.

Lemma sum_Z_bounds (l : list Z) lo hi :
  (∀ x, x ∈ l → lo ≤ x ≤ hi) → lo * len l ≤ sum_Z l ≤ hi * len l.
Proof.
  induction l as [|x l IH]; intros Hall; [unfold len; simpl; lia|].
  rewrite sum_Z_cons, len_cons.
  pose proof (Hall x (list_elem_of_here _ _)).
  pose proof (IH (λ y Hy, Hall y (list_elem_of_further _ _ _ Hy))). lia.
Qed.

(** A ratio between two integers below [2 ^ 52] in magnitude converts
    to a float between them: the integers lie on the grid of the
    conversion. *)
Lemma float_of_ratio_between n d f L H :
  0 < d → L * d ≤ n ≤ H * d → - 2 ^ 52 < L → H < 2 ^ 52 →
  float_of_ratio n d = Some f →
  fexp f ≤ 0
  ∧ L * 2 ^ (- fexp f) ≤ fmant f ≤ H * 2 ^ (- fexp f).
Proof.
  intros Hd Hn HL HH Hf.
  destruct (Z.eq_dec n 0) as [->|Hn0].
  { injection Hf as <-. simpl. nia. }
  rewrite (float_of_ratio_Some n d f Hn0 Hf). simpl.
  set (e := ulp_exp n d).
  assert (e < 0) as He.
  { unfold e, ulp_exp.
    assert (0 < Z.abs n) as Ha by lia.
    pose proof (ilog2_ratio_lower (Z.abs n) d Ha Hd) as Hlo.
    set (l := ilog2_ratio (Z.abs n) d) in *.
    destruct (Z.le_gt_cases 52 l) as [Hbig|Hsmall]; [exfalso|lia].
    destruct (pexp_nonneg l ltac:(lia)) as [Hp Hq]. rewrite Hp, Hq in Hlo.
    assert (2 ^ 52 ≤ 2 ^ l) as Hpow by (apply Z.pow_le_mono_r; lia).
    assert (Z.abs n < 2 ^ 52 * d) by nia. nia. }
  destruct (pexp_neg e ltac:(lia)) as [-> ->]. rewrite Z.mul_1_r.
  assert (0 < 2 ^ (- e)) as Hpe by (apply Z.pow_pos_nonneg; lia).
  split; [lia|]. split.
  - apply rne_ge; [done|]. nia.
  - apply rne_le; [done|]. nia.
Qed.

Lemma float_between_num (f : float) L H :
  fexp f ≤ 0 → L * 2 ^ (- fexp f) ≤ fmant f ≤ H * 2 ^ (- fexp f) →
  num_between L H (PyFloat f).
Proof.
  destruct f as [m e]. simpl. intros He Hm.
  unfold num_between, num_le, num_Q, F2Q. simpl.
  destruct (Z.leb_spec 0 e) as [He'|He'].
  - assert (e = 0) as -> by lia. simpl in *. rewrite <-!Zle_Qle. lia.
  - assert (0 < 2 ^ (- e)) as Hpe by (apply Z.pow_pos_nonneg; lia).
    unfold Qle. simpl. rewrite Z2Pos.id by done. lia.
Qed.

(** [round(x, 2)] keeps a float between two such integers. *)
Lemma round_float2_between (x r : float) L H :
  fexp x ≤ 0 → L * 2 ^ (- fexp x) ≤ fmant x ≤ H * 2 ^ (- fexp x) →
  - 2 ^ 52 < L → H < 2 ^ 52 →
  round_float2 x = Some r →
  fexp r ≤ 0 ∧ L * 2 ^ (- fexp r) ≤ fmant r ≤ H * 2 ^ (- fexp r).
Proof.
  destruct x as [m e]. simpl. intros He Hm HL HH. unfold round_float2.
  apply (float_of_ratio_between (cents (Float m e)) 100 r L H); [done| |done..].
  unfold cents. simpl.
  destruct (Z.leb_spec 0 e) as [He'|He'].
  - assert (e = 0) as -> by lia. simpl in *. lia.
  - assert (0 < 2 ^ (- e)) as Hpe by (apply Z.pow_pos_nonneg; lia).
    pose proof (rne_ge (100 * m) (2 ^ (- e)) (100 * L) Hpe ltac:(nia)).
    pose proof (rne_le (100 * m) (2 ^ (- e)) (100 * H) Hpe ltac:(nia)).
    lia.
Qed.

(** The exact mean of numbers between [L] and [H], as a fraction. *)
Lemma exact_mean_between (data : list num) L H :
  data ≠ [] → Forall (num_between L H) data →
  L * Zpos (Qden (exact_mean data)) ≤ Qnum (exact_mean data)
  ≤ H * Zpos (Qden (exact_mean data)).
Proof.
  intros Hne Hall. pose proof (len_pos data Hne) as Hn.
  assert ((inject_Z (L * len data) <= sum_Q data)%Q
          ∧ (sum_Q data <= inject_Z (H * len data))%Q) as [Hlo Hhi].
  { clear Hne Hn. induction Hall as [|x l [Hx1 Hx2] _ [IH1 IH2]].
    - unfold len. simpl. rewrite !Z.mul_0_r. split; apply Qle_refl.
    - rewrite len_cons. change (sum_Q (x :: l)) with (num_Q x + sum_Q l)%Q.
      replace (L * (1 + len l)) with (L + L * len l) by lia.
      replace (H * (1 + len l)) with (H + H * len l) by lia.
      rewrite !inject_Z_plus. split; by apply Qplus_le_compat. }
  assert (0 < inject_Z (len data))%Q as Hn' by (unfold Qlt; simpl; lia).
  assert (inject_Z L <= exact_mean data ∧ exact_mean data <= inject_Z H)%Q
    as [Hvlo Hvhi].
  { unfold exact_mean. rewrite Qred_correct. split.
    - apply Qle_shift_div_l; [done|]. by rewrite <-inject_Z_mult.
    - apply Qle_shift_div_r; [done|]. by rewrite <-inject_Z_mult. }
  unfold Qle in Hvlo, Hvhi. simpl in Hvlo, Hvhi. lia.
Qed.

Lemma ints_between (scores : list Z) L H :
  (∀ x, x ∈ scores → L ≤ x ≤ H) → Forall (num_between L H) (PyInt <$> scores).
Proof.
  intros Hall. apply Forall_fmap, Forall_forall. intros x Hx.
  unfold compose, num_between, num_le, num_Q. rewrite <-!Zle_Qle.
  by apply Hall.
Qed.

(** The mean [statistics.mean] returns lies between such bounds. *)
Lemma statistics_mean_between (data : list num) L H mean :
  data ≠ [] → Forall (num_between L H) data →
  - 2 ^ 52 < L → H < 2 ^ 52 →
  statistics_mean data = inr mean →
  match mean with
  | PyInt z => L ≤ z ≤ H
  | PyFloat f => fexp f ≤ 0 ∧ L * 2 ^ (- fexp f) ≤ fmant f ≤ H * 2 ^ (- fexp f)
  end.
Proof.
  intros Hne Hall HL HH. pose proof (exact_mean_between data L H Hne Hall) as Hv.
  rewrite statistics_mean_nonempty by done.
  destruct (forallb is_int data && _) eqn:Hint.
  - intros [= <-]. apply andb_prop in Hint as [_ Hden%Pos.eqb_eq].
    rewrite Hden in Hv. lia.
  - unfold float_of_Q.
    destruct (float_of_ratio _ _) as [x|] eqn:Hx; [|done]. intros [= <-].
    by apply (float_of_ratio_between (Qnum (exact_mean data))
                (Zpos (Qden (exact_mean data))) x L H).
Qed.

Lemma mean_num_between (mean : num) L H :
  match mean with
  | PyInt z => L ≤ z ≤ H
  | PyFloat f => fexp f ≤ 0 ∧ L * 2 ^ (- fexp f) ≤ fmant f ≤ H * 2 ^ (- fexp f)
  end → num_between L H mean.
Proof.
  destruct mean as [z|f].
  - intros Hz. unfold num_between, num_le, num_Q. by rewrite <-!Zle_Qle.
  - intros [He Hm]. by apply float_between_num.
Qed.

(** The rounded mean of a group of ints lies between its bounds. *)
Lemma rounded_mean_between (scores : list Z) L H mean :
  scores ≠ [] → (∀ x, x ∈ scores → L ≤ x ≤ H) →
  - 2 ^ 52 < L → H < 2 ^ 52 →
  statistics_mean (PyInt <$> scores) ≫= round2 = inr mean →
  num_between L H mean.
Proof.
  intros Hne Hall HL HH.
  assert (PyInt <$> scores ≠ []) as Hne' by (by destruct scores).
  destruct (statistics_mean (PyInt <$> scores)) as [e|m] eqn:Hmean; [done|].
  pose proof (statistics_mean_between _ L H m Hne' (ints_between _ _ _ Hall)
                HL HH Hmean) as Hm.
  simpl. intros Hr. apply mean_num_between.
  destruct m as [z|x]; simpl in Hr.
  - by injection Hr as <-.
  - destruct (round_float2 x) as [r|] eqn:Hx; [|done]. injection Hr as <-.
    destruct Hm as [He Hm]. by apply (round_float2_between x).
Qed.

End BetweenFacts.
Import BetweenFacts.

Lemma half_ulp_close_scale g n d f :
  0 < g → half_ulp_close n d f → half_ulp_close (g * n) (g * d) f.
Proof.
  unfold half_ulp_close. intros Hg Hc.
  replace (2 * (g * n * nexp (fexp f) - fmant f * (g * d * pexp (fexp f))))
    with (g * (2 * (n * nexp (fexp f) - fmant f * (d * pexp (fexp f))))) by lia.
  rewrite Z.abs_mul, (Z.abs_eq g) by lia. nia.
Qed.

Lemma Forall2_exists {A B} (P : A → B → Prop) (l : list A) :
  (∀ x, x ∈ l → ∃ y, P x y) → ∃ k, Forall2 P l k.
Proof.
  induction l as [|x l IH]; intros Hall; [by exists []|].
  destruct (Hall x (list_elem_of_here _ _)) as [y Hy].
  destruct (IH (λ z Hz, Hall z (list_elem_of_further _ _ _ Hz))) as [k Hk].
  exists (y :: k). by constructor.
Qed.

(** A loop whose rounds all return prints their output in order. *)
Lemma for_each_blocks {A} (l : list A) (body : A → M unit) blocks :
  Forall2 (λ x block, body x = (block, inr tt)) l blocks →
  for_each l body = (concat blocks, inr tt).
Proof.
  induction 1 as [|x block l blocks Hx _ IH]; [done|].
  simpl. by rewrite Hx, bind_inr, IH.
Qed.

(** The float the mean of a group of ints is shown as. *)
Lemma shown_mean_close (scores : list Z) f :
  scores ≠ [] →
  float_of_Q (exact_mean (PyInt <$> scores)) = Some f →
  half_ulp_close (sum_Z scores) (len scores) f.
Proof.
  intros Hne Hf.
  destruct (mean_fraction scores Hne) as (_ & g & Hg & Hn & Hs).
  rewrite <-exact_mean_ints in Hn, Hs. rewrite Hn, Hs.
  apply half_ulp_close_scale; [done|]. by apply float_of_ratio_close.
Qed.

Section Bounds.

Context {set_order : SetOrder}.
Variable int_of_string : string → option Z.
Variable fs : string → file.

Local Abbreviation read := (read_records int_of_string fs).
Local Abbreviation analyze := (analyze_student_scores int_of_string fs).
Local Abbreviation by_subject := (analyze_by_subject int_of_string fs).

(** What a returned dict holds under a key. *)
Lemma returned_stats csv_file data results student stats :
  outcome (read csv_file) = inr data →
  outcome (analyze csv_file) = inr (Some results) →
  dict_get results student = Some stats →
  student ∈ (名前 <$> data) ∧ student_stats data student = inr stats.
Proof.
  intros Hr Ha Hg. pose proof (analyze_success _ _ _ _ _ Hr Ha) as Hc.
  rewrite (collect_results_lookup data _ _ student (set_list_NoDup _) Hc) in Hg.
  destruct (decide (student ∈ set_list (名前 <$> data))) as [Hin|]; [|done].
  split; [by apply set_list_elem|].
  destruct (student_stats data student); [done|]. by injection Hg as ->.
Qed.

(** The statistics of a student as bounds on the scores. *)
Lemma student_stats_bounds data student stats :
  student ∈ (名前 <$> data) →
  student_stats data student = inr stats →
  let scores := scores_of_student data student in
  最高点 stats ∈ scores ∧ 最低点 stats ∈ scores
  ∧ ∀ x, x ∈ scores → 最低点 stats ≤ x ≤ 最高点 stats.
Proof.
  intros Hin Hst scores.
  pose proof (scores_of_student_nonempty data student Hin) as Hne.
  destruct (student_stats_inr _ _ _ Hst) as (_ & Hmax & Hmin & _).
  fold scores in Hne, Hmax, Hmin.
  destruct (max_int_spec scores Hne) as (hi & Hhi & Hhi_in & Hhi_le).
  destruct (min_int_spec scores Hne) as (lo & Hlo & Hlo_in & Hlo_le).
  rewrite Hhi in Hmax. rewrite Hlo in Hmin.
  injection Hmax as <-. injection Hmin as <-.
  split_and!; [done..|]. intros x Hx. split; [by apply Hlo_le|by apply Hhi_le].
Qed.

Lemma scores_small data student :
  Forall (λ row, Z.abs (スコア row) < 2 ^ 52) data →
  ∀ x, x ∈ scores_of_student data student → Z.abs x < 2 ^ 52.
Proof.
  intros Hb x (row & -> & [_ Hrow]%list_elem_of_filter)%list_elem_of_fmap.
  rewrite Forall_forall in Hb. by apply Hb.
Qed.

Lemma student_mean_between data student stats :
  student ∈ (名前 <$> data) →
  Forall (λ row, Z.abs (スコア row) < 2 ^ 52) data →
  student_stats data student = inr stats →
  num_between (最低点 stats) (最高点 stats) (平均点 stats).
Proof.
  intros Hin Hb Hst.
  destruct (student_stats_bounds data student stats Hin Hst) as (Hhi & Hlo & Hall).
  destruct (student_stats_inr _ _ _ Hst) as (Hmean & _).
  pose proof (scores_small data student Hb _ Hhi).
  pose proof (scores_small data student Hb _ Hlo).
  apply (rounded_mean_between (scores_of_student data student));
    [by apply scores_of_student_nonempty|done|lia|lia|done].
Qed.

(** X9: Every student's mean lies between that student's least and
    greatest score, for scores below [2 ^ 52] in magnitude: neither the
    conversion of the average to a float nor [round] to two places takes
    it out of the range of the scores. *)
Theorem mean_between_min_and_max csv_file data results student stats :
  outcome (read csv_file) = inr data →
  outcome (analyze csv_file) = inr (Some results) →
  Forall (λ row, Z.abs (スコア row) < 2 ^ 52) data →
  dict_get results student = Some stats →
  最低点 stats ≤ 最高点 stats
  ∧ num_between (最低点 stats) (最高点 stats) (平均点 stats).
Proof.
  intros Hr Ha Hb Hg.
  destruct (returned_stats _ _ _ _ _ Hr Ha Hg) as [Hin Hst].
  split; [|by apply (student_mean_between data student)].
  destruct (student_stats_bounds data student stats Hin Hst) as (Hhi & _ & Hall).
  by destruct (Hall _ Hhi).
Qed.

(** X12: The class summary against the file: for scores below [2 ^ 52] in
    magnitude, クラス最高点 is the greatest and クラス最低点 the least score
    of all records, and クラス平均, the mean of the students' means, lies
    between the two. *)
Theorem class_summary_within_scores csv_file data results :
  outcome (read csv_file) = inr data →
  outcome (analyze csv_file) = inr (Some results) →
  Forall (λ row, Z.abs (スコア row) < 2 ^ 52) data →
  ∃ class_mean class_max class_min,
    display_class results = (summary_lines class_mean class_max class_min, inr tt)
    ∧ class_max ∈ (スコア <$> data) ∧ class_min ∈ (スコア <$> data)
    ∧ (∀ x, x ∈ (スコア <$> data) → class_min ≤ x ≤ class_max)
    ∧ num_between class_min class_max (PyFloat class_mean).
Proof.
  intros Hr Ha Hb. pose proof (analyze_success _ _ _ _ _ Hr Ha) as Hc.
  pose proof (collect_results_keys data _ _ (set_list_NoDup _) Hc) as Hk.
  pose proof (collect_results_inr data _ _ (set_list_NoDup _) Hc) as HF.
  assert (∀ stats, stats ∈ values results →
            ∃ student, student ∈ (名前 <$> data)
                       ∧ student_stats data student = inr stats) as Hvals.
  { intros stats ([k st] & -> & [i Hi]%list_elem_of_lookup_1)%list_elem_of_fmap.
    destruct (Forall2_lookup_r _ _ _ _ _ HF Hi) as (s & Hs & Hks & Hst).
    simpl in *. exists s. split; [|done].
    apply set_list_elem. by apply list_elem_of_lookup_2 in Hs. }
  assert (results ≠ []) as Hne.
  { intros ->. destruct data as [|row data].
    - rewrite (analyze_after_read _ _ _ _ Hr) in Ha.
      by rewrite analyze_records_empty in Ha.
    - assert (名前 row ∈ set_list (名前 <$> row :: data)) as Hin
        by (apply set_list_elem; left).
      rewrite <-Hk in Hin. by apply elem_of_nil in Hin. }
  assert (values results ≠ []) as Hv by (by destruct results).
  assert (平均点 <$> values results ≠ []) as Hmeans by (by destruct (values results)).
  destruct (max_int_spec (最高点 <$> values results)) as (hi & Hhi & Hhi_in & Hhi_le);
    [by destruct (values results)|].
  destruct (min_int_spec (最低点 <$> values results)) as (lo & Hlo & Hlo_in & Hlo_le);
    [by destruct (values results)|].
  assert (∀ student x, x ∈ scores_of_student data student → x ∈ (スコア <$> data))
    as Hsub.
  { intros student x (row & -> & [_ Hrow]%list_elem_of_filter)%list_elem_of_fmap.
    apply list_elem_of_fmap. by exists row. }
  assert (hi ∈ (スコア <$> data)) as Hhi_data.
  { apply list_elem_of_fmap in Hhi_in as (st & -> & Hst).
    destruct (Hvals st Hst) as (s & Hs & Hstats).
    destruct (student_stats_bounds data s st Hs Hstats) as (Hin & _).
    by apply (Hsub s). }
  assert (lo ∈ (スコア <$> data)) as Hlo_data.
  { apply list_elem_of_fmap in Hlo_in as (st & -> & Hst).
    destruct (Hvals st Hst) as (s & Hs & Hstats).
    destruct (student_stats_bounds data s st Hs Hstats) as (_ & Hin & _).
    by apply (Hsub s). }
  assert (∀ x, x ∈ (スコア <$> data) → lo ≤ x ≤ hi) as Hall.
  { intros x (row & -> & Hrow)%list_elem_of_fmap.
    assert (名前 row ∈ (名前 <$> data)) as Hname
      by (apply list_elem_of_fmap; by exists row).
    destruct (lookup_student int_of_string fs _ _ _ _ Hr Ha Hname) as (st & Hg & Hst).
    destruct (student_stats_bounds data _ st Hname Hst) as (_ & _ & Hbounds).
    assert (st ∈ values results) as Hst_in.
    { apply list_elem_of_fmap. exists (名前 row, st). split; [done|].
      by apply dict_get_Some_elem. }
    assert (最低点 st ≤ スコア row ≤ 最高点 st) as Hrow_b.
    { apply Hbounds, list_elem_of_fmap. exists row. split; [done|].
      by apply list_elem_of_filter. }
    pose proof (Hhi_le (最高点 st) ltac:(apply list_elem_of_fmap; by exists st)).
    pose proof (Hlo_le (最低点 st) ltac:(apply list_elem_of_fmap; by exists st)).
    lia. }
  assert (Z.abs hi < 2 ^ 52 ∧ Z.abs lo < 2 ^ 52) as [Hhi_s Hlo_s].
  { rewrite Forall_forall in Hb.
    apply list_elem_of_fmap in Hhi_data as (r1 & -> & Hr1).
    apply list_elem_of_fmap in Hlo_data as (r2 & -> & Hr2).
    split; by apply Hb. }
  assert (Forall (num_between lo hi) (平均点 <$> values results)) as Hbetween.
  { apply Forall_fmap, Forall_forall. intros st Hst.
    destruct (Hvals st Hst) as (s & Hs & Hstats).
    destruct (student_mean_between data s st Hs Hb Hstats) as [H1 H2].
    pose proof (Hhi_le (最高点 st) ltac:(apply list_elem_of_fmap; by exists st)) as Hle1.
    pose proof (Hlo_le (最低点 st) ltac:(apply list_elem_of_fmap; by exists st)) as Hle2.
    unfold compose, num_between, num_le in *. simpl in *. split.
    - eapply Qle_trans; [|exact H1]. by rewrite <-Zle_Qle.
    - eapply Qle_trans; [exact H2|]. by rewrite <-Zle_Qle. }
  pose proof (exact_mean_between _ lo hi Hmeans Hbetween) as Hexact.
  destruct (float_of_ratio_in_range (Qnum (exact_mean (平均点 <$> values results)))
              (Zpos (Qden (exact_mean (平均点 <$> values results)))))
    as [f Hf]; [done| |].
  { assert (2 ^ 52 ≤ DBL_MAX) by done.
    set (den := Zpos (Qden (exact_mean (平均点 <$> values results)))) in *.
    assert (0 < den) by done. apply Z.abs_le. nia. }
  exists f, hi, lo. split_and!; [|done..|].
  - unfold display_class. cbv zeta.
    rewrite (mean_then_format _ 6 f Hmeans Hf), Hhi, Hlo.
    by rewrite !print_bind, !lift_bind_inr, !print_bind.
  - destruct (float_of_ratio_between
                (Qnum (exact_mean (平均点 <$> values results)))
                (Zpos (Qden (exact_mean (平均点 <$> values results)))) f lo hi)
      as [He Hm]; [done|done|lia|lia|done|].
    by apply float_between_num.
Qed.

End Bounds.

(** * The analysis by subject *)

Section BySubject.

Context {set_order : SetOrder}.
Variable int_of_string : string → option Z.
Variable fs : string → file.

Local Abbreviation read := (read_records int_of_string fs).
Local Abbreviation by_subject := (analyze_by_subject int_of_string fs).

(** The block of a subject of the records, for scores within the float
    range. *)
Lemma display_subject_block data subject :
  subject ∈ (科目 <$> data) →
  Forall (λ row, Z.abs (スコア row) ≤ DBL_MAX) data →
  let scores := scores_of_subject data subject in
  ∃ mean hi lo,
    display_subject data subject
    = (subject_block subject mean hi lo (len scores), inr tt)
    ∧ float_of_Q (exact_mean (PyInt <$> scores)) = Some mean
    ∧ half_ulp_close (sum_Z scores) (len scores) mean
    ∧ hi ∈ scores ∧ lo ∈ scores
    ∧ (∀ x, x ∈ scores → lo ≤ x ≤ hi)
    ∧ (Forall (λ x, Z.abs x < 2 ^ 52) scores →
         num_between lo hi (PyFloat mean)).
Proof.
  intros Hin Hb scores.
  pose proof (scores_of_subject_nonempty data subject Hin) as Hne.
  fold scores in Hne.
  assert (Forall (λ z, Z.abs z ≤ DBL_MAX) scores) as Hbs.
  { unfold scores, scores_of_subject. apply Forall_fmap, Forall_forall.
    intros row [_ Hrow]%list_elem_of_filter.
    rewrite Forall_forall in Hb. by apply Hb. }
  assert (PyInt <$> scores ≠ []) as Hne' by (by destruct scores).
  destruct (exact_mean_converts _ Hne' (ints_in_range _ Hbs)) as [f Hf].
  destruct (max_int_spec scores Hne) as (hi & Hhi & Hhi_in & Hhi_le).
  destruct (min_int_spec scores Hne) as (lo & Hlo & Hlo_in & Hlo_le).
  assert (∀ x, x ∈ scores → lo ≤ x ≤ hi) as Hall.
  { intros x Hx. split; [by apply Hlo_le|by apply Hhi_le]. }
  exists f, hi, lo. split_and!; [|done|by apply shown_mean_close|done..|].
  - unfold display_subject. cbv zeta. fold scores.
    rewrite (mean_then_format _ 6 f Hne' Hf), Hhi, Hlo.
    by rewrite !print_bind, !lift_bind_inr, !print_bind.
  - intros Hsmall. rewrite Forall_forall in Hsmall.
    pose proof (Hsmall _ Hhi_in). pose proof (Hsmall _ Hlo_in).
    pose proof (exact_mean_between _ lo hi Hne' (ints_between _ _ _ Hall)) as Hexact.
    destruct (float_of_ratio_between (Qnum (exact_mean (PyInt <$> scores)))
                (Zpos (Qden (exact_mean (PyInt <$> scores)))) f lo hi)
      as [He Hm]; [done|done|lia|lia|done|].
    by apply float_between_num.
Qed.

(** X19: The analysis by subject prints, between its heading and its closing
    rule, one block of five lines per subject of the records, in the
    order the set of subjects is listed in.  The block of a subject shows
    the float nearest to the average of the scores of that subject (not
    rounded to two places by the program; the format does that), the
    greatest and the least of them, and their number.  This holds
    whenever the file is read and the scores are within the float range;
    for scores below [2 ^ 52] in magnitude the mean shown lies between the
    least and the greatest score. *)
Theorem subject_analysis_correct csv_file data :
  outcome (read csv_file) = inr data →
  Forall (λ row, Z.abs (スコア row) ≤ DBL_MAX) data →
  ∃ blocks,
    by_subject csv_file =
      ([Lit nl; Lit "📖 科目別分析"] :: [Lit (str_mul "=" 50)]
         :: concat blocks ++ [[Lit (str_mul "=" 50)]], inr tt)
    ∧ Forall2 (λ subject block,
        let scores := scores_of_subject data subject in
        ∃ mean hi lo,
          block = subject_block subject mean hi lo (len scores)
          ∧ float_of_Q (exact_mean (PyInt <$> scores)) = Some mean
          ∧ half_ulp_close (sum_Z scores) (len scores) mean
          ∧ hi ∈ scores ∧ lo ∈ scores
          ∧ (∀ x, x ∈ scores → lo ≤ x ≤ hi)
          ∧ (Forall (λ x, Z.abs x < 2 ^ 52) scores →
               num_between lo hi (PyFloat mean)))
      (set_list (科目 <$> data)) blocks.
Proof.
  intros Hr Hb.
  destruct (Forall2_exists
    (λ subject block,
       display_subject data subject = (block, inr tt)
       ∧ let scores := scores_of_subject data subject in
         ∃ mean hi lo,
           block = subject_block subject mean hi lo (len scores)
           ∧ float_of_Q (exact_mean (PyInt <$> scores)) = Some mean
           ∧ half_ulp_close (sum_Z scores) (len scores) mean
           ∧ hi ∈ scores ∧ lo ∈ scores
           ∧ (∀ x, x ∈ scores → lo ≤ x ≤ hi)
           ∧ (Forall (λ x, Z.abs x < 2 ^ 52) scores →
                num_between lo hi (PyFloat mean)))
    (set_list (科目 <$> data))) as [blocks Hblocks].
  { intros subject Hs. apply (proj1 (set_list_elem _ _)) in Hs.
    destruct (display_subject_block data subject Hs Hb)
      as (mean & hi & lo & Hd & Hrest).
    exists (subject_block subject mean hi lo (len (scores_of_subject data subject))).
    split; [done|]. by exists mean, hi, lo. }
  exists blocks. split.
  - rewrite by_subject_eq. apply read_records_eq in Hr.
    assert (subject_body int_of_string fs csv_file =
      ([Lit nl; Lit "📖 科目別分析"] :: [Lit (str_mul "=" 50)]
         :: concat blocks ++ [[Lit (str_mul "=" 50)]], inr tt)) as ->; [|done].
    unfold subject_body. rewrite Hr, bind_inr. cbv zeta.
    rewrite (for_each_blocks _ _ blocks), !print_bind, bind_inr; [done|].
    eapply Forall2_impl; [exact Hblocks|]. by intros subject block [? _].
  - eapply Forall2_impl; [exact Hblocks|]. by intros subject block [_ ?].
Qed.

End BySubject.

(** * The output under different orders of the sets *)

(** [round] never fails on the float [statistics.mean] returns, so the
    mean too large for a float is the one way the statistics of a student
    of the records fail. *)
Lemma student_stats_error_exact data student e :
  student ∈ (名前 <$> data) →
  student_stats data student = inl e → e = mean_overflow_error.
Proof.
  intros Hin. pose proof (scores_of_student_nonempty data student Hin) as Hne.
  unfold student_stats. cbv zeta.
  set (scores := scores_of_student data student) in *.
  destruct (max_int_spec scores Hne) as (hi & -> & _).
  destruct (min_int_spec scores Hne) as (lo & -> & _).
  assert (PyInt <$> scores ≠ []) as Hne' by (by destruct scores).
  rewrite statistics_mean_nonempty by done.
  destruct (_ && _); [done|]. unfold float_of_Q.
  destruct (float_of_ratio _ _) as [x|] eqn:Hx.
  - destruct (round2_succeeds _ (Zpos (Qden (exact_mean (PyInt <$> scores)))) x
                eq_refl Hx) as [r Hr].
    simpl in *. by rewrite Hr.
  - simpl. by intros [= <-].
Qed.

Section OutputOrders.

Variables order1 order2 : SetOrder.
Variable int_of_string : string → option Z.
Variable fs : string → file.

Lemma collect_error_exact (so : SetOrder) data e :
  collect_results data (@set_list so (名前 <$> data)) = inl e →
  e = mean_overflow_error.
Proof.
  intros Hc.
  destruct (collect_results_inl data _ _ (set_list_NoDup _) Hc) as (s & Hs & He).
  apply (student_stats_error_exact data s); [|done]. by apply set_list_elem.
Qed.

(** X10: What [analyze_student_scores] prints does not depend on the order
    in which the sets of names and subjects are listed: the overview
    shows their sizes only, and a failure is reported by the same line
    whichever student the loop reaches first.  (The order of the keys of
    the returned dict does depend on it.) *)
Theorem output_independent_of_set_order csv_file :
  output (@analyze_student_scores order1 int_of_string fs csv_file)
  = output (@analyze_student_scores order2 int_of_string fs csv_file).
Proof.
  destruct (outcome (read_records int_of_string fs csv_file)) as [e|data] eqn:Hr.
  - apply read_records_eq in Hr.
    unfold analyze_student_scores, analyze_body. by rewrite Hr.
  - rewrite (@analyze_after_read order1 _ _ _ _ Hr),
            (@analyze_after_read order2 _ _ _ _ Hr).
    rewrite !analyze_records_outcome.
    pose proof (@analyze_records_output order1 data) as Ho1.
    pose proof (@analyze_records_output order2 data) as Ho2.
    destruct (min_str _) as [e|lo]; [unfold output in *; simpl; congruence|].
    destruct (max_str _) as [e|hi]; [unfold output in *; simpl; congruence|].
    pose proof (collect_results_orders order1 order2 data) as Hsame.
    pose proof (@collect_error_exact order1 data) as He1.
    pose proof (@collect_error_exact order2 data) as He2.
    destruct (collect_results data (@set_list order1 _)) as [e1|r1],
             (collect_results data (@set_list order2 _)) as [e2|r2]; try done.
    + rewrite (He1 e1 eq_refl), (He2 e2 eq_refl).
      unfold output in *. simpl. congruence.
    + unfold output in *. simpl. congruence.
Qed.

End OutputOrders.

(** * The display of the students *)

Lemma enumerate1_lookup {A} (l : list A) i x :
  l !! i = Some x → enumerate1 l !! i = Some (Z.of_nat (S i), x).
Proof.
  intros Hi. unfold enumerate1.
  apply lookup_zip_with_Some. exists (Z.of_nat (S i)), x. split_and!; [done| |done].
  rewrite list_lookup_fmap, lookup_seq_lt; [done|]. by apply lookup_lt_Some in Hi.
Qed.

Lemma enumerate1_length {A} (l : list A) : length (enumerate1 l) = length l.
Proof.
  unfold enumerate1. rewrite length_zip_with, length_fmap, length_seq. lia.
Qed.

Lemma display_student_block i student stats mean :
  format_f2 6 (平均点 stats) = inr (FFix2 6 mean) →
  display_student i student stats = (student_block i student stats mean, inr tt).
Proof.
  intros Hf. unfold display_student.
  by rewrite Hf, !print_bind, lift_bind_inr, !print_bind.
Qed.

(** X11: [display_results] shows every student of the dict once, in the
    order of the dict and numbered from 1: after its three lines of
    heading come the blocks of seven lines, the block at position [i]
    (from 0) being that of item [i] of the dict under the number [i + 1],
    with the mean as [.2f] shows it, and then the class summary. *)
Theorem display_shows_every_student (results : dict cell Stats) :
  results ≠ [] →
  Forall (λ stats, in_float_range (平均点 stats)) (values results) →
  ∃ blocks class_mean class_max class_min,
    display_results results =
      ([Lit (str_mul "=" 60)] :: [Lit "           📊 学生成績分析結果 📊"]
         :: [Lit (str_mul "=" 60)]
         :: concat blocks ++ summary_lines class_mean class_max class_min,
       inr tt)
    ∧ length blocks = length results
    ∧ ∀ (i : nat) student stats,
        results !! i = Some (student, stats) →
        ∃ mean, format_f2 6 (平均点 stats) = inr (FFix2 6 mean)
                ∧ blocks !! i
                  = Some (student_block (Z.of_nat (S i)) student stats mean).
Proof.
  intros Hne Hall.
  set (shown := λ (x : Z * (cell * Stats)) (block : list line),
    ∃ mean, format_f2 6 (平均点 x.2.2) = inr (FFix2 6 mean)
            ∧ block = student_block x.1 x.2.1 x.2.2 mean).
  destruct (Forall2_exists shown (enumerate1 results)) as [blocks Hblocks].
  { intros [i [student stats]] Hin%enumerate1_elem.
    destruct (format_f2_in_range 6 (平均点 stats)) as [mean Hmean].
    { rewrite Forall_forall in Hall. apply Hall.
      apply list_elem_of_fmap. by exists (student, stats). }
    exists (student_block i student stats mean). by exists mean. }
  assert (values results ≠ []) as Hv by (by destruct results).
  assert (平均点 <$> values results ≠ []) as Hmeans by (by destruct (values results)).
  destruct (max_int_spec (最高点 <$> values results)) as (hi & Hhi & _);
    [by destruct (values results)|].
  destruct (min_int_spec (最低点 <$> values results)) as (lo & Hlo & _);
    [by destruct (values results)|].
  destruct (exact_mean_converts _ Hmeans (proj2 (Forall_fmap _ _ _) Hall)) as [f Hf].
  exists blocks, f, hi, lo. split_and!.
  - unfold display_results. destruct results as [|kv results]; [done|].
    rewrite (for_each_blocks _ _ blocks).
    + assert (display_class (kv :: results) = (summary_lines f hi lo, inr tt))
        as ->.
      { unfold display_class. cbv zeta.
        rewrite (mean_then_format _ 6 f Hmeans Hf), Hhi, Hlo.
        by rewrite !print_bind, !lift_bind_inr, !print_bind. }
      by rewrite !print_bind, bind_inr.
    + eapply Forall2_impl; [exact Hblocks|].
      intros [i [student stats]] block (mean & Hmean & ->).
      by apply display_student_block.
  - by rewrite <-(Forall2_length _ _ _ Hblocks), enumerate1_length.
  - intros i student stats Hi.
    destruct (Forall2_lookup_l _ _ _ _ _ Hblocks (enumerate1_lookup _ _ _ Hi))
      as (block & Hblock & mean & Hmean & ->).
    by exists mean.
Qed.

(** * The ranking under different orders of the sets *)

Section SortedUnique.

Context {A : Type} (key : A → num).

Local Abbreviation desc := (desc_by key).

Lemma desc_by_trans : Relations_1.Transitive desc.
Proof.
  intros a b c Hab Hbc. unfold desc_by in *.
  by apply (num_le_trans _ (key b)).
Qed.

(** Two descending lists of the same items are the same list when no
    two different items have keys of the same value. *)
Lemma sorted_desc_unique (l1 l2 : list A) :
  (∀ a b, a ∈ l1 → b ∈ l1 → num_le (key a) (key b) → num_le (key b) (key a) → a = b) →
  Sorted desc l1 → Sorted desc l2 → l1 ≡ₚ l2 → l1 = l2.
Proof.
  intros Hinj Hs1%(Sorted_StronglySorted desc_by_trans)
         Hs2%(Sorted_StronglySorted desc_by_trans).
  revert l2 Hs2. induction Hs1 as [|a l1 Hs1 IH Ha]; intros l2 Hs2 Hperm.
  { by apply Permutation_nil_l in Hperm. }
  destruct Hs2 as [|b l2 Hs2 Hb].
  { by apply Permutation_nil_r in Hperm. }
  assert (a = b) as <-.
  { assert (a ∈ b :: l2) as Ha2 by (rewrite <-Hperm; left).
    assert (b ∈ a :: l1) as Hb1 by (rewrite Hperm; left).
    apply elem_of_cons in Ha2 as [?|Ha2]; [done|].
    apply elem_of_cons in Hb1 as [?|Hb1]; [done|].
    rewrite Forall_forall in Ha, Hb.
    apply Hinj; [left|by right|..].
    - apply (Hb a Ha2).
    - apply (Ha b Hb1). }
  f_equal. apply IH; [|done|by apply (inj (cons a))].
  intros x y Hx Hy. apply Hinj; by right.
Qed.

End SortedUnique.

(** The dict the loop builds lists, in the order of the students, each
    student with the statistics of that student. *)
Lemma collect_results_fmap data students results :
  Forall2 (λ s kv, kv.1 = s ∧ student_stats data s = inr kv.2) students results →
  ∃ stats_of : cell → Stats, results = (λ s, (s, stats_of s)) <$> students.
Proof.
  intros HF.
  exists (λ s, match student_stats data s with
               | inr st => st
               | inl _ => {| 平均点 := PyInt 0; 最高点 := 0; 最低点 := 0;
                             テスト回数 := 0; スコア詳細 := [] |}
               end).
  induction HF as [|s [k st] l r [Hk Hst] _ IH]; [done|].
  cbn [fst snd] in Hk, Hst. subst k. rewrite fmap_cons. cbv beta.
  rewrite Hst. by f_equal.
Qed.

Section RankingOrders.

Variables order1 order2 : SetOrder.
Variable int_of_string : string → option Z.
Variable fs : string → file.

(** The dicts two runs return hold the same items. *)
Lemma returned_dicts_Permutation csv_file r1 r2 :
  outcome (@analyze_student_scores order1 int_of_string fs csv_file) = inr (Some r1) →
  outcome (@analyze_student_scores order2 int_of_string fs csv_file) = inr (Some r2) →
  r1 ≡ₚ r2.
Proof.
  intros H1 H2.
  destruct (outcome (read_records int_of_string fs csv_file)) as [e|data] eqn:Hr.
  { rewrite (@analyze_outcome order1) in H1. unfold analyze_body in H1.
    by rewrite outcome_bind, Hr in H1. }
  pose proof (@analyze_success order1 _ _ _ _ _ Hr H1) as Hc1.
  pose proof (@analyze_success order2 _ _ _ _ _ Hr H2) as Hc2.
  pose proof (collect_results_inr data _ _ (set_list_NoDup _) Hc1) as HF1.
  pose proof (collect_results_inr data _ _ (set_list_NoDup _) Hc2) as HF2.
  destruct (collect_results_fmap _ _ _ HF1) as [f1 ->].
  assert ((λ s, (s, f1 s)) <$> @set_list order2 (名前 <$> data) = r2) as <-.
  { assert (∀ s, s ∈ @set_list order2 (名前 <$> data) →
              student_stats data s = inr (f1 s)) as Hf1.
    { intros s Hs. apply (proj1 (@set_list_elem order2 _ _)) in Hs.
      apply (proj2 (@set_list_elem order1 _ _)) in Hs.
      apply list_elem_of_lookup_1 in Hs as [i Hi].
      destruct (Forall2_lookup_l _ _ _ _ _ HF1 Hi) as ([k' st'] & Hl & Hk' & Hst').
      rewrite list_lookup_fmap, Hi in Hl. cbn in Hl, Hst'. by injection Hl as _ <-. }
    clear Hc2 H2 HF1 Hc1 H1.
    induction HF2 as [|s [k st] l r [Hk Hst] _ IH]; [done|].
    cbn [fst snd] in Hk, Hst. subst k. rewrite fmap_cons. cbv beta.
    rewrite (Hf1 s ltac:(left)) in Hst. injection Hst as <-.
    f_equal. apply IH. intros s' Hs'. apply Hf1. by right. }
  apply fmap_Permutation, NoDup_Permutation; [apply set_list_NoDup..|].
  intros s. by rewrite !set_list_elem.
Qed.

(** X20: without ties the ranking is fixed by the data: when no two
    students have the same mean, two runs on the same file produce the
    same ranking and [create_ranking] prints the same lines for both,
    whatever order the sets of names were listed in.  (With ties the
    tied students follow the order of the dict, which is that order.) *)
Theorem ranking_determined_without_ties csv_file r1 r2 :
  outcome (@analyze_student_scores order1 int_of_string fs csv_file) = inr (Some r1) →
  outcome (@analyze_student_scores order2 int_of_string fs csv_file) = inr (Some r2) →
  (∀ a b, a ∈ r1 → b ∈ r1 → same_mean a b → a = b) →
  sorted_students r1 = sorted_students r2
  ∧ create_ranking r1 = create_ranking r2.
Proof.
  intros H1 H2 Hties.
  pose proof (returned_dicts_Permutation csv_file r1 r2 H1 H2) as Hperm.
  assert (sorted_students r1 = sorted_students r2) as Hsame.
  { unfold sorted_students.
    apply (sorted_desc_unique (λ x : cell * Stats, 平均点 x.2)).
    - intros a b Ha Hb Hab Hba.
      rewrite (sorted_desc_Permutation (λ x : cell * Stats, 平均点 x.2) r1) in Ha, Hb.
      apply Hties; [done..|]. apply Qeq_bool_iff. by apply Qle_antisym.
    - apply sorted_desc_Sorted.
    - apply sorted_desc_Sorted.
    - by rewrite !sorted_desc_Permutation. }
  split; [done|]. unfold create_ranking. rewrite Hsame.
  destruct r1 as [|kv1 r1], r2 as [|kv2 r2]; [done| | |done].
  - by apply Permutation_nil_l in Hperm.
  - by apply Permutation_nil_r in Hperm.
Qed.

End RankingOrders.

(** * The properties on sample inputs *)

(** C1 as stated fails: for the forty scores 3, 0, ..., 0 of one student
    the average is 0.075; rounded to two decimal places it is 0.08 under
    both standard rules (8 hundredths), while the result holds the float
    nearest to 0.07, which is neither 0.08 nor the float nearest to it. *)
Lemma mean_rounding_counterexample :
  outcome (read_records decimal_literal tie_fs csv_file_path) = inr tie_data
  ∧ outcome (analyze_student_scores decimal_literal tie_fs csv_file_path)
    = inr (Some [(Some "A", tie_stats)])
  ∧ スコア <$> filter (λ row, 名前 row = Some "A") tie_data = tie_scores
  ∧ (sum_Z tie_scores = 3 ∧ len tie_scores = 40)
  ∧ float_of_ratio 7 100 = Some (Float 5044031582654956 (-56))
  ∧ ∀ r, round_cents r (sum_Z tie_scores) (len tie_scores) = 8
         ∧ ¬ spec_rounded_mean r tie_scores (平均点 tie_stats).
Proof.
  split_and!; [vm_compute; reflexivity..|done|].
  intros r.
  assert (round_cents r (sum_Z tie_scores) (len tie_scores) = 8) as Hc
    by (by destruct r).
  split; [done|]. unfold spec_rounded_mean. rewrite Hc. cbn [平均点 tie_stats].
  intros [Heq|(f & Hf & Hm)].
  - vm_compute in Heq. done.
  - vm_compute in Hf. congruence.
Qed.

(** The scenario of the specification, run through the model. *)
Example sample_read :
  read_records decimal_literal sample_fs csv_file_path = ([], inr sample_data).
Proof. reflexivity. Qed.

Example sample_analysis :
  outcome (analyze_student_scores decimal_literal sample_fs csv_file_path)
  = inr (Some sample_results).
Proof. vm_compute. reflexivity. Qed.

Example sample_ranking :
  (fst <$> sorted_students sample_results) = [Some "Alice"; Some "Bob"].
Proof. vm_compute. reflexivity. Qed.

(** The conversions of the model agree with the binary64 division of the
    Standard Library's specification of IEEE 754 arithmetic: on all small
    ratios, and at the limits of the format (largest values, overflow,
    subnormal values, underflow to zero). *)
Example float_of_ratio_vs_SFdiv :
  forallb (λ n, forallb (agrees_with_SFdiv n) (Z_range 1 40)) (Z_range (-60) 60)
  && forallb (λ '(n, d), agrees_with_SFdiv n d && agrees_with_SFdiv (- n) d)
             limit_cases
  = true.
Proof. vm_compute. reflexivity. Qed.

(** The values behind the counterexample: 3/40 = 0.075 and 107/40 = 2.675
    as floats lie below the ties, so [round] gives 0.07 and 2.67; 1/40 =
    0.025 lies above, so [round] gives 0.03; 1/8 = 0.125 is exact and goes
    to the even neighbour 0.12. *)
Example round_at_ties :
  (float_of_ratio 3 40 ≫= round_float2, float_of_ratio 7 100)
  = (Some (Float 5044031582654956 (-56)), Some (Float 5044031582654956 (-56)))
  ∧ (float_of_ratio 107 40 ≫= round_float2) = float_of_ratio 267 100
  ∧ (float_of_ratio 1 40 ≫= round_float2) = float_of_ratio 3 100
  ∧ (float_of_ratio 1 8 ≫= round_float2) = float_of_ratio 12 100.
Proof. vm_compute. done. Qed.

Lemma student_statistics_witness :
  outcome (read_records decimal_literal sample_fs csv_file_path) = inr sample_data
  ∧ Some "Alice" ∈ (名前 <$> sample_data)
  ∧ outcome (analyze_student_scores decimal_literal sample_fs csv_file_path)
    = inr (Some sample_results)
  ∧ ∃ stats, dict_get sample_results (Some "Alice") = Some stats
      ∧ テスト回数 stats = 2
      ∧ (∀ x, x ∈ [80; 90] → 最低点 stats ≤ x ≤ 最高点 stats)
      ∧ 平均点 stats = PyInt 85.
Proof.
  assert (outcome (read_records decimal_literal sample_fs csv_file_path)
          = inr sample_data) as Hr by reflexivity.
  assert (outcome (analyze_student_scores decimal_literal sample_fs csv_file_path)
          = inr (Some sample_results)) as Ha by (vm_compute; reflexivity).
  assert (Some "Alice" ∈ (名前 <$> sample_data)) as Hin by (simpl; left).
  split_and!; [done..|].
  destruct (student_statistics_correct decimal_literal sample_fs csv_file_path
              sample_data (Some "Alice") Hr Hin) as [Hstats _].
  destruct (Hstats sample_results Ha)
    as (stats & Hg & Hcnt & [_ Hmax] & [_ Hmin] & Hwhole & _).
  exists stats. split_and!; [done..| |].
  - intros x Hx. split; [by apply Hmin|by apply Hmax].
  - apply Hwhole. by exists 85.
Defined.

Lemma ranking_witness :
  sample_results ≠ []
  ∧ sorted_students sample_results ≡ₚ sample_results
  ∧ Sorted ranked_before (sorted_students sample_results).
Proof.
  assert (sample_results ≠ []) as Hne by done.
  split; [done|].
  destruct (ranking_sorted_by_mean_descending sample_results Hne)
    as (Hperm & Hsorted & _).
  by split.
Defined.

Lemma class_summary_witness :
  sample_results ≠ []
  ∧ ∃ class_max class_min,
      max_int (最高点 <$> values sample_results) = inr class_max
      ∧ min_int (最低点 <$> values sample_results) = inr class_min
      ∧ (∀ stats, stats ∈ values sample_results →
           class_min ≤ 最低点 stats ∧ 最高点 stats ≤ class_max).
Proof.
  assert (sample_results ≠ []) as Hne by done.
  split; [done|].
  destruct (class_summary_correct sample_results Hne)
    as (hi & lo & Hhi & _ & Hhi_le & Hlo & _ & Hlo_le & _).
  exists hi, lo. split_and!; [done..|].
  intros stats Hs. split; [by apply Hlo_le|by apply Hhi_le].
Defined.

Lemma values_in_input_order_witness :
  outcome (read_records decimal_literal sample_fs csv_file_path) = inr sample_data
  ∧ Some "Alice" ∈ (名前 <$> sample_data)
  ∧ outcome (analyze_student_scores decimal_literal sample_fs csv_file_path)
    = inr (Some sample_results)
  ∧ ∃ stats, dict_get sample_results (Some "Alice") = Some stats
      ∧ スコア詳細 stats = [80; 90].
Proof.
  assert (outcome (read_records decimal_literal sample_fs csv_file_path)
          = inr sample_data) as Hr by reflexivity.
  assert (outcome (analyze_student_scores decimal_literal sample_fs csv_file_path)
          = inr (Some sample_results)) as Ha by (vm_compute; reflexivity).
  assert (Some "Alice" ∈ (名前 <$> sample_data)) as Hin by (simpl; left).
  split_and!; [done..|].
  destruct (values_in_input_order decimal_literal sample_fs csv_file_path
              sample_data (Some "Alice") Hr Hin) as [Hv _].
  exact (Hv sample_results Ha).
Defined.

Lemma one_group_witness :
  outcome (read_records decimal_literal sample_fs csv_file_path) = inr sample_data
  ∧ outcome (analyze_student_scores decimal_literal sample_fs csv_file_path)
    = inr (Some sample_results)
  ∧ NoDup (keys sample_results)
  ∧ concat (スコア詳細 <$> values sample_results) ≡ₚ スコア <$> sample_data
  ∧ sum_Z (テスト回数 <$> values sample_results) = len sample_data.
Proof.
  assert (outcome (read_records decimal_literal sample_fs csv_file_path)
          = inr sample_data) as Hr by reflexivity.
  assert (outcome (analyze_student_scores decimal_literal sample_fs csv_file_path)
          = inr (Some sample_results)) as Ha by (vm_compute; reflexivity).
  split_and!; [done..| | |];
    destruct (each_record_in_one_group decimal_literal sample_fs csv_file_path
                sample_data Hr) as (Hres & _);
    destruct (Hres sample_results Ha) as (Hnd & _ & Hperm & Hsum); done.
Defined.

Lemma empty_input_witness :
  outcome (read_records decimal_literal header_only_fs csv_file_path) = inr []
  ∧ outcome (main decimal_literal header_only_fs) = inr tt
  ∧ outcome (analyze_student_scores decimal_literal header_only_fs csv_file_path)
    = inr None.
Proof.
  assert (outcome (read_records decimal_literal header_only_fs csv_file_path)
          = inr []) as Hr by reflexivity.
  split; [done|].
  destruct (empty_input_defined_failure decimal_literal header_only_fs Hr)
    as (_ & -> & ->).
  done.
Defined.

Lemma file_not_found_witness :
  (λ _ : string, Absent) csv_file_path = Absent
  ∧ outcome (main decimal_literal (λ _, Absent)) = inr tt
  ∧ length (output (main decimal_literal (λ _, Absent))) = 3%nat.
Proof.
  split; [done|].
  destruct (file_not_found_aborts decimal_literal (λ _, Absent) eq_refl)
    as (_ & ->).
  done.
Defined.

Lemma period_witness :
  outcome (read_records decimal_literal sample_fs csv_file_path) = inr sample_data
  ∧ sample_data ≠ []
  ∧ 日付 <$> sample_data = Some <$> ["2024-01-01"; "2024-01-02"; "2024-01-01"]
  ∧ ∃ lo hi,
      output (analyze_student_scores decimal_literal sample_fs csv_file_path) !! 4%nat
      = Some (period_line (Some lo) (Some hi)).
Proof.
  assert (outcome (read_records decimal_literal sample_fs csv_file_path)
          = inr sample_data) as Hr by reflexivity.
  assert (sample_data ≠ []) as Hne by done.
  assert (日付 <$> sample_data = Some <$> ["2024-01-01"; "2024-01-02"; "2024-01-01"])
    as Hd by reflexivity.
  split_and!; [done..|].
  destruct (period_is_min_max_date decimal_literal sample_fs csv_file_path
              sample_data _ Hr Hne Hd) as (lo & hi & _ & _ & _ & _ & Hline).
  by exists lo, hi.
Defined.

(** Under another order of the sets the dict lists Bob first and holds
    the same statistics. *)
Example sample_analysis_last_seen :
  outcome (@analyze_student_scores last_seen_order decimal_literal sample_fs
             csv_file_path)
  = inr (Some (reverse sample_results)).
Proof. vm_compute. reflexivity. Qed.

(** * The further properties on sample inputs *)

(** Closes a bound on a number that is written out. *)
Ltac bound_tac := first [apply Z.leb_le | apply Z.ltb_lt]; vm_compute; reflexivity.

Lemma columns_read_by_name_witness :
  column_at shuffled_header "名前" 1 ∧ column_at shuffled_header "日付" 3
  ∧ column_at shuffled_header "科目" 2 ∧ column_at shuffled_header "スコア" 0
  ∧ to_record decimal_literal (row_dict shuffled_header short_row)
    = inr {| 名前 := Some "Alice"; 日付 := None; 科目 := Some "Math"; スコア := 80 |}.
Proof.
  assert (column_at shuffled_header "名前" 1) as Hn by column_at_tac.
  assert (column_at shuffled_header "日付" 3) as Hd by column_at_tac.
  assert (column_at shuffled_header "科目" 2) as Hs by column_at_tac.
  assert (column_at shuffled_header "スコア" 0) as Hc by column_at_tac.
  split_and!; [done..|].
  rewrite (columns_read_by_name decimal_literal shuffled_header short_row
             1 3 2 0 Hn Hd Hs Hc).
  reflexivity.
Defined.

Lemma bad_row_witness :
  bad_score_fs csv_file_path
  = Opened (header :: [["Alice"; "2024-01-01"; "Math"; "80"]]
              ++ ["Bob"; "2024-01-02"; "Math"; "abc"]
              :: [["Carol"; "2024-01-03"; "Math"; "70"]]) None
  ∧ analyze_student_scores decimal_literal bad_score_fs csv_file_path
    = ([[Lit "エラーが発生しました: "; Lit "invalid literal for int() with base 10: ";
         FRepr (Some "abc")]], inr None).
Proof.
  assert (bad_score_fs csv_file_path
          = Opened (header :: [["Alice"; "2024-01-01"; "Math"; "80"]]
                      ++ ["Bob"; "2024-01-02"; "Math"; "abc"]
                      :: [["Carol"; "2024-01-03"; "Math"; "70"]]) None) as Hfs
    by reflexivity.
  split; [done|].
  refine (proj1 (bad_row_aborts_analysis decimal_literal bad_score_fs csv_file_path
    header _ _ _ None
    (Exn ValueError [Lit "invalid literal for int() with base 10: "; FRepr (Some "abc")])
    Hfs _ _ _)).
  - constructor; [|constructor]. right. eexists. reflexivity.
  - discriminate.
  - reflexivity.
Defined.


Lemma overview_counts_witness :
  outcome (read_records decimal_literal sample_fs csv_file_path) = inr sample_data
  ∧ take 4 (output (analyze_student_scores decimal_literal sample_fs csv_file_path))
    = overview_lines 3 2 1.
Proof.
  assert (outcome (read_records decimal_literal sample_fs csv_file_path)
          = inr sample_data) as Hr by reflexivity.
  split; [done|].
  destruct (overview_counts decimal_literal sample_fs csv_file_path sample_data Hr)
    as [-> _].
  reflexivity.
Defined.

Lemma returned_dict_witness :
  outcome (read_records decimal_literal sample_fs csv_file_path) = inr sample_data
  ∧ outcome (analyze_student_scores decimal_literal sample_fs csv_file_path)
    = inr (Some sample_results)
  ∧ sample_results ≠ []
  ∧ (∀ k, k ∈ keys sample_results ↔ k ∈ (名前 <$> sample_data))
  ∧ len sample_results = 2.
Proof.
  assert (outcome (read_records decimal_literal sample_fs csv_file_path)
          = inr sample_data) as Hr by reflexivity.
  assert (outcome (analyze_student_scores decimal_literal sample_fs csv_file_path)
          = inr (Some sample_results)) as Ha by (vm_compute; reflexivity).
  split_and!; [done..| | |];
    destruct (returned_dict_covers_names decimal_literal sample_fs csv_file_path
                sample_data sample_results Hr Ha) as (Hne & _ & Hkeys & Hlen); done.
Defined.

Lemma gold_medal_witness :
  sample_results ≠ []
  ∧ ∃ top, head (sorted_students sample_results) = Some top
      ∧ ∀ x, x ∈ sample_results → num_le (平均点 x.2) (平均点 top.2).
Proof.
  assert (sample_results ≠ []) as Hne by done.
  split; [done|].
  destruct (gold_medal_is_best sample_results Hne) as (top & Hhead & _ & Hbest & _).
  by exists top.
Defined.

Lemma ranking_needs_names_witness :
  Forall (λ stats, in_float_range (平均点 stats)) (values nameless_results)
  ∧ None ∈ keys nameless_results
  ∧ ∃ e, outcome (create_ranking nameless_results) = inl e
         ∧ exn_type e = TypeError.
Proof.
  assert (Forall (λ stats, in_float_range (平均点 stats)) (values nameless_results))
    as Hall.
  { repeat constructor; simpl; unfold Qle; simpl; bound_tac. }
  assert (None ∈ keys nameless_results) as Hin by (simpl; left).
  split_and!; [done..|].
  exact (proj2 (ranking_needs_names nameless_results Hall) Hin).
Defined.

Lemma main_completes_witness :
  outcome (read_records decimal_literal sample_fs csv_file_path) = inr sample_data
  ∧ sample_data ≠ []
  ∧ 日付 <$> sample_data = Some <$> ["2024-01-01"; "2024-01-02"; "2024-01-01"]
  ∧ 名前 <$> sample_data = Some <$> ["Alice"; "Alice"; "Bob"]
  ∧ Forall (λ row, Z.abs (スコア row) ≤ DBL_MAX) sample_data
  ∧ outcome (main decimal_literal sample_fs) = inr tt.
Proof.
  assert (outcome (read_records decimal_literal sample_fs csv_file_path)
          = inr sample_data) as Hr by reflexivity.
  assert (sample_data ≠ []) as Hne by done.
  assert (日付 <$> sample_data = Some <$> ["2024-01-01"; "2024-01-02"; "2024-01-01"])
    as Hd by reflexivity.
  assert (名前 <$> sample_data = Some <$> ["Alice"; "Alice"; "Bob"])
    as Hn by reflexivity.
  assert (Forall (λ row, Z.abs (スコア row) ≤ DBL_MAX) sample_data) as Hb
    by (repeat constructor; bound_tac).
  split_and!; [done..|].
  destruct (main_completes decimal_literal sample_fs sample_data _ _ Hr Hne Hd Hn Hb)
    as (results & _ & _ & _ & ->).
  reflexivity.
Defined.

Lemma main_raises_witness :
  outcome (read_records decimal_literal nameless_fs csv_file_path) = inr nameless_data
  ∧ 日付 <$> nameless_data = Some <$> ["2024-01-01"]
  ∧ Forall (λ row, Z.abs (スコア row) ≤ DBL_MAX) nameless_data
  ∧ None ∈ (名前 <$> nameless_data)
  ∧ ∃ e, outcome (main decimal_literal nameless_fs) = inl e
         ∧ exn_type e = TypeError.
Proof.
  assert (outcome (read_records decimal_literal nameless_fs csv_file_path)
          = inr nameless_data) as Hr by reflexivity.
  assert (日付 <$> nameless_data = Some <$> ["2024-01-01"]) as Hd by reflexivity.
  assert (Forall (λ row, Z.abs (スコア row) ≤ DBL_MAX) nameless_data) as Hb
    by (repeat constructor; bound_tac).
  assert (None ∈ (名前 <$> nameless_data)) as Hin by (simpl; left).
  split_and!; [done..|].
  exact (main_raises_on_missing_name decimal_literal nameless_fs nameless_data _
           Hr Hd Hb Hin).
Defined.

Lemma mean_between_witness :
  outcome (read_records decimal_literal sample_fs csv_file_path) = inr sample_data
  ∧ outcome (analyze_student_scores decimal_literal sample_fs csv_file_path)
    = inr (Some sample_results)
  ∧ Forall (λ row, Z.abs (スコア row) < 2 ^ 52) sample_data
  ∧ ∃ stats, dict_get sample_results (Some "Alice") = Some stats
      ∧ num_between (最低点 stats) (最高点 stats) (平均点 stats).
Proof.
  assert (outcome (read_records decimal_literal sample_fs csv_file_path)
          = inr sample_data) as Hr by reflexivity.
  assert (outcome (analyze_student_scores decimal_literal sample_fs csv_file_path)
          = inr (Some sample_results)) as Ha by (vm_compute; reflexivity).
  assert (Forall (λ row, Z.abs (スコア row) < 2 ^ 52) sample_data) as Hb
    by (repeat constructor; bound_tac).
  split_and!; [done..|].
  eexists. split; [reflexivity|].
  exact (proj2 (mean_between_min_and_max decimal_literal sample_fs csv_file_path
           sample_data sample_results (Some "Alice") _ Hr Ha Hb eq_refl)).
Defined.

Lemma class_summary_within_witness :
  outcome (read_records decimal_literal sample_fs csv_file_path) = inr sample_data
  ∧ outcome (analyze_student_scores decimal_literal sample_fs csv_file_path)
    = inr (Some sample_results)
  ∧ Forall (λ row, Z.abs (スコア row) < 2 ^ 52) sample_data
  ∧ ∃ class_mean class_max class_min,
      display_class sample_results
      = (summary_lines class_mean class_max class_min, inr tt)
      ∧ (∀ x, x ∈ (スコア <$> sample_data) → class_min ≤ x ≤ class_max)
      ∧ num_between class_min class_max (PyFloat class_mean).
Proof.
  assert (outcome (read_records decimal_literal sample_fs csv_file_path)
          = inr sample_data) as Hr by reflexivity.
  assert (outcome (analyze_student_scores decimal_literal sample_fs csv_file_path)
          = inr (Some sample_results)) as Ha by (vm_compute; reflexivity).
  assert (Forall (λ row, Z.abs (スコア row) < 2 ^ 52) sample_data) as Hb
    by (repeat constructor; bound_tac).
  split_and!; [done..|].
  destruct (class_summary_within_scores decimal_literal sample_fs csv_file_path
              sample_data sample_results Hr Ha Hb)
    as (f & hi & lo & Hd & _ & _ & Hall & Hbetween).
  by exists f, hi, lo.
Defined.

Lemma subject_analysis_witness :
  outcome (read_records decimal_literal sample_fs csv_file_path) = inr sample_data
  ∧ Forall (λ row, Z.abs (スコア row) ≤ DBL_MAX) sample_data
  ∧ ∃ blocks,
      analyze_by_subject decimal_literal sample_fs csv_file_path =
        ([Lit nl; Lit "📖 科目別分析"] :: [Lit (str_mul "=" 50)]
           :: concat blocks ++ [[Lit (str_mul "=" 50)]], inr tt)
      ∧ length blocks = 1%nat.
Proof.
  assert (outcome (read_records decimal_literal sample_fs csv_file_path)
          = inr sample_data) as Hr by reflexivity.
  assert (Forall (λ row, Z.abs (スコア row) ≤ DBL_MAX) sample_data) as Hb
    by (repeat constructor; bound_tac).
  split_and!; [done..|].
  destruct (subject_analysis_correct decimal_literal sample_fs csv_file_path
              sample_data Hr Hb) as (blocks & Hout & HF).
  exists blocks. split; [done|].
  exact (eq_sym (Forall2_length _ _ _ HF)).
Defined.

Lemma display_witness :
  sample_results ≠ []
  ∧ Forall (λ stats, in_float_range (平均点 stats)) (values sample_results)
  ∧ ∃ blocks : list (list line), length blocks = 2%nat
      ∧ length (output (display_results sample_results))
        = (3 + length (concat blocks) + 5)%nat.
Proof.
  assert (sample_results ≠ []) as Hne by done.
  assert (Forall (λ stats, in_float_range (平均点 stats)) (values sample_results))
    as Hall.
  { repeat constructor; simpl; unfold Qle; simpl; bound_tac. }
  split_and!; [done..|].
  destruct (display_shows_every_student sample_results Hne Hall)
    as (blocks & f & hi & lo & -> & Hlen & _).
  exists blocks. split; [done|]. unfold output. simpl.
  rewrite length_app. simpl. lia.
Defined.

Lemma well_formed_file_witness :
  sample_fs csv_file_path = Opened (header :: tail sample_rows) None
  ∧ read_records decimal_literal sample_fs csv_file_path = ([], inr sample_data).
Proof.
  assert (sample_fs csv_file_path = Opened (header :: tail sample_rows) None)
    as Hfs by reflexivity.
  split; [done|].
  apply (well_formed_file_is_read decimal_literal sample_fs csv_file_path
           (tail sample_rows) sample_data Hfs).
  repeat constructor; do 4 eexists; split_and!; reflexivity.
Defined.

Lemma ranking_determined_witness :
  outcome (@analyze_student_scores first_seen_order decimal_literal sample_fs
             csv_file_path) = inr (Some sample_results)
  ∧ outcome (@analyze_student_scores last_seen_order decimal_literal sample_fs
               csv_file_path) = inr (Some (reverse sample_results))
  ∧ (∀ a b, a ∈ sample_results → b ∈ sample_results → same_mean a b → a = b)
  ∧ sorted_students sample_results = sorted_students (reverse sample_results).
Proof.
  assert (outcome (@analyze_student_scores first_seen_order decimal_literal
                     sample_fs csv_file_path) = inr (Some sample_results)) as H1
    by (vm_compute; reflexivity).
  assert (outcome (@analyze_student_scores last_seen_order decimal_literal
                     sample_fs csv_file_path) = inr (Some (reverse sample_results)))
    as H2 by (vm_compute; reflexivity).
  assert (∀ a b, a ∈ sample_results → b ∈ sample_results → same_mean a b → a = b)
    as Hties.
  { intros a b Ha Hb. unfold sample_results in Ha, Hb.
    repeat (apply elem_of_cons in Ha as [->|Ha]);
      [| |by apply elem_of_nil in Ha];
      (repeat (apply elem_of_cons in Hb as [->|Hb]);
        [| |by apply elem_of_nil in Hb]); first [reflexivity | discriminate]. }
  split_and!; [done..|].
  exact (proj1 (ranking_determined_without_ties first_seen_order last_seen_order
                  decimal_literal sample_fs csv_file_path _ _ H1 H2 Hties)).
Defined.
